(** * Reliable Parts backend: semantic search, intent parsing, upsells, replies

    A shallow embedding of the Python modules
      - [semantic_search.py]        (embedding store, ranking),
      - [gpt_query_processor.py]    (intent parser and its rule-based fallback),
      - [gpt_response_generator.py] (upsell selection, reply composition),
      - [intelligent_search.py]     (the orchestrator),
    followed by the properties of the specification that concern them.

    Conventions of the embedding.
      - A Python value is a [pyval]; a [dict] with string keys is a
        [gmap string pyval]; a float that is neither NaN nor infinite is the
        rational it denotes, so comparisons are exact.
      - A Python call that may raise returns a [result]; [try/except] is
        [try_except].
      - Calls that leave the process (the chat model, the embedding service,
        [pickle], [json], [sklearn], [numpy.argsort], the text of a formatted
        float, Unicode case mapping) are parameters of the sections below:
        the theorems hold for every behaviour of these collaborators, and
        ASCII instances are given so that the definitions run.
      - A SQLite table is the list of its rows in scan order; a row is the
        [dict] that [dict(sqlite3.Row)] builds.  Opening the database is
        assumed to succeed. *)

From Stdlib Require Import QArith.
From stdpp Require Import gmap strings list sorting pretty.

#[local] Set Warnings "-register-all".
#[local] Open Scope Z_scope.
#[local] Open Scope nat_scope.

(** ** Python values, exceptions, results *)

Inductive pyval : Type :=
  | PyNone
  | PyBool (b : bool)
  | PyInt (z : Z)
  | PyFloat (q : Q)
  | PyStr (s : string)
  | PyBytes (s : string)
  | PyList (l : list pyval)
  | PyDict (d : gmap string pyval).

Abbreviation pydict := (gmap string pyval).

Inductive exn : Type :=
  | ValueError
  | TypeError
  | KeyError
  | IndexError
  | JSONDecodeError
  | UnpicklingError
  | APIError
  | GPTCallFailed
  | InterfaceError.

Inductive result (A : Type) : Type :=
  | Returned (a : A)
  | Raised (e : exn).
Arguments Returned {A} a.
Arguments Raised {A} e.

Definition bind {A B} (r : result A) (k : A → result B) : result B :=
  match r with
  | Returned a => k a
  | Raised e => Raised e
  end.

Notation "'do' x <- r ; k" := (bind r (fun x => k))
  (at level 10, x name, r at level 100, k at level 200).

(** [try: body except Exception: handler] *)
Definition try_except {A} (body : result A) (handler : exn → result A) : result A :=
  match body with
  | Returned a => Returned a
  | Raised e => handler e
  end.

Definition raises {A} (r : result A) : Prop := ∃ e, r = Raised e.

Fixpoint mapM_result {A B} (f : A → result B) (l : list A) : result (list B) :=
  match l with
  | [] => Returned []
  | x :: l' => do y <- f x; do ys <- mapM_result f l'; Returned (y :: ys)
  end.

(** Truth value of an object, as [if x:] and [not x] test it. *)
Definition py_truthy (v : pyval) : bool :=
  match v with
  | PyNone => false
  | PyBool b => b
  | PyInt z => negb (z =? 0)%Z
  | PyFloat q => negb (Qeq_bool q 0)
  | PyStr s => negb (String.eqb s "")
  | PyBytes s => negb (String.eqb s "")
  | PyList l => match l with [] => false | _ => true end
  | PyDict d => negb (size d =? 0)%nat
  end.

(** [x is None] *)
Definition py_is_none (v : pyval) : bool :=
  match v with
  | PyNone => true
  | _ => false
  end.

(** [d.get(k)] and [d.get(k, default)] *)
Definition dict_get (d : pydict) (k : string) : pyval := default PyNone (d !! k).
Definition dict_get_or (d : pydict) (k : string) (dflt : pyval) : pyval :=
  default dflt (d !! k).

(** [d[k]] *)
Definition dict_item (d : pydict) (k : string) : result pyval :=
  match d !! k with
  | Some v => Returned v
  | None => Raised KeyError
  end.

(** [l[i]] for an index [i >= 0] *)
Definition list_item {A} (l : list A) (i : nat) : result A :=
  match l !! i with
  | Some x => Returned x
  | None => Raised IndexError
  end.

(** Slices.  [slice_from start l] is [l[start:]]: a negative start counts
    from the end, and both ends are clamped to the list. *)
Definition slice_start (len : nat) (start : Z) : nat :=
  if (start <? 0)%Z then Z.to_nat (Z.max 0 (start + Z.of_nat len))
  else Z.to_nat (Z.min start (Z.of_nat len)).

Definition slice_from {A} (start : Z) (l : list A) : list A :=
  drop (slice_start (length l) start) l.

(** [l[:n]] for a literal [n >= 0], and [l[::-1]] *)
Definition slice_to {A} (n : nat) (l : list A) : list A := take n l.
Definition slice_rev {A} (l : list A) : list A := reverse l.

(** A number as [format] and [>] see it; a bool is the int it is. *)
Definition py_number (v : pyval) : option Q :=
  match v with
  | PyBool b => Some (if b then 1%Q else 0%Q)
  | PyInt z => Some (inject_Z z)
  | PyFloat q => Some q
  | _ => None
  end.

(** ** SQLite, as far as the queries of the backend use it *)

(** [SELECT c1, ..., cn]: the row restricted to the named columns; a NULL
    (or a column the row does not carry) reads as [None]. *)
Definition select_columns (columns : list string) (row : pydict) : pydict :=
  list_to_map ((λ c, (c, dict_get row c)) <$> columns).

(** Binding a Python value to a [?]: [sqlite3] adapts None, int, float,
    str and bytes (a bool as the int it is) and refuses the rest. *)
Definition sql_bind (v : pyval) : result pyval :=
  match v with
  | PyBool b => Returned (PyInt (if b then 1 else 0))
  | PyList _ | PyDict _ => Raised InterfaceError
  | _ => Returned v
  end.

(** [a = b] in three-valued logic ([None] is SQL's NULL): numbers compare
    by value, text and blobs by content, different storage classes differ. *)
Definition sql_eq (a b : pyval) : option bool :=
  match a, b with
  | PyNone, _ | _, PyNone => None
  | PyStr x, PyStr y => Some (String.eqb x y)
  | PyBytes x, PyBytes y => Some (String.eqb x y)
  | _, _ =>
      match py_number a, py_number b with
      | Some x, Some y => Some (Qeq_bool x y)
      | _, _ => Some false
      end
  end.

Definition sql_true (t : option bool) : bool :=
  match t with
  | Some true => true
  | _ => false
  end.

Definition sql_not (t : option bool) : option bool := negb <$> t.

Definition sql_and (s t : option bool) : option bool :=
  match s, t with
  | Some false, _ | _, Some false => Some false
  | Some true, Some true => Some true
  | _, _ => None
  end.

(** [x IN (v1, ..., vn)]; SQLite accepts the empty list, where the answer
    is false whatever [x] is. *)
Definition sql_in (x : pyval) (vs : list pyval) : option bool :=
  match vs with
  | [] => Some false
  | _ =>
      if existsb (λ v, sql_true (sql_eq x v)) vs then Some true
      else if py_is_none x || existsb py_is_none vs then None
      else Some false
  end.

(** [LIMIT n]: a negative [n] is no limit. *)
Definition sql_limit {A} (n : Z) (rows : list A) : list A :=
  if (n <? 0)%Z then rows else take (Z.to_nat n) rows.

(** ** semantic_search.py *)

(** [similarities[i]] read as a number (0 outside the array, where the
    code below never reads). *)
Definition sim_at (similarities : list Q) (i : nat) : Q := nth i similarities 0%Q.

(** What [numpy.argsort] promises for an array of finite floats: the
    indices of the array, each once, in an order along which the values do
    not decrease.  The order among equal values is left to the sorting
    kind. *)
Definition argsort_spec (similarities : list Q) (order : list nat) : Prop :=
  order ≡ₚ seq 0 (length similarities) ∧
  StronglySorted (λ i j, (sim_at similarities i <= sim_at similarities j)%Q) order.

(** An argsort that meets the contract and runs, used to evaluate the
    ranking on examples: a stable one ([kind='stable']), where equal values
    keep their index order.  The default kind of [numpy.argsort] need not
    be stable; the theorems on the ranking quantify over the argsort. *)
Fixpoint insert_index (similarities : list Q) (i : nat) (order : list nat) : list nat :=
  match order with
  | [] => [i]
  | j :: order' =>
      if Qle_bool (sim_at similarities j) (sim_at similarities i)
      then j :: insert_index similarities i order'
      else i :: order
  end.

Definition argsort_stable (similarities : list Q) : list nat :=
  foldl (λ order i, insert_index similarities i order) [] (seq 0 (length similarities)).

Definition similarity_of (product : pydict) : Q :=
  match product !! "similarity" with
  | Some (PyFloat q) => q
  | _ => 0%Q
  end.

(** [np.array] of a list of vectors: the rows of a matrix have one length,
    and vectors of different lengths raise [ValueError]. *)
Definition np_array (embeddings : list (list Q)) : result (list (list Q)) :=
  match embeddings with
  | [] => Returned []
  | first :: rest =>
      if forallb (λ embedding, length embedding =? length first) rest
      then Returned embeddings
      else Raised ValueError
  end.

Section SemanticSearch.
(** [numpy.argsort], [pickle.loads], the embedding service and
    [sklearn.metrics.pairwise.cosine_similarity]. *)
Variable argsort : list Q → list nat.
Variable pickle_loads : string → result (list Q).
Variable embed_search_query : string → result (list Q).
Variable cosine_similarity : list Q → list (list Q) → result (list Q).

(** The rows that the SELECT of [load_product_embeddings] returns: six
    columns of the rows [WHERE embedding IS NOT NULL]. *)
Definition rows_with_embedding (db : list pydict) : list pydict :=
  select_columns ["sku"; "product_name"; "brand"; "category"; "sale_price"; "embedding"]
    <$> filter (λ row, py_is_none (dict_get row "embedding") = false) db.

Definition decode_embedding (payload : pyval) : result (list Q) :=
  match payload with
  | PyBytes b => pickle_loads b
  | _ => Raised TypeError
  end.

(** The loop of [load_product_embeddings]: a row whose payload is falsy
    or does not decode is skipped. *)
Fixpoint load_rows (rows : list pydict) : list pydict * list (list Q) :=
  match rows with
  | [] => ([], [])
  | product :: rows' =>
      let '(products, embeddings) := load_rows rows' in
      if py_truthy (dict_get product "embedding") then
        match decode_embedding (dict_get product "embedding") with
        | Returned embedding => (product :: products, embedding :: embeddings)
        | Raised _ => (products, embeddings)
        end
      else (products, embeddings)
  end.

(** The last line of [load_product_embeddings]:
    [np.array(embeddings) if embeddings else np.array([])]. *)
Definition load_product_embeddings (db : list pydict)
  : result (list pydict * list (list Q)) :=
  let '(products, embeddings) := load_rows (rows_with_embedding db) in
  do matrix <- np_array embeddings;
  Returned (products, matrix).

(** [np.argsort(similarities)[-top_k:][::-1]] *)
Definition top_indices (similarities : list Q) (top_k : Z) : list nat :=
  slice_rev (slice_from (- top_k) (argsort similarities)).

(** One turn of the result loop. *)
Definition build_result (products : list pydict) (similarities : list Q)
    (idx : nat) : result pydict :=
  do product <- list_item products idx;
  do s <- list_item similarities idx;
  Returned (<["similarity" := PyFloat s]> product).

(** The ranking step: lines 79-89 of [search_products]. *)
Definition rank_results (products : list pydict) (similarities : list Q)
    (top_k : Z) : result (list pydict) :=
  mapM_result (build_result products similarities) (top_indices similarities top_k).

Definition search_products (db : list pydict) (query_text : string) (top_k : Z)
  : result (list pydict) :=
  try_except
    (do loaded <- load_product_embeddings db;
     let '(products, embeddings) := loaded in
     if (length products =? 0)%nat then Returned []
     else
       do query_embedding <- embed_search_query query_text;
       do similarities <- cosine_similarity query_embedding embeddings;
       rank_results products similarities top_k)
    (λ _, Returned []).

Definition hybrid_search (db : list pydict) (query_text : string) (top_k : Z)
  : result (list pydict) :=
  search_products db query_text top_k.

End SemanticSearch.

(** ** Strings *)

Definition NL : string := String (Ascii.ascii_of_nat 10) "".
Definition DQ : string := String (Ascii.ascii_of_nat 34) "".

(** [needle in haystack] on two [str] *)
Fixpoint str_contains (needle haystack : string) : bool :=
  String.prefix needle haystack ||
  match haystack with
  | EmptyString => false
  | String _ haystack' => str_contains needle haystack'
  end.

(** ASCII case mapping; exact for [str.lower], [str.upper] and
    [str.title] on ASCII text. *)
Definition is_upper (c : Ascii.ascii) : bool :=
  (65 <=? Ascii.nat_of_ascii c) && (Ascii.nat_of_ascii c <=? 90).
Definition is_lower (c : Ascii.ascii) : bool :=
  (97 <=? Ascii.nat_of_ascii c) && (Ascii.nat_of_ascii c <=? 122).
Definition lower_char (c : Ascii.ascii) : Ascii.ascii :=
  if is_upper c then Ascii.ascii_of_nat (Ascii.nat_of_ascii c + 32) else c.
Definition upper_char (c : Ascii.ascii) : Ascii.ascii :=
  if is_lower c then Ascii.ascii_of_nat (Ascii.nat_of_ascii c - 32) else c.

Fixpoint ascii_lower (s : string) : string :=
  match s with
  | EmptyString => EmptyString
  | String c s' => String (lower_char c) (ascii_lower s')
  end.

Fixpoint ascii_upper (s : string) : string :=
  match s with
  | EmptyString => EmptyString
  | String c s' => String (upper_char c) (ascii_upper s')
  end.

(** [s.title()]: a letter that follows a letter is lower-cased, any other
    letter is upper-cased. *)
Fixpoint title_from (after_letter : bool) (s : string) : string :=
  match s with
  | EmptyString => EmptyString
  | String c s' =>
      String (if after_letter then lower_char c else upper_char c)
             (title_from (is_upper c || is_lower c) s')
  end.
Definition ascii_title (s : string) : string := title_from false s.

(** [s.split()]: the maximal runs of characters that are not white space
    (ASCII white space here: 9-13, 28-31 and 32). *)
Definition is_space (c : Ascii.ascii) : bool :=
  let n := Ascii.nat_of_ascii c in
  ((9 <=? n) && (n <=? 13)) || ((28 <=? n) && (n <=? 32)).

Fixpoint split_from (word : string) (s : string) : list string :=
  match s with
  | EmptyString => if String.eqb word "" then [] else [word]
  | String c s' =>
      if is_space c
      then (if String.eqb word "" then split_from "" s' else word :: split_from "" s')
      else split_from (word +:+ String c "") s'
  end.
Definition ascii_split (s : string) : list string := split_from "" s.

(** ** gpt_query_processor.py *)

(** The brand list and the category table of [create_fallback_parse], in
    the order the loops visit them. *)
Definition brands : list string :=
  ["whirlpool"; "ge"; "samsung"; "lg"; "frigidaire"; "bosch"; "kitchenaid"; "maytag"].

Definition categories : list (string * list string) :=
  [ ("refrigerator", ["fridge"; "refrigerator"; "freezer"]);
    ("dishwasher", ["dishwasher"]);
    ("washer", ["washer"; "washing machine"]);
    ("dryer", ["dryer"]) ].

Definition required_fields : list string :=
  ["intent"; "part_type"; "brand"; "category"; "keywords"].

(** [field in parsed_query], for whatever [json.loads] returned. *)
Definition py_contains (container : pyval) (field : string) : result bool :=
  match container with
  | PyDict d => Returned (bool_decide (is_Some (d !! field)))
  | PyList l =>
      Returned (existsb (λ v, match v with PyStr s => String.eqb s field | _ => false end) l)
  | PyStr s => Returned (str_contains field s)
  | _ => Raised TypeError
  end.

(** [parsed_query[field] = value] with a [str] key. *)
Definition py_setitem (container : pyval) (field : string) (value : pyval)
  : result pyval :=
  match container with
  | PyDict d => Returned (PyDict (<[field := value]> d))
  | _ => Raised TypeError
  end.

Definition fill_field (parsed_query : pyval) (field : string) : result pyval :=
  do present <- py_contains parsed_query field;
  if present then Returned parsed_query else py_setitem parsed_query field PyNone.

Fixpoint fill_fields (parsed_query : pyval) (fields : list string) : result pyval :=
  match fields with
  | [] => Returned parsed_query
  | field :: fields' =>
      do parsed_query' <- fill_field parsed_query field;
      fill_fields parsed_query' fields'
  end.

Definition opt_str (o : option string) : pyval :=
  match o with
  | Some s => PyStr s
  | None => PyNone
  end.

Section QueryProcessor.
(** [str.lower] and [str.split] of the interpreter, the chat endpoint
    (system prompt, user message, temperature, max_tokens; the answer is
    [response.choices[0].message.content]), [json.loads], the text of
    the system prompt and the API key of the environment. *)
Variable str_lower : string → string.
Variable str_split : string → list string.
Variable chat_create : string → string → Q → Z → result pyval.
Variable json_loads : string → option pyval.
Variable GPT_SYSTEM_PROMPT : string.
Variable OPENAI_API_KEY : option string.

Definition call_gpt_api (system_prompt user_message : string)
    (temperature : Q) (max_tokens : Z) : result pyval :=
  try_except (chat_create system_prompt user_message temperature max_tokens)
             (λ _, Raised GPTCallFailed).

(** The first brand of the list that occurs in the lower-cased query. *)
Definition detect_brand (query_text : string) : option string :=
  ascii_title <$> List.find (λ brand, str_contains brand (str_lower query_text)) brands.

(** The first category of the table one of whose keywords occurs. *)
Definition detect_category (query_text : string) : option string :=
  fst <$> List.find
    (λ entry, existsb (λ keyword, str_contains keyword (str_lower query_text)) (snd entry))
    categories.

Definition create_fallback_parse (query_text : string) : pydict :=
  let words := str_split (str_lower query_text) in
  let detected_brand := detect_brand query_text in
  let detected_category := detect_category query_text in
  list_to_map
    [ ("intent", PyStr "find_part");
      ("part_type", PyNone);
      ("brand", opt_str detected_brand);
      ("model_number", PyNone);
      ("category", opt_str detected_category);
      ("keywords", PyList (PyStr <$> slice_to 10 words));
      ("price_sensitivity", PyNone);
      ("urgency", PyStr "normal");
      ("fallback", PyBool true) ].

(** [json.loads(response_text)] *)
Definition loads (response_text : pyval) : result pyval :=
  match response_text with
  | PyStr s =>
      match json_loads s with
      | Some v => Returned v
      | None => Raised JSONDecodeError
      end
  | PyBytes s =>
      match json_loads s with
      | Some v => Returned v
      | None => Raised JSONDecodeError
      end
  | _ => Raised TypeError
  end.

(** [client] is [None] or a client object; a client is made from the
    environment when none is passed. *)
Definition parse_query_with_gpt (query_text : string) (client : option unit)
  : result pyval :=
  do _ <- match client with
          | Some c => Returned c
          | None =>
              match OPENAI_API_KEY with
              | Some key => if String.eqb key "" then Raised ValueError else Returned tt
              | None => Raised ValueError
              end
          end;
  try_except
    (do response_text <- call_gpt_api GPT_SYSTEM_PROMPT query_text (1 # 10) 300;
     do parsed_query <- loads response_text;
     fill_fields parsed_query required_fields)
    (λ _, Returned (PyDict (create_fallback_parse query_text))).

Definition extract_query_intent (query_text : string) (client : option unit)
  : result pyval :=
  parse_query_with_gpt query_text client.

End QueryProcessor.

(** ** gpt_response_generator.py *)

(** [a > b] on the values a row can hold: numbers by value, [str] with
    [str] and [bytes] with [bytes] by content; any other pairing is
    reported as the [TypeError] that mixed operands raise. *)
Definition py_gt (a b : pyval) : result bool :=
  match py_number a, py_number b with
  | Some x, Some y => Returned (negb (Qle_bool x y))
  | _, _ =>
      match a, b with
      | PyStr x, PyStr y => Returned (String.ltb y x)
      | PyBytes x, PyBytes y => Returned (String.ltb y x)
      | _, _ => Raised TypeError
      end
  end.

(** The primary SKUs that [suggest_upsells] excludes:
    [[p.get('sku') for p in primary_products if p.get('sku')]] *)
Definition primary_skus (primary_products : list pydict) : list pyval :=
  filter (λ sku, py_truthy sku = true) ((λ p, dict_get p "sku") <$> primary_products).

(** The WHERE clause of the query that [suggest_upsells] runs:
    [sku NOT IN (...) AND brand = ? AND in_stock = 1] *)
Definition upsell_where (skus : list pyval) (brand : pyval) (row : pydict) : bool :=
  sql_true
    (sql_and
       (sql_and (sql_not (sql_in (dict_get row "sku") skus))
                (sql_eq (dict_get row "brand") brand))
       (sql_eq (dict_get row "in_stock") (PyInt 1))).

(** Only the statements before the first [return] of the [try] block run;
    the price band and the category exclusion that follow the [except]
    clause in the source are never reached. *)
Definition suggest_upsells (db : list pydict) (primary_products : list pydict)
    (num_suggestions : Z) : result (list pydict) :=
  match primary_products with
  | [] => Returned []
  | first :: _ =>
      try_except
        (let primary_brand := dict_get_or first "brand" (PyStr "") in
         let skus := primary_skus primary_products in
         do bound_skus <- mapM_result sql_bind skus;
         do bound_brand <- sql_bind primary_brand;
         Returned (sql_limit num_suggestions
                     (filter (λ row, upsell_where bound_skus bound_brand row = true) db)))
        (λ _, Returned [])
  end.

Section ResponseGenerator.
(** [str()] of a float, bytes, list or dict; the text of
    [format(x, '.nf')] for a number; [s[:n]] on a [str] (code points);
    the chat endpoint; the system prompt; the products table found at
    [config.DATABASE_PATH]. *)
Variable py_repr : pyval → string.
Variable format_fixed : nat → Q → string.
Variable str_take : nat → string → string.
Variable chat_create : string → string → Q → Z → result pyval.
Variable RESPONSE_SYSTEM_PROMPT : string.
Variable config_DATABASE : list pydict.

(** [f"{v}"] *)
Definition py_str (v : pyval) : string :=
  match v with
  | PyStr s => s
  | PyNone => "None"
  | PyBool true => "True"
  | PyBool false => "False"
  | PyInt z => pretty z
  | _ => py_repr v
  end.

(** [f"{v:.nf}"] *)
Definition py_format_f (digits : nat) (v : pyval) : result string :=
  match v with
  | PyStr _ => Raised ValueError
  | _ =>
      match py_number v with
      | Some q => Returned (format_fixed digits q)
      | None => Raised TypeError
      end
  end.

(** [v[:n]] *)
Definition py_slice_to (n : nat) (v : pyval) : result pyval :=
  match v with
  | PyStr s => Returned (PyStr (str_take n s))
  | PyBytes s => Returned (PyBytes (String.substring 0 n s))
  | PyList l => Returned (PyList (take n l))
  | _ => Raised TypeError
  end.

Definition format_product (i : nat) (product : pydict) (include_descriptions : bool)
  : result string :=
  let parts :=
    [ NL +:+ "Product " +:+ pretty i +:+ ":";
      "- Name: " +:+ py_str (dict_get_or product "product_name" (PyStr "N/A"));
      "- SKU: " +:+ py_str (dict_get_or product "sku" (PyStr "N/A")) ] in
  do parts <-
    (if py_truthy (dict_get product "brand")
     then do brand <- dict_item product "brand";
          Returned (parts ++ ["- Brand: " +:+ py_str brand])
     else Returned parts);
  let regular_price := dict_get product "regular_price" in
  let sale_price := dict_get product "sale_price" in
  do parts <-
    (if py_truthy sale_price then
       do discounted <- (if py_truthy regular_price
                         then py_gt regular_price sale_price
                         else Returned false);
       if discounted then
         let discount := dict_get_or product "discount_percent" (PyInt 0) in
         do s <- py_format_f 2 sale_price;
         do r <- py_format_f 2 regular_price;
         do d <- py_format_f 0 discount;
         Returned (parts ++ ["- Price: $" +:+ s +:+ " (was $" +:+ r +:+ ", " +:+ d +:+ "% off)"])
       else
         do s <- py_format_f 2 sale_price;
         Returned (parts ++ ["- Price: $" +:+ s])
     else Returned parts);
  let stock_status := dict_get_or product "stock_status" (PyStr "Unknown") in
  let in_stock := dict_get_or product "in_stock" (PyBool false) in
  let parts :=
    if py_truthy in_stock
    then parts ++ ["- Stock: " +:+ py_str stock_status +:+ " ✓"]
    else parts ++ ["- Stock: " +:+ py_str stock_status] in
  do parts <-
    (if py_truthy (dict_get product "compatible_models")
     then do all_models <- dict_item product "compatible_models";
          do models <- py_slice_to 200 all_models;
          Returned (parts ++ ["- Compatible Models: " +:+ py_str models])
     else Returned parts);
  do parts <-
    (if include_descriptions && py_truthy (dict_get product "description")
     then do full <- dict_item product "description";
          do desc <- py_slice_to 150 full;
          Returned (parts ++ ["- Description: " +:+ py_str desc +:+ "..."])
     else Returned parts);
  do parts <-
    (if negb (py_is_none (dict_get product "similarity_score"))
     then do score <- dict_item product "similarity_score";
          do s <- py_format_f 2 score;
          Returned (parts ++ ["- Match Score: " +:+ s +:+ "/1.00"])
     else Returned parts);
  Returned (String.concat NL parts).

Definition format_products_for_gpt (products : list pydict) (include_descriptions : bool)
  : result string :=
  match products with
  | [] => Returned "No products found matching the criteria."
  | _ =>
      do formatted_parts <-
        mapM_result (λ r : result string, r)
          (imap (λ i product, format_product (S i) product include_descriptions) products);
      Returned (String.concat NL formatted_parts)
  end.

Definition format_upsell (product : pydict) : result string :=
  do price <- py_format_f 2 (dict_get_or product "sale_price" (PyInt 0));
  let parts := ["- " +:+ py_str (dict_get product "product_name") +:+ " ($" +:+ price +:+ ")"] in
  do parts <-
    (if py_truthy (dict_get product "category")
     then do category <- dict_item product "category";
          Returned (parts ++ ["  Category: " +:+ py_str category])
     else Returned parts);
  Returned (String.concat " " parts).

Definition format_upsells_for_gpt (upsell_products : list pydict) : result string :=
  match upsell_products with
  | [] => Returned "No upsell suggestions available."
  | _ =>
      do formatted_parts <- mapM_result format_upsell upsell_products;
      Returned (String.concat NL formatted_parts)
  end.

Definition NO_RESULTS_APOLOGY : string :=
  "I couldn't find exact matches for your query. " +:+
  "Could you provide more details like the brand, model number, or appliance type? " +:+
  "I'm here to help you find the right part!".

Definition no_results_prompt (query_text : string) : string :=
  NL +:+ "Customer Query: " +:+ DQ +:+ query_text +:+ DQ +:+ NL +:+ NL +:+
  "No exact matches were found for this query." +:+ NL +:+ NL +:+
  "Please provide a helpful response that:" +:+ NL +:+
  "1. Acknowledges we couldn't find exact matches" +:+ NL +:+
  "2. Suggests broadening the search (e.g., different brand, category)" +:+ NL +:+
  "3. Offers to help with more information" +:+ NL +:+
  "4. Remains friendly and professional" +:+ NL +:+ NL +:+
  "Keep it under 100 words." +:+ NL.

Definition generate_no_results_response (query_text : string) (parsed_query : pyval)
  : result pyval :=
  let user_prompt := no_results_prompt query_text in
  try_except (chat_create RESPONSE_SYSTEM_PROMPT user_prompt (7 # 10) 200)
             (λ _, Returned (PyStr NO_RESULTS_APOLOGY)).

(** The two lines that [generate_fallback_response] writes for the
    [i]-th product. *)
Definition fallback_product_lines (i : nat) (product : pydict) : result (list string) :=
  let name := dict_get_or product "product_name" (PyStr "Unknown") in
  let sku := dict_get_or product "sku" (PyStr "N/A") in
  let price := dict_get_or product "sale_price" (PyInt 0) in
  let stock := if py_truthy (dict_get product "in_stock")
               then "In Stock" else "Out of Stock" in
  do p <- py_format_f 2 price;
  Returned [ pretty i +:+ ". **" +:+ py_str name +:+ "** (SKU: " +:+ py_str sku +:+ ")";
             "   $" +:+ p +:+ " - " +:+ stock ].

Definition fallback_upsell_line (upsell : pydict) : result string :=
  let name := dict_get_or upsell "product_name" (PyStr "Unknown") in
  let price := dict_get_or upsell "sale_price" (PyInt 0) in
  do p <- py_format_f 2 price;
  Returned ("- " +:+ py_str name +:+ " ($" +:+ p +:+ ")").

(** The list [lines] at the end of [generate_fallback_response]. *)
Definition fallback_lines (products upsells : list pydict) : result (list string) :=
  let lines := ["I found these products for you:" +:+ NL] in
  do product_lines <-
    mapM_result (λ r : result (list string), r)
      (imap (λ i product, fallback_product_lines (S i) product) (slice_to 3 products));
  let lines := lines ++ concat product_lines in
  match upsells with
  | [] => Returned lines
  | _ =>
      do upsell_lines <- mapM_result fallback_upsell_line (slice_to 2 upsells);
      Returned (lines ++ [NL +:+ "**Customers also purchased:**"] ++ upsell_lines)
  end.

Definition generate_fallback_response (products upsells : list pydict) : result string :=
  match products with
  | [] => Returned "No products found matching your criteria. Please try a different search."
  | _ => do lines <- fallback_lines products upsells;
         Returned (String.concat NL lines)
  end.

Record search_results : Type := {
  sr_query : string;
  sr_parsed_query : pyval;
  sr_results : list pydict
}.

Definition response_prompt (query_text products_text upsells_text : string) : string :=
  NL +:+ "Customer Query: " +:+ DQ +:+ query_text +:+ DQ +:+ NL +:+ NL +:+
  "Found Products:" +:+ NL +:+ products_text +:+ NL +:+ upsells_text +:+ NL +:+ NL +:+
  "Please provide a helpful, conversational response recommending these products to the customer." +:+ NL +:+
  "Highlight the best match, mention pricing, and suggest the upsells as " +:+ DQ +:+
  "customers also purchased" +:+ DQ +:+ " items." +:+ NL +:+
  "Keep it friendly and under 150 words." +:+ NL.

(** The upsells of [generate_response] and their text for the prompt. *)
Definition response_upsells (top_products : list pydict) (include_upsells : bool)
  : result (list pydict * string) :=
  if include_upsells then
    do upsells <- suggest_upsells config_DATABASE top_products 2;
    match upsells with
    | [] => Returned (upsells, "")
    | _ => do text <- format_upsells_for_gpt upsells;
           Returned (upsells, NL +:+ NL +:+ "Complementary Products (Upsells):" +:+ NL +:+ text)
    end
  else Returned ([], "").

Definition generate_response (query_text : string) (results : search_results)
    (include_upsells : bool) : result pyval :=
  let products := sr_results results in
  match products with
  | [] => generate_no_results_response query_text (sr_parsed_query results)
  | _ =>
      let top_products := slice_to 3 products in
      do products_text <- format_products_for_gpt top_products false;
      do ups <- response_upsells top_products include_upsells;
      let '(upsells, upsells_text) := ups in
      let user_prompt := response_prompt query_text products_text upsells_text in
      try_except (chat_create RESPONSE_SYSTEM_PROMPT user_prompt (7 # 10) 300)
        (λ _, do text <- generate_fallback_response top_products
                            (if include_upsells then upsells else []);
              Returned (PyStr text))
  end.

End ResponseGenerator.

(** ** intelligent_search.py *)

Record raw_result : Type := {
  raw_query : string;
  raw_parsed_query : pyval;
  raw_products : list pydict;
  raw_response : pyval
}.

(** What [search] returns: the reply text, or the raw dict. *)
Inductive search_output : Type :=
  | Text (response_text : pyval)
  | Raw (raw : raw_result).

Definition output_products (out : search_output) : option (list pydict) :=
  match out with
  | Text _ => None
  | Raw raw => Some (raw_products raw)
  end.

Definition output_response (out : search_output) : pyval :=
  match out with
  | Text response_text => response_text
  | Raw raw => raw_response raw
  end.

Section IntelligentSearchSystem.
Variable argsort : list Q → list nat.
Variable pickle_loads : string → result (list Q).
Variable embed_search_query : string → result (list Q).
Variable cosine_similarity : list Q → list (list Q) → result (list Q).
Variable str_lower : string → string.
Variable str_upper : string → string.
Variable str_split : string → list string.
Variable chat_create : string → string → Q → Z → result pyval.
Variable json_loads : string → option pyval.
Variable GPT_SYSTEM_PROMPT : string.
Variable RESPONSE_SYSTEM_PROMPT : string.
Variable py_repr : pyval → string.
Variable format_fixed : nat → Q → string.
Variable str_take : nat → string → string.
Variable config_DATABASE : list pydict.

(** [self.db_path] is the table [db]; [self.client] was built by
    [__init__], so the parser is always handed a client. *)
Definition search (db : list pydict) (query_text : string) (top_k : Z)
    (include_upsells return_raw : bool) : result search_output :=
  do parsed_query <-
    extract_query_intent str_lower str_split chat_create json_loads
      GPT_SYSTEM_PROMPT None query_text (Some tt);
  do found <-
    hybrid_search argsort pickle_loads embed_search_query cosine_similarity
      db query_text top_k;
  let results_dict :=
    {| sr_query := query_text; sr_parsed_query := parsed_query; sr_results := found |} in
  do response_text <-
    generate_response py_repr format_fixed str_take chat_create RESPONSE_SYSTEM_PROMPT
      config_DATABASE query_text results_dict include_upsells;
  if return_raw
  then Returned (Raw {| raw_query := query_text; raw_parsed_query := parsed_query;
                        raw_products := found; raw_response := response_text |})
  else Returned (Text response_text).

(** [SELECT * FROM products WHERE sku = ? LIMIT 1] with [sku.upper()],
    then [fetchone()]: the row, or [None]. *)
Definition get_product_details (db : list pydict) (sku : string)
  : result (option pydict) :=
  Returned (head (sql_limit 1
    (filter (λ row, sql_true (sql_eq (dict_get row "sku") (PyStr (str_upper sku))) = true) db))).

End IntelligentSearchSystem.

(** ** Predicates of the specification and sample data *)

(** Tied products appear in load order: of two returned indices with equal
    similarity, the one listed first is the smaller. *)
Definition ties_in_catalog_order (similarities : list Q) (indices : list nat) : Prop :=
  ∀ a b i j, a < b → indices !! a = Some i → indices !! b = Some j →
    (sim_at similarities i == sim_at similarities j)%Q → i < j.

(** Tied products appear in reverse load order. *)
Definition ties_in_reverse_catalog_order (similarities : list Q) (indices : list nat) : Prop :=
  ∀ a b i j, a < b → indices !! a = Some i → indices !! b = Some j →
    (sim_at similarities i == sim_at similarities j)%Q → j < i.

(** The order that a stable ascending argsort produces: by similarity,
    then by index. *)
Definition stable_lt (similarities : list Q) (i j : nat) : Prop :=
  (sim_at similarities i < sim_at similarities j)%Q ∨
  ((sim_at similarities i == sim_at similarities j)%Q ∧ i < j).

(** A product row as the SELECT of [load_product_embeddings] returns it. *)
Definition sample_product (sku name brand : string) (price : Q) : pydict :=
  list_to_map
    [ ("sku", PyStr sku); ("product_name", PyStr name); ("brand", PyStr brand);
      ("category", PyStr "Refrigerator Parts"); ("sale_price", PyFloat price);
      ("embedding", PyBytes "e") ].

Definition sample_products : list pydict :=
  [ sample_product "XWFE" "GE Water Filter" "GE" (5762 # 100);
    sample_product "W10295370A" "Whirlpool Water Filter" "Whirlpool" (4999 # 100) ].

(** Collaborators that always fail, and simple ones that answer. *)
Definition failing_chat : string → string → Q → Z → result pyval :=
  λ _ _ _ _, Raised APIError.
Definition failing_embedder : string → result (list Q) := λ _, Raised APIError.
Definition failing_pickle : string → result (list Q) := λ _, Raised UnpicklingError.
Definition sample_pickle : string → result (list Q) := λ _, Returned [1%Q; 0%Q].
Definition sample_embedder : string → result (list Q) := λ _, Returned [1%Q; 0%Q].
Definition sample_cosine : list Q → list (list Q) → result (list Q) :=
  λ _ embeddings, Returned ((λ _, (1 # 2)%Q) <$> embeddings).
Definition sample_json : string → option pyval := λ _, None.
Definition sample_repr : pyval → string := λ _, "?".
Definition sample_fixed : nat → Q → string := λ _ _, "0.00".
Definition sample_take : nat → string → string := String.substring 0.

(** A model that answers with an empty completion, and one that answers
    with the empty JSON object. *)
Definition silent_chat : string → string → Q → Z → result pyval :=
  λ _ _ _ _, Returned (PyStr "").
Definition braces_chat : string → string → Q → Z → result pyval :=
  λ _ _ _ _, Returned (PyStr "{}").
Definition braces_json : string → option pyval :=
  λ s, if String.eqb s "{}" then Some (PyDict ∅) else None.

(** A catalog row with every column the queries read. *)
Definition catalog_row (sku name brand : string) (price : pyval) (in_stock : Z)
    (embedding : pyval) : pydict :=
  list_to_map
    [ ("sku", PyStr sku); ("product_name", PyStr name); ("brand", PyStr brand);
      ("category", PyStr "Refrigerator Parts"); ("sale_price", price);
      ("in_stock", PyInt in_stock); ("embedding", embedding) ].

Definition sample_catalog : list pydict :=
  [ catalog_row "XWFE" "GE Water Filter" "GE" (PyFloat (5762 # 100)) 1 (PyBytes "e");
    catalog_row "W10295370A" "Whirlpool Water Filter" "Whirlpool" (PyFloat (4999 # 100)) 1
      (PyBytes "e") ].

(** A GE product found by the search, and a catalog that stocks Whirlpool
    only. *)
Definition xwfe_result : pydict :=
  <["similarity" := PyFloat (89 # 100)]>
    (sample_product "XWFE" "GE Water Filter" "GE" (5762 # 100)).


(** The price band of the specification around a primary price. *)
Definition in_price_band (primary_price : Q) (row : pydict) : bool :=
  match py_number (dict_get row "sale_price") with
  | Some price =>
      Qle_bool ((1 # 2) * primary_price) price && Qle_bool price ((3 # 2) * primary_price)
  | None => false
  end.

(** No payload of the snapshot decodes. *)
Definition nothing_decodes (pickle_loads : string → result (list Q))
    (db : list pydict) : Prop :=
  Forall (λ row, ∀ b v, dict_get row "embedding" = PyBytes b →
                        pickle_loads b ≠ Returned v) db.

(** The fields that the reply formatting reads have the types of the
    product schema: prices, discount and score are numbers (the sale price
    and the discount may be absent, the regular price and the score may be
    absent or NULL), the compatible models are text, absent or NULL. *)
Definition is_number (v : pyval) : Prop := is_Some (py_number v).
Definition number_or_none (v : pyval) : Prop := v = PyNone ∨ is_number v.
Definition text_or_none (v : pyval) : Prop := v = PyNone ∨ ∃ s, v = PyStr s.

Record typed_product (product : pydict) : Prop := {
  typed_sale_price : is_number (dict_get_or product "sale_price" (PyInt 0));
  typed_regular_price : number_or_none (dict_get product "regular_price");
  typed_discount : is_number (dict_get_or product "discount_percent" (PyInt 0));
  typed_models : text_or_none (dict_get product "compatible_models");
  typed_score : number_or_none (dict_get product "similarity_score")
}.

(** The first line of the template of [generate_fallback_response]. *)
Definition TEMPLATE_HEADER : string := "I found these products for you:" +:+ NL.
Definition UPSELL_HEADER : string := NL +:+ "**Customers also purchased:**".

(** Proves [typed_product] for a concrete row without optional fields. *)
Ltac typed_row :=
  constructor;
  [ vm_compute; eauto | left; reflexivity | vm_compute; eauto
  | left; reflexivity | left; reflexivity ].

(** ** intelligent_search.py: [compare_products] *)

Definition COMPARISON_SYSTEM_PROMPT : string :=
  "You are a helpful product comparison assistant.".

Definition NO_COMPARISON : string := "No products found for comparison.".

Definition comparison_header (count : nat) : string :=
  NL +:+ "Compare these " +:+ pretty count +:+ " products and highlight:" +:+ NL +:+
  "1. Price differences" +:+ NL +:+
  "2. Key features" +:+ NL +:+
  "3. Best value option" +:+ NL +:+
  "4. Recommendations for different use cases" +:+ NL +:+ NL +:+
  "Products:" +:+ NL.

Section CompareProducts.
(** [str.upper], [str()] of values that are not text, the text of a
    formatted number, the chat endpoint and [str(e)] of an exception. *)
Variable str_upper : string → string.
Variable py_repr : pyval → string.
Variable format_fixed : nat → Q → string.
Variable chat_create : string → string → Q → Z → result pyval.
Variable exn_message : exn → string.

(** The first loop of [compare_products]: the rows found, in the order of
    [sku_list]; a SKU without a row is skipped. *)
Fixpoint found_products (db : list pydict) (sku_list : list string)
  : result (list pydict) :=
  match sku_list with
  | [] => Returned []
  | sku :: sku_list' =>
      do product <- get_product_details str_upper db sku;
      do products <- found_products db sku_list';
      Returned (match product with
                | Some row => if py_truthy (PyDict row) then row :: products else products
                | None => products
                end)
  end.

(** The three lines that the second loop adds to the prompt. *)
Definition comparison_entry (product : pydict) : result string :=
  do name <- dict_item product "product_name";
  do price <- py_format_f format_fixed 2 (dict_get_or product "sale_price" (PyInt 0));
  Returned (NL +:+ "- " +:+ py_str py_repr name +:+ " ($" +:+ price +:+ ")" +:+
            NL +:+ "  Brand: " +:+ py_str py_repr (dict_get_or product "brand" (PyStr "N/A")) +:+
            NL +:+ "  Stock: "
               +:+ py_str py_repr (dict_get_or product "stock_status" (PyStr "Unknown")) +:+ NL).

Definition compare_products (db : list pydict) (sku_list : list string) : result pyval :=
  do products <- found_products db sku_list;
  match products with
  | [] => Returned (PyStr NO_COMPARISON)
  | _ =>
      do entries <- mapM_result comparison_entry products;
      let comparison_prompt :=
        comparison_header (length products) +:+ String.concat "" entries in
      try_except
        (chat_create COMPARISON_SYSTEM_PROMPT comparison_prompt (7 # 10) 400)
        (λ e, Returned (PyStr ("Error generating comparison: " +:+ exn_message e)))
  end.

End CompareProducts.

(** ** api/routes/search.py: [apply_filters] *)

(** [SearchFilters]: every field is optional. *)
Record SearchFilters : Type := {
  filter_brand : option string;
  filter_category : option string;
  filter_min_price : option Q;
  filter_max_price : option Q;
  filter_in_stock : option bool
}.

(** The exceptions that a comprehension of [apply_filters] can raise. *)
Inductive filter_exn : Type :=
  | AttributeError
  | ComparisonTypeError.

Inductive filtered (A : Type) : Type :=
  | Kept (a : A)
  | FilterRaised (e : filter_exn).
Arguments Kept {A} a.
Arguments FilterRaised {A} e.

Definition filtered_bind {A B} (r : filtered A) (k : A → filtered B) : filtered B :=
  match r with
  | Kept a => k a
  | FilterRaised e => FilterRaised e
  end.

(** [[p for p in l if test(p)]], where the test may raise. *)
Fixpoint filter_with (test : pydict → filtered bool) (l : list pydict)
  : filtered (list pydict) :=
  match l with
  | [] => Kept []
  | p :: l' =>
      filtered_bind (test p) (λ keep,
      filtered_bind (filter_with test l') (λ kept,
      Kept (if keep then p :: kept else kept)))
  end.

(** [if filters.brand:] and [if filters.category:] *)
Definition text_filter (f : option string) : option string :=
  match f with
  | Some s => if String.eqb s "" then None else Some s
  | None => None
  end.

(** [v >= m] and [v <= m] for a float [m] *)
Definition py_ge_float (v : pyval) (m : Q) : filtered bool :=
  match py_number v with
  | Some q => Kept (Qle_bool m q)
  | None => FilterRaised ComparisonTypeError
  end.

Definition py_le_float (v : pyval) (m : Q) : filtered bool :=
  match py_number v with
  | Some q => Kept (Qle_bool q m)
  | None => FilterRaised ComparisonTypeError
  end.

(** [v == b] for a bool [b]: true for the numbers equal to it. *)
Definition py_eq_bool (v : pyval) (b : bool) : bool :=
  match py_number v with
  | Some q => Qeq_bool q (if b then 1 else 0)
  | None => false
  end.

Section ApplyFilters.
Variable str_lower : string → string.

(** [v.lower() == wanted.lower()]: [bytes] have a [lower] and never equal
    a [str]; other values have no such method. *)
Definition lower_equals (v : pyval) (wanted : string) : filtered bool :=
  match v with
  | PyStr s => Kept (String.eqb (str_lower s) (str_lower wanted))
  | PyBytes _ => Kept false
  | _ => FilterRaised AttributeError
  end.

Definition brand_test (wanted : string) (p : pydict) : filtered bool :=
  lower_equals (dict_get_or p "brand" (PyStr "")) wanted.

Definition category_test (wanted : string) (p : pydict) : filtered bool :=
  lower_equals (dict_get_or p "category" (PyStr "")) wanted.

Definition min_price_test (m : Q) (p : pydict) : filtered bool :=
  py_ge_float (dict_get_or p "sale_price" (PyInt 0)) m.

(** The default is [float('inf')], which no finite bound admits. *)
Definition max_price_test (m : Q) (p : pydict) : filtered bool :=
  match p !! "sale_price" with
  | Some v => py_le_float v m
  | None => Kept false
  end.

Definition in_stock_test (b : bool) (p : pydict) : filtered bool :=
  Kept (py_eq_bool (dict_get_or p "in_stock" (PyBool false)) b).

(** One stage of [apply_filters]: skipped when the filter is not set. *)
Definition stage {F} (f : option F) (test : F → pydict → filtered bool)
    (l : list pydict) : filtered (list pydict) :=
  match f with
  | Some x => filter_with (test x) l
  | None => Kept l
  end.

Definition apply_filters (results : list pydict) (filters : SearchFilters)
  : filtered (list pydict) :=
  filtered_bind (stage (text_filter (filter_brand filters)) brand_test results) (λ l1,
  filtered_bind (stage (text_filter (filter_category filters)) category_test l1) (λ l2,
  filtered_bind (stage (filter_min_price filters) min_price_test l2) (λ l3,
  filtered_bind (stage (filter_max_price filters) max_price_test l3) (λ l4,
  stage (filter_in_stock filters) in_stock_test l4)))).

End ApplyFilters.

(** Filters that set nothing but the stock flag. *)
Definition only_in_stock (b : bool) : SearchFilters :=
  {| filter_brand := None; filter_category := None; filter_min_price := None;
     filter_max_price := None; filter_in_stock := Some b |}.

Definition sample_exn_message : exn → string := λ _, "error".

(** A JSON value that is neither an object, an array nor a string. *)
Definition json_scalar (v : pyval) : bool :=
  match v with
  | PyNone | PyBool _ | PyInt _ | PyFloat _ => true
  | _ => false
  end.

(** A JSON array that has the field name among its elements, or a JSON
    string that has it as a substring. *)
Definition mentions (v : pyval) (field : string) : bool :=
  match v with
  | PyList l =>
      existsb (λ x, match x with PyStr s => String.eqb s field | _ => false end) l
  | PyStr s => str_contains field s
  | _ => false
  end.

(** A model that answers with a JSON array of the five field names. *)
Definition names_chat : string → string → Q → Z → result pyval :=
  λ _ _ _ _, Returned (PyStr "names").
Definition names_json : string → option pyval :=
  λ _, Some (PyList (PyStr <$> required_fields)).

(** Proves that a literal name is not in a literal list of columns. *)
Ltac not_a_column :=
  let H := fresh in
  intros H;
  repeat (apply elem_of_cons in H as [H | H]; [discriminate H |]);
  by apply elem_of_nil in H.

(** A result as [search_products] builds it, from a catalog row whose
    sale price is a number or NULL. *)
Definition is_search_result (r : pydict) : Prop :=
  ∃ row s, number_or_none (dict_get row "sale_price") ∧
    r = <["similarity" := PyFloat s]>
          (select_columns
             ["sku"; "product_name"; "brand"; "category"; "sale_price"; "embedding"] row).

(** A search result for a catalog row whose sale price is NULL. *)
Definition unpriced_result : pydict :=
  <["similarity" := PyFloat (89 # 100)]>
    (select_columns ["sku"; "product_name"; "brand"; "category"; "sale_price"; "embedding"]
       (catalog_row "XWFE" "GE Water Filter" "GE" PyNone 1 (PyBytes "e"))).

(** An argsort that returns the indices from last to first: it meets the
    contract on an array of equal values, where it leaves the ties in
    reverse index order. *)
Definition descending_argsort (similarities : list Q) : list nat :=
  reverse (seq 0 (length similarities)).

(** [needle] occurs in [haystack] as a substring. *)
Definition occurs (needle haystack : string) : Prop :=
  ∃ pre post, haystack = pre +:+ needle +:+ post.

(** The parser is handed a client, or can make one from a non-empty key
    of the environment. *)
Definition client_available (key : option string) (client : option unit) : Prop :=
  match client with
  | Some _ => True
  | None => ∃ k, key = Some k ∧ k ≠ ""
  end.

(** A search result and a catalog row that both carry the empty SKU. *)
Definition unkeyed_result : pydict :=
  <["similarity" := PyFloat (89 # 100)]>
    (sample_product "" "GE Water Filter" "GE" (5762 # 100)).

Definition unkeyed_catalog : list pydict :=
  [ catalog_row "" "GE Water Filter" "GE" (PyFloat (5762 # 100)) 1 (PyBytes "e") ].

(** A store whose two payloads decode to vectors of different lengths. *)
Definition ragged_pickle : string → result (list Q) :=
  λ payload, if String.eqb payload "e" then Returned [1%Q; 0%Q] else Returned [1%Q].

Definition ragged_catalog : list pydict :=
  [ catalog_row "XWFE" "GE Water Filter" "GE" (PyFloat (5762 # 100)) 1 (PyBytes "e");
    catalog_row "W10295370A" "Whirlpool Water Filter" "Whirlpool" (PyFloat (4999 # 100)) 1
      (PyBytes "f") ].

(** * Properties *)

(** ** Python helpers *)

Lemma mapM_result_Forall2 {A B} (f : A → result B) (l : list A) :
  (∀ x, x ∈ l → ∃ y, f x = Returned y) →
  ∃ ys, mapM_result f l = Returned ys ∧ Forall2 (λ x y, f x = Returned y) l ys.
Proof.
  induction l as [|x l IH]; intros Hl; simpl.
  - exists []. split; [done | constructor].
  - destruct (Hl x) as [y Hy]; [left |].
    destruct IH as (ys & Hys & HF); [intros z Hz; apply Hl; by right |].
    exists (y :: ys). rewrite Hy, Hys. simpl. split; [done | by constructor].
Qed.

Lemma mapM_result_inv {A B} (f : A → result B) (l : list A) (ys : list B) :
  mapM_result f l = Returned ys → Forall2 (λ x y, f x = Returned y) l ys.
Proof.
  revert ys. induction l as [|x l IH]; intros ys; simpl.
  - intros [= <-]. constructor.
  - destruct (f x) as [y|] eqn:Hy; simpl; [| done].
    destruct (mapM_result f l) as [ys'|]; simpl; [| done].
    intros [= <-]. constructor; [done | by apply IH].
Qed.

Lemma slice_start_last (len : nat) (k : Z) :
  (1 ≤ k)%Z → slice_start len (- k) = len - Z.to_nat k.
Proof.
  intros Hk. unfold slice_start.
  destruct (Z.ltb_spec (- k) 0); lia.
Qed.

Lemma StronglySorted_reverse {A} (R : relation A) (l : list A) :
  StronglySorted R l → StronglySorted (flip R) (reverse l).
Proof.
  induction 1 as [|x l Hl IH Hx]; [constructor |].
  rewrite reverse_cons. apply StronglySorted_app_2.
  - intros y z Hy ->%list_elem_of_singleton. unfold flip.
    rewrite Forall_forall in Hx. apply Hx. by apply elem_of_reverse.
  - done.
  - repeat constructor.
Qed.

Lemma StronglySorted_drop {A} (R : relation A) (n : nat) (l : list A) :
  StronglySorted R l → StronglySorted R (drop n l).
Proof.
  intros Hl. rewrite <- (take_drop n l) in Hl.
  by apply StronglySorted_app_1_r in Hl.
Qed.

Lemma StronglySorted_weaken {A} (R S : relation A) (l : list A) :
  (∀ x y, x ∈ l → y ∈ l → R x y → S x y) →
  StronglySorted R l → StronglySorted S l.
Proof.
  intros HRS Hl. induction Hl as [|x l Hl IH Hx]; constructor.
  - apply IH. intros y z Hy Hz. apply HRS; by right.
  - rewrite Forall_forall in Hx. rewrite Forall_forall. intros y Hy.
    apply HRS; [left | by right | by apply Hx].
Qed.

Lemma StronglySorted_Forall2 {A B} (P : A → B → Prop) (R : relation A) (S : relation B)
    (l : list A) (k : list B) :
  (∀ x x' y y', P x x' → P y y' → R x y → S x' y') →
  Forall2 P l k → StronglySorted R l → StronglySorted S k.
Proof.
  intros HRS HF. induction HF as [|x x' l k Hx HF IH]; intros Hl.
  - constructor.
  - apply StronglySorted_inv in Hl as [Hl Hall]. constructor; [by apply IH |].
    rewrite Forall_forall in Hall. rewrite Forall_forall. intros y' Hy'.
    destruct (proj1 (list_elem_of_lookup _ _) Hy') as [i Hi].
    destruct (Forall2_lookup_r _ _ _ _ _ HF Hi) as (y & Hy & HP).
    eapply HRS; [done | done |]. apply Hall. by eapply list_elem_of_lookup_2.
Qed.

Lemma StronglySorted_lookup {A} (R : relation A) (l : list A) (a b : nat) (x y : A) :
  StronglySorted R l → a < b → l !! a = Some x → l !! b = Some y → R x y.
Proof.
  intros Hl. revert a b. induction Hl as [|z l Hl IH Hz]; intros a b Hab Ha Hb.
  - done.
  - destruct b as [|b]; [lia |]. simpl in Hb.
    destruct a as [|a]; simpl in Ha.
    + injection Ha as ->. rewrite Forall_forall in Hz. apply Hz.
      by eapply list_elem_of_lookup_2.
    + eapply (IH a b); [lia | done | done].
Qed.

(** ** The stable argsort meets the contract of [numpy.argsort] *)

Lemma stable_lt_trans (s : list Q) (i j k : nat) :
  stable_lt s i j → stable_lt s j k → stable_lt s i k.
Proof.
  unfold stable_lt. intros [Hij | [Hij Hlt]] [Hjk | [Hjk Hlt']].
  - left. by eapply Qlt_trans.
  - left. by rewrite <- Hjk.
  - left. by rewrite Hij.
  - right. split; [by rewrite Hij | lia].
Qed.

Lemma stable_lt_le (s : list Q) (i j : nat) :
  stable_lt s i j → (sim_at s i <= sim_at s j)%Q.
Proof.
  intros [H | [H _]]; [by apply Qlt_le_weak | rewrite H; apply Qle_refl].
Qed.

Lemma insert_index_perm (s : list Q) (i : nat) (order : list nat) :
  insert_index s i order ≡ₚ i :: order.
Proof.
  induction order as [|j order IH]; simpl; [done |].
  destruct (Qle_bool _ _); [| done].
  rewrite IH. apply Permutation_swap.
Qed.

Lemma insert_index_sorted (s : list Q) (i : nat) (order : list nat) :
  Forall (λ j, j < i) order →
  StronglySorted (stable_lt s) order →
  StronglySorted (stable_lt s) (insert_index s i order).
Proof.
  intros Hlt Hs. induction Hs as [|j order Hs IH Hj]; simpl.
  - repeat constructor.
  - apply Forall_cons in Hlt as [Hji Hlt].
    destruct (Qle_bool (sim_at s j) (sim_at s i)) eqn:Hle.
    + apply Qle_bool_iff in Hle. constructor; [by apply IH |].
      rewrite insert_index_perm. constructor; [| done].
      apply Qle_lteq in Hle as [Hle | Hle]; [by left | by right].
    + assert (sim_at s i < sim_at s j)%Q as Hij.
      { apply Qnot_le_lt. intros H%Qle_bool_iff. congruence. }
      constructor; [by constructor |].
      constructor; [by left |].
      eapply Forall_impl; [exact Hj |]. intros k Hk.
      eapply stable_lt_trans; [| exact Hk]. by left.
Qed.

Lemma argsort_stable_fold (s : list Q) (len start : nat) (order : list nat) :
  Forall (λ j, j < start) order →
  StronglySorted (stable_lt s) order →
  StronglySorted (stable_lt s)
    (foldl (λ order i, insert_index s i order) order (seq start len)) ∧
  foldl (λ order i, insert_index s i order) order (seq start len)
    ≡ₚ order ++ seq start len.
Proof.
  revert start order. induction len as [|len IH]; intros start order Hlt Hs; simpl.
  - by rewrite app_nil_r.
  - destruct (IH (S start) (insert_index s start order)) as [H1 H2].
    + rewrite insert_index_perm. constructor; [lia |].
      eapply Forall_impl; [exact Hlt |]. simpl. lia.
    + by apply insert_index_sorted.
    + split; [done |]. rewrite H2, insert_index_perm. simpl. apply Permutation_middle.
Qed.

Lemma argsort_stable_sorted (s : list Q) :
  StronglySorted (stable_lt s) (argsort_stable s).
Proof. apply (argsort_stable_fold s (length s) 0 []); constructor. Qed.

Lemma argsort_stable_spec (s : list Q) : argsort_spec s (argsort_stable s).
Proof.
  split.
  - apply (argsort_stable_fold s (length s) 0 []); constructor.
  - eapply StronglySorted_weaken; [| apply argsort_stable_sorted].
    intros i j _ _. apply stable_lt_le.
Qed.

(** ** Ranking *)

Section RankingFacts.
Variable argsort : list Q → list nat.
Variable similarities : list Q.
Hypothesis Hspec : argsort_spec similarities (argsort similarities).

Lemma argsort_length : length (argsort similarities) = length similarities.
Proof. destruct Hspec as [Hp _]. by rewrite Hp, length_seq. Qed.

Lemma argsort_in_range (i : nat) :
  i ∈ argsort similarities → i < length similarities.
Proof.
  destruct Hspec as [Hp _]. rewrite Hp, elem_of_seq. lia.
Qed.

Lemma top_indices_eq (top_k : Z) :
  (1 ≤ top_k)%Z →
  top_indices argsort similarities top_k =
    reverse (drop (length similarities - Z.to_nat top_k) (argsort similarities)).
Proof.
  intros Hk. unfold top_indices, slice_rev, slice_from.
  by rewrite slice_start_last, argsort_length.
Qed.

Lemma top_indices_length (top_k : Z) :
  (1 ≤ top_k)%Z →
  length (top_indices argsort similarities top_k)
    = Nat.min (Z.to_nat top_k) (length similarities).
Proof.
  intros Hk. rewrite top_indices_eq by done.
  rewrite length_reverse, length_drop, argsort_length. lia.
Qed.

Lemma top_indices_in_range (top_k : Z) (i : nat) :
  (1 ≤ top_k)%Z →
  i ∈ top_indices argsort similarities top_k → i < length similarities.
Proof.
  intros Hk. rewrite top_indices_eq by done.
  rewrite elem_of_reverse. intros Hi. apply argsort_in_range.
  eapply elem_of_submseteq; [exact Hi | apply submseteq_drop].
Qed.

Lemma top_indices_NoDup (top_k : Z) :
  (1 ≤ top_k)%Z → NoDup (top_indices argsort similarities top_k).
Proof.
  intros Hk. rewrite top_indices_eq by done.
  rewrite reverse_Permutation.
  assert (NoDup (argsort similarities)) as Hnd.
  { destruct Hspec as [Hp _]. rewrite Hp. apply NoDup_seq. }
  rewrite <- (take_drop (length similarities - Z.to_nat top_k)) in Hnd.
  by apply NoDup_app in Hnd as (_ & _ & Hnd).
Qed.

Lemma top_indices_sorted (top_k : Z) :
  (1 ≤ top_k)%Z →
  StronglySorted (λ i j, (sim_at similarities j <= sim_at similarities i)%Q)
    (top_indices argsort similarities top_k).
Proof.
  intros Hk. rewrite top_indices_eq by done.
  destruct Hspec as [_ Hs].
  apply (StronglySorted_reverse _ _ (StronglySorted_drop _ _ _ Hs)).
Qed.

Lemma top_indices_all (top_k : Z) :
  (Z.of_nat (length similarities) ≤ top_k)%Z → (1 ≤ top_k)%Z →
  top_indices argsort similarities top_k ≡ₚ seq 0 (length similarities).
Proof.
  intros HN Hk. rewrite top_indices_eq by done.
  replace (length similarities - Z.to_nat top_k) with 0 by lia.
  rewrite drop_0, reverse_Permutation. by destruct Hspec.
Qed.

(** No product left out scores higher than a product returned. *)
Lemma top_indices_best (top_k : Z) (i j : nat) :
  (1 ≤ top_k)%Z →
  i ∈ top_indices argsort similarities top_k →
  j < length similarities → j ∉ top_indices argsort similarities top_k →
  (sim_at similarities j <= sim_at similarities i)%Q.
Proof.
  intros Hk Hi Hj Hnj. rewrite top_indices_eq in Hi, Hnj by done.
  rewrite elem_of_reverse in Hi, Hnj.
  destruct Hspec as [Hp Hs].
  assert (j ∈ argsort similarities) as Hin.
  { rewrite Hp, elem_of_seq. lia. }
  rewrite <- (take_drop (length similarities - Z.to_nat top_k)) in Hin, Hs.
  apply elem_of_app in Hin as [Hin | Hin]; [| done].
  exact (StronglySorted_app_1_elem_of _ _ _ _ _ Hs Hin Hi).
Qed.
End RankingFacts.

Lemma build_result_inv (products : list pydict) (similarities : list Q)
    (idx : nat) (r : pydict) :
  build_result products similarities idx = Returned r →
  ∃ product, products !! idx = Some product ∧
    r = <["similarity" := PyFloat (sim_at similarities idx)]> product.
Proof.
  unfold build_result, list_item, sim_at.
  destruct (products !! idx) as [product|] eqn:Hp; simpl; [| done].
  destruct (similarities !! idx) as [s|] eqn:Hs; simpl; [| done].
  intros [= <-]. exists product. split; [done |].
  by rewrite nth_lookup, Hs.
Qed.

Lemma build_result_returns (products : list pydict) (similarities : list Q) (idx : nat) :
  idx < length products → idx < length similarities →
  ∃ r, build_result products similarities idx = Returned r.
Proof.
  intros [product Hp]%lookup_lt_is_Some_2 [s Hs]%lookup_lt_is_Some_2.
  unfold build_result, list_item. rewrite Hp, Hs. simpl. eauto.
Qed.

Lemma similarity_of_scored (product : pydict) (s : Q) :
  similarity_of (<["similarity" := PyFloat s]> product) = s.
Proof. unfold similarity_of. by rewrite lookup_insert_eq. Qed.

(** C1.  The ranking step of [search_products] (argsort of the
    similarities, last [top_k], reversed), for a requested count
    [top_k >= 1] and any argsort that meets numpy's contract: it returns
    [min(top_k, N)] results, hence at most [top_k] and all [N] when
    [top_k >= N]; the results are in order of non-increasing similarity;
    each result is one of the input products, taken from a distinct
    position, with its similarity added. *)
Theorem rank_results_top_k (argsort : list Q → list nat) (products : list pydict)
    (similarities : list Q) (top_k : Z) :
  argsort_spec similarities (argsort similarities) →
  length similarities = length products →
  (1 ≤ top_k)%Z →
  ∃ results,
    rank_results argsort products similarities top_k = Returned results ∧
    length results = Nat.min (Z.to_nat top_k) (length products) ∧
    length results ≤ Z.to_nat top_k ∧
    ((Z.of_nat (length products) ≤ top_k)%Z → length results = length products) ∧
    StronglySorted (λ r1 r2, (similarity_of r2 <= similarity_of r1)%Q) results ∧
    NoDup (top_indices argsort similarities top_k) ∧
    Forall2 (λ idx r, ∃ product, products !! idx = Some product ∧
               r = <["similarity" := PyFloat (sim_at similarities idx)]> product)
            (top_indices argsort similarities top_k) results ∧
    Forall (λ r, ∃ product, product ∈ products ∧
              dict_get r "sku" = dict_get product "sku") results.
Proof.
  intros Hspec Hlen Hk. unfold rank_results.
  destruct (mapM_result_Forall2 (build_result products similarities)
              (top_indices argsort similarities top_k)) as (results & Hres & HF).
  { intros idx Hidx. pose proof (top_indices_in_range _ _ Hspec _ _ Hk Hidx).
    apply build_result_returns; lia. }
  assert (Forall2 (λ idx r, ∃ product, products !! idx = Some product ∧
               r = <["similarity" := PyFloat (sim_at similarities idx)]> product)
            (top_indices argsort similarities top_k) results) as HF'.
  { eapply Forall2_impl; [exact HF |]. intros idx r. apply build_result_inv. }
  assert (length results = Nat.min (Z.to_nat top_k) (length products)) as Hlr.
  { rewrite <- (Forall2_length _ _ _ HF), <- Hlen. by apply top_indices_length. }
  exists results. split_and!; try done.
  - lia.
  - lia.
  - eapply StronglySorted_Forall2; [| exact HF' | by apply top_indices_sorted].
    intros i r1 j r2 (p1 & _ & ->) (p2 & _ & ->) Hij.
    by rewrite !similarity_of_scored.
  - by apply top_indices_NoDup.
  - rewrite Forall_forall. intros r Hr.
    destruct (proj1 (list_elem_of_lookup _ _) Hr) as [n Hn].
    destruct (Forall2_lookup_r _ _ _ _ _ HF' Hn) as (idx & _ & product & Hp & ->).
    exists product. split; [by eapply list_elem_of_lookup_2 |].
    unfold dict_get. by rewrite lookup_insert_ne.
Qed.

Lemma rank_results_top_k_witness :
  ∃ results,
    rank_results argsort_stable sample_products [3 # 10; 9 # 10]%Q 5 = Returned results ∧
    length results = Nat.min (Z.to_nat 5) (length sample_products) ∧
    length results ≤ Z.to_nat 5 ∧
    ((Z.of_nat (length sample_products) ≤ 5)%Z → length results = length sample_products) ∧
    StronglySorted (λ r1 r2, (similarity_of r2 <= similarity_of r1)%Q) results ∧
    NoDup (top_indices argsort_stable [3 # 10; 9 # 10]%Q 5) ∧
    Forall2 (λ idx r, ∃ product, sample_products !! idx = Some product ∧
               r = <["similarity" := PyFloat (sim_at [3 # 10; 9 # 10]%Q idx)]> product)
            (top_indices argsort_stable [3 # 10; 9 # 10]%Q 5) results ∧
    Forall (λ r, ∃ product, product ∈ sample_products ∧
              dict_get r "sku" = dict_get product "sku") results.
Proof.
  apply (rank_results_top_k argsort_stable sample_products [3 # 10; 9 # 10]%Q 5).
  - apply argsort_stable_spec.
  - reflexivity.
  - lia.
Defined.

(** The scenario of the specification: five results asked of a store of
    two products. *)
Example top_k_exceeds_store :
  top_indices argsort_stable [3 # 10; 9 # 10]%Q 5 = [1; 0].
Proof. reflexivity. Qed.

(** Outside the contract [1 <= top_k]: [l[-0:]] is the whole list, so a
    request for zero results returns every product. *)
Example top_k_zero_returns_all :
  top_indices argsort_stable [3 # 10; 9 # 10]%Q 0 = [1; 0].
Proof. reflexivity. Qed.

(** C9, counterexample.  Two products with the same similarity, sorted by
    a stable argsort: the ranking lists the second product of the catalog
    before the first, so ties are not in load order. *)
Lemma ties_not_in_catalog_order :
  argsort_spec [1 # 2; 1 # 2]%Q (argsort_stable [1 # 2; 1 # 2]%Q) ∧
  top_indices argsort_stable [1 # 2; 1 # 2]%Q 2 = [1; 0] ∧
  ¬ ties_in_catalog_order [1 # 2; 1 # 2]%Q
      (top_indices argsort_stable [1 # 2; 1 # 2]%Q 2).
Proof.
  split; [apply argsort_stable_spec |]. split; [reflexivity |].
  intros H. specialize (H 0 1 1 0). simpl in H.
  assert (1 < 0) as Habs; [| lia].
  apply H; [lia | reflexivity | reflexivity | reflexivity].
Qed.

Lemma ties_of_reverse (similarities : list Q) (m : list nat) :
  ties_in_catalog_order similarities (reverse m) ↔
  ties_in_reverse_catalog_order similarities m.
Proof.
  split.
  - intros H a b i j Hab Ha Hb Heq.
    pose proof (lookup_lt_Some _ _ _ Hb) as Hlen.
    apply (H (length m - S b) (length m - S a) j i); [lia | | | by symmetry].
    + apply reverse_lookup_Some. split; [| lia].
      by replace (length m - S (length m - S b)) with b by lia.
    + apply reverse_lookup_Some. split; [| lia].
      by replace (length m - S (length m - S a)) with a by lia.
  - intros H a b i j Hab [Ha Hla]%reverse_lookup_Some [Hb Hlb]%reverse_lookup_Some Heq.
    apply (H (length m - S b) (length m - S a) j i); [lia | done | done | by symmetry].
Qed.

(** C9, amended.  For every similarity array, every [top_k >= 1] and
    whatever [numpy.argsort] returns, the ranking is the kept part of the
    argsort read backwards, ties included: of two returned products the
    one listed first is the one argsort placed later.  The code adds no
    tie-break of its own, so tied products are in load order exactly when
    argsort left them in reverse load order, and they are in reverse load
    order when argsort is stable. *)
Theorem ranking_reverses_argsort (argsort : list Q → list nat)
    (similarities : list Q) (top_k : Z) :
  (1 ≤ top_k)%Z →
  (∀ a b i j, a < b →
     top_indices argsort similarities top_k !! a = Some i →
     top_indices argsort similarities top_k !! b = Some j →
     ∃ a' b', b' < a' ∧
       argsort similarities !! a' = Some i ∧ argsort similarities !! b' = Some j) ∧
  (ties_in_catalog_order similarities (top_indices argsort similarities top_k) ↔
   ties_in_reverse_catalog_order similarities
     (slice_from (- top_k) (argsort similarities))) ∧
  (StronglySorted (stable_lt similarities) (argsort similarities) →
   ties_in_reverse_catalog_order similarities (top_indices argsort similarities top_k)).
Proof.
  intros Hk. unfold top_indices, slice_rev. split_and!.
  - unfold slice_from.
    intros a b i j Hab [Ha Hla]%reverse_lookup_Some [Hb Hlb]%reverse_lookup_Some.
    rewrite lookup_drop in Ha, Hb.
    eexists _, _. split; [| split; [exact Ha | exact Hb]]. lia.
  - apply ties_of_reverse.
  - intros Hstable a b i j Hab Ha Hb Heq. unfold slice_from in Ha, Hb.
    pose proof (StronglySorted_reverse _ _
      (StronglySorted_drop _
         (slice_start (length (argsort similarities)) (- top_k)) _ Hstable)) as Hs.
    destruct (StronglySorted_lookup _ _ _ _ _ _ Hs Hab Ha Hb) as [Hlt | [_ Hlt]].
    + rewrite Heq in Hlt. by apply Qlt_irrefl in Hlt.
    + done.
Qed.

Lemma ranking_reverses_argsort_witness :
  ties_in_reverse_catalog_order [1 # 2; 1 # 2; 1 # 3]%Q
    (top_indices argsort_stable [1 # 2; 1 # 2; 1 # 3]%Q 2).
Proof.
  destruct (ranking_reverses_argsort argsort_stable [1 # 2; 1 # 2; 1 # 3]%Q 2)
    as (_ & _ & Hstable); [lia |].
  apply Hstable, argsort_stable_sorted.
Defined.

Lemma ties_of_increasing (similarities : list Q) (indices : list nat) :
  StronglySorted lt indices → ties_in_catalog_order similarities indices.
Proof.
  intros Hs a b i j Hab Ha Hb _. exact (StronglySorted_lookup _ _ _ _ _ _ Hs Hab Ha Hb).
Qed.

(** An argsort that leaves a four-way tie in reverse index order meets
    the contract, and the ranking then lists the tied products in load
    order: the order among ties is argsort's doing. *)
Example ties_can_follow_catalog_order :
  argsort_spec [1 # 2; 1 # 2; 1 # 2; 1 # 2]%Q
    (descending_argsort [1 # 2; 1 # 2; 1 # 2; 1 # 2]%Q) ∧
  top_indices descending_argsort [1 # 2; 1 # 2; 1 # 2; 1 # 2]%Q 4 = [0; 1; 2; 3] ∧
  ties_in_catalog_order [1 # 2; 1 # 2; 1 # 2; 1 # 2]%Q
    (top_indices descending_argsort [1 # 2; 1 # 2; 1 # 2; 1 # 2]%Q 4).
Proof.
  split_and!.
  - split; [apply reverse_Permutation |].
    repeat (constructor; [| repeat constructor; by vm_compute]). constructor.
  - reflexivity.
  - apply ties_of_increasing. repeat (constructor; [| repeat constructor; lia]). constructor.
Qed.

(** ** The embedding store and the search *)

Lemma select_columns_lookup (columns : list string) (row : pydict) (c : string) :
  c ∈ columns → select_columns columns row !! c = Some (dict_get row c).
Proof.
  unfold select_columns. induction columns as [|c' columns IH]; intros Hc.
  - by apply elem_of_nil in Hc.
  - rewrite fmap_cons. simpl. destruct (decide (c' = c)) as [-> | Hne].
    + by rewrite lookup_insert_eq.
    + rewrite lookup_insert_ne by done. apply IH.
      apply elem_of_cons in Hc as [-> | Hc]; done.
Qed.

Lemma select_columns_get (columns : list string) (row : pydict) (c : string) :
  c ∈ columns → dict_get (select_columns columns row) c = dict_get row c.
Proof.
  intros Hc. unfold dict_get at 1. by rewrite select_columns_lookup.
Qed.

Lemma load_rows_nothing (pickle_loads : string → result (list Q)) (rows : list pydict) :
  nothing_decodes pickle_loads rows →
  load_rows pickle_loads rows = ([], []).
Proof.
  unfold nothing_decodes. induction 1 as [|row rows Hrow _ IH]; simpl; [done |].
  rewrite IH. destruct (py_truthy _); [| done].
  unfold decode_embedding.
  destruct (dict_get row "embedding") as [| | | | |b| |] eqn:Hb; try done.
  destruct (pickle_loads b) as [v|] eqn:Hv; [| done].
  by destruct (Hrow b v).
Qed.

Lemma rows_with_embedding_nothing (pickle_loads : string → result (list Q))
    (db : list pydict) :
  nothing_decodes pickle_loads db →
  nothing_decodes pickle_loads (rows_with_embedding db).
Proof.
  unfold nothing_decodes, rows_with_embedding. intros Hdb.
  apply Forall_fmap, Forall_forall. intros row [_ Hrow]%list_elem_of_filter. simpl.
  rewrite Forall_forall in Hdb. intros b v.
  rewrite select_columns_get; [by apply Hdb | set_solver].
Qed.

(** C3, counterexample.  A snapshot whose only payload does not decode:
    the load returns an empty product list and an empty matrix instead of
    raising, and [search_products] answers with the empty list. *)
Lemma empty_store_is_not_an_error :
  nothing_decodes failing_pickle sample_catalog ∧
  load_product_embeddings failing_pickle sample_catalog = Returned ([], []) ∧
  ¬ raises (load_product_embeddings failing_pickle sample_catalog) ∧
  search_products argsort_stable failing_pickle sample_embedder sample_cosine
    sample_catalog "water filter" 5 = Returned [].
Proof.
  split_and!.
  - repeat constructor; done.
  - reflexivity.
  - intros [e He]. discriminate He.
  - reflexivity.
Qed.

(** C3, amended.  When no row of the snapshot carries a decodable payload,
    [load_product_embeddings] raises nothing: it returns an empty product
    list with an empty matrix, and [search_products] then returns the empty
    result list, whatever the query, the embedding service and [top_k]. *)
Theorem empty_store_returns_empty (argsort : list Q → list nat)
    (pickle_loads embed_search_query : string → result (list Q))
    (cosine_similarity : list Q → list (list Q) → result (list Q))
    (db : list pydict) (query_text : string) (top_k : Z) :
  nothing_decodes pickle_loads db →
  load_product_embeddings pickle_loads db = Returned ([], []) ∧
  search_products argsort pickle_loads embed_search_query cosine_similarity
    db query_text top_k = Returned [].
Proof.
  intros Hdb.
  assert (load_product_embeddings pickle_loads db = Returned ([], [])) as Hload.
  { unfold load_product_embeddings.
    by rewrite (load_rows_nothing _ _ (rows_with_embedding_nothing _ _ Hdb)). }
  split; [done |]. unfold search_products. by rewrite Hload.
Qed.

Lemma empty_store_returns_empty_witness :
  load_product_embeddings failing_pickle sample_catalog = Returned ([], []) ∧
  search_products argsort_stable failing_pickle sample_embedder sample_cosine
    sample_catalog "water filter" 5 = Returned [].
Proof.
  apply (empty_store_returns_empty argsort_stable failing_pickle sample_embedder
           sample_cosine sample_catalog "water filter" 5).
  repeat constructor; done.
Defined.

(** ** The orchestrator when the embedding call fails *)

(** Handed a client, the parser returns: every exception of the model
    call, of [json.loads] and of the key check is caught. *)
Lemma parse_query_with_gpt_returns (str_lower : string → string)
    (str_split : string → list string)
    (chat_create : string → string → Q → Z → result pyval)
    (json_loads : string → option pyval) (prompt : string) (key : option string)
    (query_text : string) :
  ∃ parsed_query,
    parse_query_with_gpt str_lower str_split chat_create json_loads prompt key
      query_text (Some tt) = Returned parsed_query.
Proof.
  unfold parse_query_with_gpt. simpl.
  destruct (bind (call_gpt_api _ _ _ _ _) _) as [v|e]; simpl; eauto.
Qed.

Lemma generate_no_results_response_returns (chat_create : string → string → Q → Z → result pyval)
    (prompt query_text : string) (parsed_query : pyval) :
  ∃ response_text,
    generate_no_results_response chat_create prompt query_text parsed_query
      = Returned response_text ∧
    (response_text = PyStr NO_RESULTS_APOLOGY ∨
     chat_create prompt (no_results_prompt query_text) (7 # 10)%Q 200%Z
       = Returned response_text).
Proof.
  unfold generate_no_results_response.
  destruct (chat_create _ _ _ _) as [v|e]; simpl; eauto.
Qed.

Lemma search_products_embedding_failure (argsort : list Q → list nat)
    (pickle_loads embed_search_query : string → result (list Q))
    (cosine_similarity : list Q → list (list Q) → result (list Q))
    (db : list pydict) (query_text : string) (top_k : Z) (e : exn) :
  embed_search_query query_text = Raised e →
  search_products argsort pickle_loads embed_search_query cosine_similarity
    db query_text top_k = Returned [].
Proof.
  intros He. unfold search_products, load_product_embeddings.
  destruct (load_rows _ _) as [products embeddings].
  destruct (np_array embeddings) as [matrix|]; cbn [bind try_except]; [| done].
  destruct (length products =? 0); [done |]. by rewrite He.
Qed.

(** C2, counterexample.  The embedding service fails (and so does the chat
    model): [search] does not raise; it returns a complete raw result whose
    product list is empty and whose reply is the fixed apology. *)
Lemma embedding_failure_returns_a_bundle :
  failing_embedder "water filter" = Raised APIError ∧
  search argsort_stable sample_pickle failing_embedder sample_cosine
    ascii_lower ascii_split failing_chat sample_json "intent" "reply"
    sample_repr sample_fixed sample_take sample_catalog
    sample_catalog "water filter" 5 true true
  = Returned (Raw {| raw_query := "water filter";
                     raw_parsed_query :=
                       PyDict (create_fallback_parse ascii_lower ascii_split "water filter");
                     raw_products := [];
                     raw_response := PyStr NO_RESULTS_APOLOGY |}) ∧
  ¬ raises (search argsort_stable sample_pickle failing_embedder sample_cosine
              ascii_lower ascii_split failing_chat sample_json "intent" "reply"
              sample_repr sample_fixed sample_take sample_catalog
              sample_catalog "water filter" 5 true true).
Proof.
  split; [reflexivity |].
  assert (search argsort_stable sample_pickle failing_embedder sample_cosine
    ascii_lower ascii_split failing_chat sample_json "intent" "reply"
    sample_repr sample_fixed sample_take sample_catalog
    sample_catalog "water filter" 5 true true
  = Returned (Raw {| raw_query := "water filter";
                     raw_parsed_query :=
                       PyDict (create_fallback_parse ascii_lower ascii_split "water filter");
                     raw_products := [];
                     raw_response := PyStr NO_RESULTS_APOLOGY |})) as H by reflexivity.
  split; [exact H |]. intros [e He]. rewrite H in He. discriminate He.
Qed.

(** C2, amended.  If the embedding call raises, [search_products] catches
    the exception and returns the empty list; [search] then returns
    normally, with an empty product list and the reply of the no-results
    branch.  No error reaches the caller. *)
Theorem embedding_failure_is_swallowed (argsort : list Q → list nat)
    (pickle_loads embed_search_query : string → result (list Q))
    (cosine_similarity : list Q → list (list Q) → result (list Q))
    (str_lower : string → string) (str_split : string → list string)
    (chat_create : string → string → Q → Z → result pyval)
    (json_loads : string → option pyval)
    (GPT_SYSTEM_PROMPT RESPONSE_SYSTEM_PROMPT : string)
    (py_repr : pyval → string) (format_fixed : nat → Q → string)
    (str_take : nat → string → string) (config_DATABASE db : list pydict)
    (query_text : string) (top_k : Z) (include_upsells return_raw : bool) (e : exn) :
  embed_search_query query_text = Raised e →
  search_products argsort pickle_loads embed_search_query cosine_similarity
    db query_text top_k = Returned [] ∧
  ∃ parsed_query response_text,
    generate_no_results_response chat_create RESPONSE_SYSTEM_PROMPT query_text parsed_query
      = Returned response_text ∧
    search argsort pickle_loads embed_search_query cosine_similarity
      str_lower str_split chat_create json_loads GPT_SYSTEM_PROMPT RESPONSE_SYSTEM_PROMPT
      py_repr format_fixed str_take config_DATABASE
      db query_text top_k include_upsells return_raw
    = Returned (if return_raw
                then Raw {| raw_query := query_text; raw_parsed_query := parsed_query;
                            raw_products := []; raw_response := response_text |}
                else Text response_text).
Proof.
  intros He.
  pose proof (search_products_embedding_failure argsort pickle_loads embed_search_query
                cosine_similarity db query_text top_k e He) as Hsearch.
  split; [done |].
  destruct (parse_query_with_gpt_returns str_lower str_split chat_create json_loads
              GPT_SYSTEM_PROMPT None query_text) as [parsed_query Hparse].
  destruct (generate_no_results_response_returns chat_create RESPONSE_SYSTEM_PROMPT
              query_text parsed_query) as (response_text & Hresp & _).
  exists parsed_query, response_text. split; [done |].
  unfold search, extract_query_intent, hybrid_search.
  rewrite Hparse, Hsearch. cbn [bind]. unfold generate_response.
  cbn [sr_results sr_parsed_query]. rewrite Hresp. cbn [bind]. by destruct return_raw.
Qed.

Lemma embedding_failure_is_swallowed_witness :
  search_products argsort_stable sample_pickle failing_embedder sample_cosine
    sample_catalog "water filter" 5 = Returned [] ∧
  ∃ parsed_query response_text,
    generate_no_results_response failing_chat "reply" "water filter" parsed_query
      = Returned response_text ∧
    search argsort_stable sample_pickle failing_embedder sample_cosine
      ascii_lower ascii_split failing_chat sample_json "intent" "reply"
      sample_repr sample_fixed sample_take sample_catalog
      sample_catalog "water filter" 5 true true
    = Returned (Raw {| raw_query := "water filter"; raw_parsed_query := parsed_query;
                       raw_products := []; raw_response := response_text |}).
Proof.
  apply (embedding_failure_is_swallowed argsort_stable sample_pickle failing_embedder
           sample_cosine ascii_lower ascii_split failing_chat sample_json "intent" "reply"
           sample_repr sample_fixed sample_take sample_catalog sample_catalog
           "water filter" 5 true true APIError).
  reflexivity.
Defined.

(** ** The intent parser *)

Lemma elem_of_cons_ne (k field : string) (fields : list string) :
  k ≠ field → bool_decide (k ∈ field :: fields) = bool_decide (k ∈ fields).
Proof.
  intros Hne. apply bool_decide_ext. rewrite elem_of_cons.
  split; [by intros [? | ?] | by right].
Qed.

Lemma fill_fields_dict (fields : list string) (d : pydict) :
  ∃ d', fill_fields (PyDict d) fields = Returned (PyDict d') ∧
    ∀ k, d' !! k = match d !! k with
                   | Some v => Some v
                   | None => if bool_decide (k ∈ fields) then Some PyNone else None
                   end.
Proof.
  revert d. induction fields as [|field fields IH]; intros d.
  - exists d. split; [done |]. intros k. by destruct (d !! k).
  - cbn [fill_fields]. unfold fill_field. cbn [py_contains py_setitem bind].
    case_bool_decide as Hfield; cbn [bind].
    + destruct (IH d) as (d' & -> & Hd'). exists d'. split; [done |].
      intros k. rewrite Hd'. destruct (d !! k) eqn:Hk; [done |].
      assert (k ≠ field) as Hne by (intros ->; rewrite Hk in Hfield; by destruct Hfield).
      by rewrite elem_of_cons_ne.
    + destruct (IH (<[field := PyNone]> d)) as (d' & -> & Hd').
      exists d'. split; [done |]. intros k. rewrite Hd'.
      destruct (decide (k = field)) as [-> | Hne].
      * rewrite lookup_insert_eq.
        destruct (d !! field) eqn:Hk; [destruct Hfield; eauto |].
        rewrite bool_decide_eq_true_2; [done | by left].
      * rewrite lookup_insert_ne by done. destruct (d !! k); [done |].
        by rewrite elem_of_cons_ne.
Qed.

(** C4, counterexample.  The model answers with the empty JSON object,
    which is valid: the parser returns a dict with five keys, in which
    [model_number], [price_sensitivity] and [urgency] are absent. *)
Lemma parse_leaves_three_keys_out :
  braces_json "{}" = Some (PyDict ∅) ∧
  ∃ parsed,
    parse_query_with_gpt ascii_lower ascii_split braces_chat braces_json "intent" None
      "water filter" (Some tt) = Returned (PyDict parsed) ∧
    parsed !! "intent" = Some PyNone ∧
    parsed !! "model_number" = None ∧
    parsed !! "price_sensitivity" = None ∧
    parsed !! "urgency" = None.
Proof.
  split; [reflexivity |].
  exists (list_to_map [("intent", PyNone); ("part_type", PyNone); ("brand", PyNone);
                       ("category", PyNone); ("keywords", PyNone)]).
  split_and!; reflexivity.
Qed.

(** C4, amended.  When the model output is a valid JSON object, the parser
    returns that object with each of the five keys [intent], [part_type],
    [brand], [category], [keywords] present, a missing one being filled
    with [None]; every key the model gave keeps its value; any other key,
    [model_number], [price_sensitivity] and [urgency] among them, is
    present only if the model gave it. *)
Theorem parse_fills_required_fields (str_lower : string → string)
    (str_split : string → list string)
    (chat_create : string → string → Q → Z → result pyval)
    (json_loads : string → option pyval) (GPT_SYSTEM_PROMPT : string)
    (OPENAI_API_KEY : option string) (query_text text : string) (d : pydict) :
  chat_create GPT_SYSTEM_PROMPT query_text (1 # 10)%Q 300%Z = Returned (PyStr text) →
  json_loads text = Some (PyDict d) →
  ∃ parsed,
    parse_query_with_gpt str_lower str_split chat_create json_loads GPT_SYSTEM_PROMPT
      OPENAI_API_KEY query_text (Some tt) = Returned (PyDict parsed) ∧
    (∀ k, k ∈ required_fields → is_Some (parsed !! k)) ∧
    (∀ k v, d !! k = Some v → parsed !! k = Some v) ∧
    (∀ k, d !! k = None → k ∈ required_fields → parsed !! k = Some PyNone) ∧
    (∀ k, d !! k = None → k ∉ required_fields → parsed !! k = None).
Proof.
  intros Hchat Hjson.
  destruct (fill_fields_dict required_fields d) as (parsed & Hfill & Hparsed).
  exists parsed. split.
  { unfold parse_query_with_gpt, call_gpt_api, loads. cbn [bind].
    rewrite Hchat. cbn [try_except bind]. rewrite Hjson. cbn [bind].
    by rewrite Hfill. }
  split_and!.
  - intros k Hk. rewrite Hparsed. destruct (d !! k); [done |].
    by rewrite bool_decide_eq_true_2.
  - intros k v Hk. by rewrite Hparsed, Hk.
  - intros k Hk Hreq. by rewrite Hparsed, Hk, bool_decide_eq_true_2.
  - intros k Hk Hreq. by rewrite Hparsed, Hk, bool_decide_eq_false_2.
Qed.

Lemma parse_fills_required_fields_witness :
  ∃ parsed,
    parse_query_with_gpt ascii_lower ascii_split braces_chat braces_json "intent" None
      "water filter" (Some tt) = Returned (PyDict parsed) ∧
    (∀ k, k ∈ required_fields → is_Some (parsed !! k)) ∧
    (∀ k v, (∅ : pydict) !! k = Some v → parsed !! k = Some v) ∧
    (∀ k, (∅ : pydict) !! k = None → k ∈ required_fields → parsed !! k = Some PyNone) ∧
    (∀ k, (∅ : pydict) !! k = None → k ∉ required_fields → parsed !! k = None).
Proof.
  apply (parse_fills_required_fields ascii_lower ascii_split braces_chat braces_json
           "intent" None "water filter" "{}" ∅); reflexivity.
Defined.

Lemma append_String (c : Ascii.ascii) (s t : string) :
  String c s +:+ t = String c (s +:+ t).
Proof. reflexivity. Qed.

Lemma prefix_spec (p s : string) :
  String.prefix p s = true ↔ ∃ post, s = p +:+ post.
Proof.
  revert s. induction p as [|a p IH]; intros s.
  - split; [intros _; by exists s | by destruct s].
  - destruct s as [|b s]; simpl.
    { split; [done | intros [post Hpost]; discriminate Hpost]. }
    destruct (Ascii.ascii_dec a b) as [-> | Hne].
    + rewrite IH. split; intros [post Hpost]; exists post;
        rewrite append_String in *; congruence.
    + split; [done | intros [post Hpost]; rewrite append_String in Hpost; congruence].
Qed.

(** [str_contains] is the substring test. *)
Lemma str_contains_spec (needle haystack : string) :
  str_contains needle haystack = true ↔
  ∃ pre post, haystack = pre +:+ needle +:+ post.
Proof.
  induction haystack as [|c haystack IH]; cbn [str_contains].
  - rewrite orb_false_r, prefix_spec. split.
    + intros [post ->]. by exists "", post.
    + intros ([|a pre] & post & H); [by exists post | done].
  - rewrite orb_true_iff, prefix_spec, IH. split.
    + intros [[post ->] | (pre & post & ->)]; [by exists "", post |].
      by exists (String c pre), post.
    + intros ([|a pre] & post & H); [left; by exists post |].
      right. exists pre, post. rewrite append_String in H. congruence.
Qed.

Lemma find_first {A} (f : A → bool) (l : list A) (x : A) :
  List.find f l = Some x →
  ∃ i, l !! i = Some x ∧ f x = true ∧ ∀ j y, j < i → l !! j = Some y → f y = false.
Proof.
  induction l as [|a l IH]; simpl; [done |].
  destruct (f a) eqn:Ha.
  - intros [= <-]. exists 0. split_and!; [done | done | lia].
  - intros (i & Hi & Hx & Hfirst)%IH. exists (S i). split_and!; [done | done |].
    intros [|j] y Hj; simpl; [by intros [= <-] | apply Hfirst; lia].
Qed.

Lemma find_nothing {A} (f : A → bool) (l : list A) :
  List.find f l = None → ∀ x, x ∈ l → f x = false.
Proof.
  intros H x Hx%list_elem_of_In. by eapply find_none.
Qed.

(** The brand of the fallback parse is the title-cased first brand of the
    list that occurs in the lower-cased query, if any. *)
Lemma detect_brand_spec (str_lower : string → string) (query_text : string) :
  match detect_brand str_lower query_text with
  | Some detected =>
      ∃ i brand, brands !! i = Some brand ∧ detected = ascii_title brand ∧
        str_contains brand (str_lower query_text) = true ∧
        ∀ j earlier, j < i → brands !! j = Some earlier →
          str_contains earlier (str_lower query_text) = false
  | None => ∀ brand, brand ∈ brands → str_contains brand (str_lower query_text) = false
  end.
Proof.
  unfold detect_brand.
  destruct (List.find _ brands) as [brand|] eqn:Hfind; simpl.
  - apply find_first in Hfind as (i & Hi & Hb & Hfirst). by exists i, brand.
  - by apply find_nothing.
Qed.

(** The category of the fallback parse is the first category of the table
    one of whose keywords occurs in the lower-cased query, if any. *)
Lemma detect_category_spec (str_lower : string → string) (query_text : string) :
  match detect_category str_lower query_text with
  | Some detected =>
      ∃ i keywords keyword, categories !! i = Some (detected, keywords) ∧
        keyword ∈ keywords ∧ str_contains keyword (str_lower query_text) = true ∧
        ∀ j category keywords' keyword', j < i →
          categories !! j = Some (category, keywords') → keyword' ∈ keywords' →
          str_contains keyword' (str_lower query_text) = false
  | None =>
      ∀ category keywords keyword, (category, keywords) ∈ categories →
        keyword ∈ keywords → str_contains keyword (str_lower query_text) = false
  end.
Proof.
  unfold detect_category.
  destruct (List.find _ categories) as [[category keywords]|] eqn:Hfind; simpl.
  - apply find_first in Hfind as (i & Hi & Hb & Hfirst). simpl in Hb.
    apply existsb_exists in Hb as (keyword & Hin%list_elem_of_In & Hk).
    exists i, keywords, keyword. split_and!; try done.
    intros j c ks k Hj Hc Hks. specialize (Hfirst j (c, ks) Hj Hc). simpl in Hfirst.
    destruct (str_contains k (str_lower query_text)) eqn:Hk'; [| done].
    rewrite <- Hfirst. symmetry. apply existsb_exists. exists k.
    by rewrite <- list_elem_of_In.
  - intros c ks k Hc Hks. pose proof (find_nothing _ _ Hfind (c, ks) Hc) as Hnone.
    simpl in Hnone.
    destruct (str_contains k (str_lower query_text)) eqn:Hk'; [| done].
    rewrite <- Hnone. symmetry. apply existsb_exists. exists k.
    by rewrite <- list_elem_of_In.
Qed.

Lemma occurs_contains (needle haystack : string) :
  occurs needle haystack ↔ str_contains needle haystack = true.
Proof. unfold occurs. by rewrite str_contains_spec. Qed.

Lemma not_occurs (needle haystack : string) :
  str_contains needle haystack = false → ¬ occurs needle haystack.
Proof. rewrite occurs_contains. congruence. Qed.

(** C5.  When the model call raises, or returns text that is not JSON, the
    parser (handed a client, or making one from the key of the
    environment) does not raise: it returns the rule-based parse of the
    query, marked as a fallback, with intent [find_part] and urgency
    [normal] and no part type, model number or price sensitivity.  Its
    keywords are the first ten words of the lower-cased query.  Its brand
    is the title-cased first entry of the fixed brand list that occurs as
    a substring of the lower-cased query, and its category the first entry
    of the fixed table one of whose keywords occurs there; each is [None]
    when nothing occurs. *)
Theorem parse_falls_back (str_lower : string → string)
    (str_split : string → list string)
    (chat_create : string → string → Q → Z → result pyval)
    (json_loads : string → option pyval) (GPT_SYSTEM_PROMPT : string)
    (OPENAI_API_KEY : option string) (query_text : string) (client : option unit) :
  client_available OPENAI_API_KEY client →
  (∃ e, chat_create GPT_SYSTEM_PROMPT query_text (1 # 10)%Q 300%Z = Raised e) ∨
  (∃ text, chat_create GPT_SYSTEM_PROMPT query_text (1 # 10)%Q 300%Z = Returned (PyStr text) ∧
           json_loads text = None) →
  ∃ parsed brand category,
    parse_query_with_gpt str_lower str_split chat_create json_loads GPT_SYSTEM_PROMPT
      OPENAI_API_KEY query_text client = Returned (PyDict parsed) ∧
    parsed = create_fallback_parse str_lower str_split query_text ∧
    dom parsed = list_to_set
      ["intent"; "part_type"; "brand"; "model_number"; "category"; "keywords";
       "price_sensitivity"; "urgency"; "fallback"] ∧
    parsed !! "fallback" = Some (PyBool true) ∧
    parsed !! "intent" = Some (PyStr "find_part") ∧
    parsed !! "urgency" = Some (PyStr "normal") ∧
    parsed !! "part_type" = Some PyNone ∧
    parsed !! "model_number" = Some PyNone ∧
    parsed !! "price_sensitivity" = Some PyNone ∧
    parsed !! "keywords"
      = Some (PyList (PyStr <$> take 10 (str_split (str_lower query_text)))) ∧
    parsed !! "brand" = Some brand ∧
    parsed !! "category" = Some category ∧
    ((brand = PyNone ∧
      ∀ name titled,
        (name, titled) ∈ [ ("whirlpool", "Whirlpool"); ("ge", "Ge"); ("samsung", "Samsung");
                            ("lg", "Lg"); ("frigidaire", "Frigidaire"); ("bosch", "Bosch");
                            ("kitchenaid", "Kitchenaid"); ("maytag", "Maytag") ] →
        ¬ occurs name (str_lower query_text)) ∨
     (∃ i name titled,
        [ ("whirlpool", "Whirlpool"); ("ge", "Ge"); ("samsung", "Samsung");
          ("lg", "Lg"); ("frigidaire", "Frigidaire"); ("bosch", "Bosch");
          ("kitchenaid", "Kitchenaid"); ("maytag", "Maytag") ] !! i = Some (name, titled) ∧
        brand = PyStr titled ∧
        occurs name (str_lower query_text) ∧
        ∀ j earlier titled',
          j < i →
          [ ("whirlpool", "Whirlpool"); ("ge", "Ge"); ("samsung", "Samsung");
            ("lg", "Lg"); ("frigidaire", "Frigidaire"); ("bosch", "Bosch");
            ("kitchenaid", "Kitchenaid"); ("maytag", "Maytag") ] !! j
            = Some (earlier, titled') →
          ¬ occurs earlier (str_lower query_text))) ∧
    ((category = PyNone ∧
      ∀ name keywords keyword,
        (name, keywords) ∈ [ ("refrigerator", ["fridge"; "refrigerator"; "freezer"]);
                              ("dishwasher", ["dishwasher"]);
                              ("washer", ["washer"; "washing machine"]);
                              ("dryer", ["dryer"]) ] →
        keyword ∈ keywords → ¬ occurs keyword (str_lower query_text)) ∨
     (∃ i name keywords keyword,
        [ ("refrigerator", ["fridge"; "refrigerator"; "freezer"]);
          ("dishwasher", ["dishwasher"]);
          ("washer", ["washer"; "washing machine"]);
          ("dryer", ["dryer"]) ] !! i = Some (name, keywords) ∧
        category = PyStr name ∧
        keyword ∈ keywords ∧ occurs keyword (str_lower query_text) ∧
        ∀ j name' keywords' keyword',
          j < i →
          [ ("refrigerator", ["fridge"; "refrigerator"; "freezer"]);
            ("dishwasher", ["dishwasher"]);
            ("washer", ["washer"; "washing machine"]);
            ("dryer", ["dryer"]) ] !! j = Some (name', keywords') →
          keyword' ∈ keywords' → ¬ occurs keyword' (str_lower query_text))).
Proof.
  intros Hclient Hfail.
  exists (create_fallback_parse str_lower str_split query_text),
         (opt_str (detect_brand str_lower query_text)),
         (opt_str (detect_category str_lower query_text)).
  split.
  { unfold parse_query_with_gpt.
    assert (match client with
            | Some c => Returned c
            | None =>
                match OPENAI_API_KEY with
                | Some key => if String.eqb key "" then Raised ValueError else Returned tt
                | None => Raised ValueError
                end
            end = Returned tt) as ->.
    { destruct client as [[]|]; [done |]. destruct Hclient as (key & -> & Hkey).
      by destruct (String.eqb_spec key ""). }
    unfold call_gpt_api, loads. cbn [bind].
    destruct Hfail as [[e ->] | (text & -> & Hjson)]; [done |].
    cbn [try_except bind]. by rewrite Hjson. }
  split; [done |]. split; [reflexivity |].
  do 9 (split; [reflexivity |]).
  split.
  - change [ ("whirlpool", "Whirlpool"); ("ge", "Ge"); ("samsung", "Samsung");
             ("lg", "Lg"); ("frigidaire", "Frigidaire"); ("bosch", "Bosch");
             ("kitchenaid", "Kitchenaid"); ("maytag", "Maytag") ]
      with ((λ name, (name, ascii_title name)) <$> brands).
    pose proof (detect_brand_spec str_lower query_text) as Hspec.
    destruct (detect_brand str_lower query_text) as [detected|]; cbn [opt_str].
    + right. destruct Hspec as (i & name & Hi & -> & Hin & Hfirst).
      exists i, name, (ascii_title name). split_and!.
      * by rewrite list_lookup_fmap, Hi.
      * done.
      * by apply occurs_contains.
      * intros j earlier titled' Hj Hlookup. rewrite list_lookup_fmap in Hlookup.
        destruct (brands !! j) as [name'|] eqn:Hname; [| done].
        injection Hlookup as <- _. apply not_occurs. by eapply Hfirst.
    + left. split; [done |]. intros name titled Hin.
      apply list_elem_of_fmap in Hin as (name' & [= -> _] & Hin).
      apply not_occurs. by apply Hspec.
  - change [ ("refrigerator", ["fridge"; "refrigerator"; "freezer"]);
             ("dishwasher", ["dishwasher"]);
             ("washer", ["washer"; "washing machine"]);
             ("dryer", ["dryer"]) ] with categories.
    pose proof (detect_category_spec str_lower query_text) as Hspec.
    destruct (detect_category str_lower query_text) as [detected|]; cbn [opt_str].
    + right. destruct Hspec as (i & keywords & keyword & Hi & Hk & Hin & Hfirst).
      exists i, detected, keywords, keyword. split_and!; try done.
      * by apply occurs_contains.
      * intros j name' keywords' keyword' Hj Hlookup Hk'.
        apply not_occurs. by eapply Hfirst.
    + left. split; [done |]. intros name keywords keyword Hin Hk.
      apply not_occurs. by eapply Hspec.
Qed.

Lemma parse_falls_back_witness :
  ∃ parsed,
    parse_query_with_gpt ascii_lower ascii_split failing_chat sample_json "intent"
      (Some "sk-key") "Water filter for a Whirlpool fridge" None = Returned (PyDict parsed) ∧
    parsed !! "brand" = Some (PyStr "Whirlpool") ∧
    parsed !! "category" = Some (PyStr "refrigerator").
Proof.
  destruct (parse_falls_back ascii_lower ascii_split failing_chat sample_json "intent"
              (Some "sk-key") "Water filter for a Whirlpool fridge" None)
    as (parsed & brand & category & Hparse & -> & _).
  - exists "sk-key". split; [reflexivity | discriminate].
  - left. exists APIError. reflexivity.
  - eexists. split; [exact Hparse |]. split; reflexivity.
Defined.

(** The scenario of the specification, on the fallback path. *)
Example fallback_whirlpool_fridge :
  detect_brand ascii_lower "Water filter for a Whirlpool fridge" = Some "Whirlpool" ∧
  detect_category ascii_lower "Water filter for a Whirlpool fridge" = Some "refrigerator" ∧
  ascii_split (ascii_lower "Water filter for a Whirlpool fridge")
    = ["water"; "filter"; "for"; "a"; "whirlpool"; "fridge"].
Proof. split_and!; reflexivity. Qed.

(** ** The upsell selector *)

Lemma sql_eq_bound (v bound : pyval) :
  py_truthy v = true → sql_bind v = Returned bound → sql_true (sql_eq v bound) = true.
Proof.
  destruct v as [| [|] | z | q | s | s | l | d]; simpl; try done; intros _ [= <-];
    simpl; try done;
    first [ by rewrite (proj2 (Qeq_bool_iff _ _) (Qeq_refl _))
          | by rewrite String.eqb_refl ].
Qed.


Lemma sql_in_false (x : pyval) (vs : list pyval) (v : pyval) :
  sql_in x vs = Some false → v ∈ vs → sql_true (sql_eq x v) = false.
Proof.
  intros Hin Hv. destruct vs as [|v0 vs]; [by apply elem_of_nil in Hv |].
  unfold sql_in in Hin.
  destruct (existsb _ (v0 :: vs)) eqn:Hex; [done |].
  destruct (sql_true (sql_eq x v)) eqn:Heq; [| done].
  rewrite <- Hex. symmetry. apply existsb_exists. exists v.
  by rewrite <- list_elem_of_In.
Qed.

Lemma upsell_where_inv (skus : list pyval) (brand : pyval) (row : pydict) :
  upsell_where skus brand row = true →
  sql_in (dict_get row "sku") skus = Some false ∧
  sql_eq (dict_get row "brand") brand = Some true ∧
  sql_eq (dict_get row "in_stock") (PyInt 1) = Some true.
Proof.
  unfold upsell_where.
  destruct (sql_in _ _) as [[|]|]; destruct (sql_eq (dict_get row "brand") _) as [[|]|];
    destruct (sql_eq (dict_get row "in_stock") _) as [[|]|]; simpl; done.
Qed.

(** What [suggest_upsells] returns, whatever its input: rows of the
    catalog that pass the WHERE clause for the bound parameters, or
    nothing. *)
Lemma suggest_upsells_rows (db primary_products : list pydict) (num_suggestions : Z) :
  ∃ upsells,
    suggest_upsells db primary_products num_suggestions = Returned upsells ∧
    (upsells = [] ∨
     ∃ first rest bound_skus bound_brand,
       primary_products = first :: rest ∧
       mapM_result sql_bind (primary_skus primary_products) = Returned bound_skus ∧
       sql_bind (dict_get_or first "brand" (PyStr "")) = Returned bound_brand ∧
       upsells = sql_limit num_suggestions
                   (filter (λ row, upsell_where bound_skus bound_brand row = true) db)).
Proof.
  destruct primary_products as [|first rest]; [by exists []; split; [| left] |].
  cbn [suggest_upsells].
  destruct (mapM_result sql_bind (primary_skus (first :: rest))) as [bound_skus|] eqn:Hs;
    cbn [bind try_except]; [| exists []; by split; [| left]].
  destruct (sql_bind (dict_get_or first "brand" (PyStr ""))) as [bound_brand|] eqn:Hb;
    cbn [bind try_except]; [| exists []; by split; [| left]].
  eexists. split; [done |]. right. by exists first, rest, bound_skus, bound_brand.
Qed.

Lemma sql_limit_subseteq {A} (n : Z) (rows : list A) (x : A) :
  x ∈ sql_limit n rows → x ∈ rows.
Proof.
  unfold sql_limit. destruct (n <? 0)%Z; [done |].
  intros Hx. eapply elem_of_submseteq; [exact Hx |]. apply submseteq_take.
Qed.

(** C6, counterexample.  The function collects the SKUs to exclude with
    [if p.get('sku')], so a primary result whose SKU is the empty string
    excludes nothing: the catalog row with that same SKU, of the same brand
    and in stock, is suggested, and the output meets the primary SKUs. *)
Lemma upsell_repeats_unkeyed_primary :
  ∃ upsell,
    suggest_upsells unkeyed_catalog [unkeyed_result] 2 = Returned [upsell] ∧
    unkeyed_result ∈ [unkeyed_result] ∧
    dict_get upsell "sku" = dict_get unkeyed_result "sku" ∧
    dict_get upsell "sku" ∈ (λ p, dict_get p "sku") <$> [unkeyed_result].
Proof.
  eexists. split; [vm_compute; reflexivity |].
  split; [apply list_elem_of_here |]. split; [reflexivity |].
  vm_compute. apply list_elem_of_here.
Qed.

(** C6, amended.  [suggest_upsells] never raises, and every row it returns
    is a row of the catalog, is in stock ([in_stock = 1]) and carries a SKU
    that is none of the SKUs the function collects from the primary
    results, which are the truthy ones: the output shares no SKU with a
    primary result whose SKU is neither missing, [None] nor empty. *)
Theorem upsells_exclude_primary_and_in_stock (db primary_products : list pydict)
    (num_suggestions : Z) :
  ∃ upsells,
    suggest_upsells db primary_products num_suggestions = Returned upsells ∧
    Forall (λ upsell,
              upsell ∈ db ∧
              sql_eq (dict_get upsell "in_stock") (PyInt 1) = Some true ∧
              (dict_get upsell "sku" ∉ primary_skus primary_products) ∧
              ∀ primary, primary ∈ primary_products →
                py_truthy (dict_get primary "sku") = true →
                dict_get upsell "sku" ≠ dict_get primary "sku") upsells.
Proof.
  destruct (suggest_upsells_rows db primary_products num_suggestions)
    as (upsells & Hret & [-> | (first & rest & bound_skus & bound_brand & _ & Hs & _ & ->)]).
  { exists []. by split. }
  eexists. split; [exact Hret |]. rewrite Forall_forall. intros upsell Hu.
  apply sql_limit_subseteq, list_elem_of_filter in Hu as [Hw Hdb].
  apply upsell_where_inv in Hw as (Hin & _ & Hstock).
  assert (dict_get upsell "sku" ∉ primary_skus primary_products) as Hnot.
  { intros Hsku. apply mapM_result_inv in Hs.
    destruct (proj1 (list_elem_of_lookup _ _) Hsku) as [i Hi].
    destruct (Forall2_lookup_l _ _ _ _ _ Hs Hi) as (bound & Hbound & Hbind).
    assert (py_truthy (dict_get upsell "sku") = true) as Htruthy.
    { unfold primary_skus in Hsku. by apply list_elem_of_filter in Hsku as [? _]. }
    pose proof (sql_eq_bound _ _ Htruthy Hbind) as Heq.
    rewrite (sql_in_false _ _ bound Hin) in Heq; [done |].
    by eapply list_elem_of_lookup_2. }
  split_and!; try done.
  intros primary Hp Htruthy Heq. apply Hnot. rewrite Heq.
  unfold primary_skus. apply list_elem_of_filter. split; [done |].
  apply list_elem_of_fmap. by exists primary.
Qed.



(** ** The response composer *)

Lemma bind_returns {A B} (r : result A) (k : A → result B) :
  (∃ a, r = Returned a) → (∀ a, ∃ b, k a = Returned b) →
  ∃ b, bind r k = Returned b.
Proof. intros [a ->] Hk. apply Hk. Qed.

Lemma dict_item_truthy (d : pydict) (k : string) :
  py_truthy (dict_get d k) = true → dict_item d k = Returned (dict_get d k).
Proof.
  unfold dict_get, dict_item. by destruct (d !! k).
Qed.

Lemma dict_item_not_none (d : pydict) (k : string) :
  py_is_none (dict_get d k) = false → dict_item d k = Returned (dict_get d k).
Proof.
  unfold dict_get, dict_item. by destruct (d !! k).
Qed.

Lemma mapM_result_id_returns {A} (l : list (result A)) :
  (∀ r, r ∈ l → ∃ a, r = Returned a) →
  ∃ ys, mapM_result (λ r : result A, r) l = Returned ys ∧
        Forall2 (λ r y, r = Returned y) l ys.
Proof. apply mapM_result_Forall2. Qed.

Section ComposerFacts.
Variable py_repr : pyval → string.
Variable format_fixed : nat → Q → string.
Variable str_take : nat → string → string.

Lemma py_format_f_number (digits : nat) (v : pyval) :
  is_number v → ∃ q, py_number v = Some q ∧
    py_format_f format_fixed digits v = Returned (format_fixed digits q).
Proof.
  intros [q Hq]. exists q. split; [done |].
  unfold py_format_f. rewrite Hq. by destruct v.
Qed.

Lemma py_format_f_returns (digits : nat) (v : pyval) :
  is_number v → ∃ text, py_format_f format_fixed digits v = Returned text.
Proof. intros (q & _ & ->)%(py_format_f_number digits). eauto. Qed.

Lemma truthy_number (v : pyval) :
  py_truthy v = true → number_or_none v → is_number v.
Proof. by intros Ht [-> | Hn]. Qed.

Lemma sale_price_number (product : pydict) :
  typed_product product → py_truthy (dict_get product "sale_price") = true →
  is_number (dict_get product "sale_price").
Proof.
  intros [Hs _ _ _ _]. unfold dict_get, dict_get_or in *.
  by destruct (product !! "sale_price").
Qed.

Lemma py_gt_numbers (a b : pyval) :
  is_number a → is_number b → ∃ c, py_gt a b = Returned c.
Proof. intros [x Hx] [y Hy]. unfold py_gt. rewrite Hx, Hy. eauto. Qed.

(** A product of the schema's types is formatted without an exception. *)
Lemma format_product_returns (i : nat) (product : pydict) :
  typed_product product →
  ∃ text, format_product py_repr format_fixed str_take i product false = Returned text.
Proof.
  intros Htyped. pose proof Htyped as [Hsale Hregular Hdiscount Hmodels Hscore].
  unfold format_product. cbv zeta.
  apply bind_returns.
  { destruct (py_truthy (dict_get product "brand")) eqn:Hb; [| eauto].
    rewrite dict_item_truthy by done. cbn [bind]. eauto. }
  intros parts1. apply bind_returns.
  { destruct (py_truthy (dict_get product "sale_price")) eqn:Hs; [| eauto].
    pose proof (sale_price_number _ Htyped Hs) as Hnum.
    destruct (py_format_f_returns 2 _ Hnum) as [s Hfs].
    destruct (py_truthy (dict_get product "regular_price")) eqn:Hr; cbn [bind].
    - pose proof (truthy_number _ Hr Hregular) as Hrnum.
      destruct (py_gt_numbers _ _ Hrnum Hnum) as [[|] ->]; cbn [bind].
      + destruct (py_format_f_returns 2 _ Hrnum) as [r ->].
        destruct (py_format_f_returns 0 _ Hdiscount) as [d ->].
        rewrite Hfs. cbn [bind]. eauto.
      + rewrite Hfs. cbn [bind]. eauto.
    - rewrite Hfs. cbn [bind]. eauto. }
  intros parts2. apply bind_returns.
  { destruct (py_truthy (dict_get product "compatible_models")) eqn:Hm; [| eauto].
    rewrite dict_item_truthy by done. cbn [bind].
    destruct Hmodels as [Hnone | [models Hmodels]]; [by rewrite Hnone in Hm |].
    rewrite Hmodels. cbn [py_slice_to bind]. eauto. }
  intros parts3. cbn [andb]. cbn [bind]. apply bind_returns; [| eauto].
  destruct (py_is_none (dict_get product "similarity_score")) eqn:Hn; cbn [negb]; [eauto |].
  rewrite dict_item_not_none by done. cbn [bind].
  destruct Hscore as [Hnone | Hnum]; [by rewrite Hnone in Hn |].
  destruct (py_format_f_returns 2 _ Hnum) as [s ->]. cbn [bind]. eauto.
Qed.

Lemma format_products_for_gpt_returns (products : list pydict) :
  Forall typed_product products →
  ∃ text, format_products_for_gpt py_repr format_fixed str_take products false
            = Returned text.
Proof.
  intros Htyped. destruct products as [|product products]; [by eexists |].
  unfold format_products_for_gpt.
  destruct (mapM_result_id_returns
    (imap (λ i p, format_product py_repr format_fixed str_take (S i) p false)
          (product :: products))) as (texts & -> & _); [| cbn [bind]; eauto].
  intros r (i & p & -> & Hp)%elem_of_lookup_imap.
  apply format_product_returns. rewrite Forall_forall in Htyped.
  apply Htyped. by eapply list_elem_of_lookup_2.
Qed.

Lemma format_upsell_returns (upsell : pydict) :
  typed_product upsell → ∃ text, format_upsell py_repr format_fixed upsell = Returned text.
Proof.
  intros [Hsale _ _ _ _]. unfold format_upsell.
  destruct (py_format_f_returns 2 _ Hsale) as [price ->]. cbn [bind]. cbv zeta.
  apply bind_returns; [| eauto].
  destruct (py_truthy (dict_get upsell "category")) eqn:Hc; [| eauto].
  rewrite dict_item_truthy by done. cbn [bind]. eauto.
Qed.

Lemma format_upsells_for_gpt_returns (upsells : list pydict) :
  Forall typed_product upsells →
  ∃ text, format_upsells_for_gpt py_repr format_fixed upsells = Returned text.
Proof.
  intros Htyped. destruct upsells as [|upsell upsells]; [by eexists |].
  unfold format_upsells_for_gpt.
  destruct (mapM_result_Forall2 (format_upsell py_repr format_fixed) (upsell :: upsells))
    as (texts & -> & _); [| cbn [bind]; eauto].
  intros u Hu. apply format_upsell_returns. rewrite Forall_forall in Htyped. by apply Htyped.
Qed.
End ComposerFacts.

Lemma concat_cons_append (sep x : string) (l : list string) :
  ∃ rest, String.concat sep (x :: l) = x +:+ rest.
Proof.
  destruct l as [|y l]; simpl.
  - exists "". clear. induction x as [|c x IH]; [done |].
    by rewrite append_String, <- IH.
  - by eexists.
Qed.

Lemma suggest_upsells_typed (db primary_products : list pydict) :
  Forall typed_product db →
  ∃ upsells,
    suggest_upsells db primary_products 2 = Returned upsells ∧
    Forall typed_product upsells ∧ length upsells ≤ 2.
Proof.
  intros Htyped.
  destruct (suggest_upsells_rows db primary_products 2)
    as (upsells & Hret & [-> | (first & rest & bound_skus & bound_brand & _ & _ & _ & ->)]).
  { exists []. split_and!; [done | constructor | simpl; lia]. }
  eexists. split; [exact Hret |]. split.
  - rewrite Forall_forall in Htyped. rewrite Forall_forall. intros row Hrow.
    apply sql_limit_subseteq, list_elem_of_filter in Hrow as [_ Hdb]. by apply Htyped.
  - unfold sql_limit. simpl. rewrite length_take. lia.
Qed.

Section ComposerTheorems.
Variable py_repr : pyval → string.
Variable format_fixed : nat → Q → string.
Variable str_take : nat → string → string.
Variable chat_create : string → string → Q → Z → result pyval.
Variable RESPONSE_SYSTEM_PROMPT : string.
Variable config_DATABASE : list pydict.
Hypothesis Hcatalog : Forall typed_product config_DATABASE.

Lemma response_upsells_returns (top_products : list pydict) (include_upsells : bool) :
  ∃ upsells upsells_text,
    response_upsells py_repr format_fixed config_DATABASE top_products include_upsells
      = Returned (upsells, upsells_text) ∧
    Forall typed_product upsells ∧ length upsells ≤ 2 ∧
    (if include_upsells then upsells else []) = upsells.
Proof.
  unfold response_upsells. destruct include_upsells.
  - destruct (suggest_upsells_typed config_DATABASE top_products Hcatalog)
      as (upsells & -> & Htyped & Hlen). cbn [bind].
    destruct upsells as [|upsell upsells]; [by exists [], "" |].
    destruct (format_upsells_for_gpt_returns py_repr format_fixed _ Htyped) as [text ->].
    cbn [bind]. by eexists _, _.
  - exists [], "". split_and!; [done | constructor | simpl; lia | done].
Qed.

Lemma fallback_product_lines_typed (i : nat) (product : pydict) :
  typed_product product →
  ∃ price, py_number (dict_get_or product "sale_price" (PyInt 0)) = Some price ∧
    fallback_product_lines py_repr format_fixed i product = Returned
      [ pretty i +:+ ". **" +:+ py_str py_repr (dict_get_or product "product_name" (PyStr "Unknown"))
          +:+ "** (SKU: " +:+ py_str py_repr (dict_get_or product "sku" (PyStr "N/A")) +:+ ")";
        "   $" +:+ format_fixed 2 price +:+ " - " +:+
          (if py_truthy (dict_get product "in_stock") then "In Stock" else "Out of Stock") ].
Proof.
  intros [Hsale _ _ _ _].
  destruct (py_format_f_number format_fixed 2 _ Hsale) as (price & Hprice & Hformat).
  exists price. split; [done |]. unfold fallback_product_lines. cbv zeta.
  by rewrite Hformat.
Qed.

Lemma fallback_upsell_line_typed (upsell : pydict) :
  typed_product upsell →
  ∃ price, py_number (dict_get_or upsell "sale_price" (PyInt 0)) = Some price ∧
    fallback_upsell_line py_repr format_fixed upsell = Returned
      ("- " +:+ py_str py_repr (dict_get_or upsell "product_name" (PyStr "Unknown"))
         +:+ " ($" +:+ format_fixed 2 price +:+ ")").
Proof.
  intros [Hsale _ _ _ _].
  destruct (py_format_f_number format_fixed 2 _ Hsale) as (price & Hprice & Hformat).
  exists price. split; [done |]. unfold fallback_upsell_line. cbv zeta.
  by rewrite Hformat.
Qed.

(** The template: a header, two lines for each of the first three
    products, and a line for each of the first two upsells under their
    own header. *)
Lemma fallback_lines_typed (products upsells : list pydict) :
  Forall typed_product products → Forall typed_product upsells →
  ∃ product_lines upsell_lines,
    fallback_lines py_repr format_fixed products upsells = Returned
      (TEMPLATE_HEADER :: concat product_lines ++
         match upsells with [] => [] | _ => UPSELL_HEADER :: upsell_lines end) ∧
    Forall2 (λ r lines, r = Returned lines)
      (imap (λ i product, fallback_product_lines py_repr format_fixed (S i) product)
            (take 3 products)) product_lines ∧
    Forall2 (λ upsell line, fallback_upsell_line py_repr format_fixed upsell = Returned line)
      (take 2 upsells) upsell_lines.
Proof.
  intros Hproducts Hupsells. unfold fallback_lines, slice_to. cbv zeta.
  destruct (mapM_result_id_returns
    (imap (λ i product, fallback_product_lines py_repr format_fixed (S i) product)
          (take 3 products))) as (product_lines & -> & HF).
  { intros r (i & p & -> & Hp)%elem_of_lookup_imap.
    destruct (fallback_product_lines_typed (S i) p) as (price & _ & ->); [| eauto].
    rewrite Forall_forall in Hproducts. apply Hproducts.
    apply list_elem_of_lookup_2 in Hp.
    eapply elem_of_submseteq; [exact Hp | apply submseteq_take]. }
  destruct (mapM_result_Forall2 (fallback_upsell_line py_repr format_fixed) (take 2 upsells))
    as (upsell_lines & Hu & HFu).
  { intros u Hin.
    destruct (fallback_upsell_line_typed u) as (price & _ & ->); [| eauto].
    rewrite Forall_forall in Hupsells. apply Hupsells.
    eapply elem_of_submseteq; [exact Hin | apply submseteq_take]. }
  exists product_lines, upsell_lines. cbn [bind]. split; [| done].
  destruct upsells as [|upsell upsells]; [by rewrite app_nil_r |].
  by rewrite Hu.
Qed.
End ComposerTheorems.

Lemma template_not_empty (lines : list string) :
  String.concat NL (TEMPLATE_HEADER :: lines) ≠ "" ∧
  String.concat NL (TEMPLATE_HEADER :: lines) ≠ NO_RESULTS_APOLOGY.
Proof.
  destruct (concat_cons_append NL TEMPLATE_HEADER lines) as [rest ->].
  assert (String.prefix "I f" (TEMPLATE_HEADER +:+ rest) = true) as Hprefix
    by (vm_compute; reflexivity).
  split; intros Heq; rewrite Heq in Hprefix; vm_compute in Hprefix; discriminate Hprefix.
Qed.

(** C8, counterexample.  The model call succeeds with an empty completion:
    the composer returns the empty string. *)
Lemma composer_returns_empty_completion :
  generate_response sample_repr sample_fixed sample_take silent_chat "reply"
    sample_catalog "water filter"
    {| sr_query := "water filter"; sr_parsed_query := PyNone;
       sr_results := [xwfe_result] |} true
  = Returned (PyStr "").
Proof. reflexivity. Qed.

(** C8, amended.  For products and catalog rows whose prices have the
    types of the schema, the composer always returns and never passes on an
    exception of the model call.  With no product it returns the model's
    reply to the no-results prompt, or the fixed apology when that call
    fails.  With products it returns the model's completion as it is (so
    it is non-empty when the completion is), and when the call fails the
    template: the header, a name/SKU line and a price/stock line for each
    of the first three products, and a name/price line for each of at most
    two upsells; the template is neither empty nor the apology. *)
Theorem generate_response_composes (py_repr : pyval → string)
    (format_fixed : nat → Q → string) (str_take : nat → string → string)
    (chat_create : string → string → Q → Z → result pyval)
    (RESPONSE_SYSTEM_PROMPT : string) (config_DATABASE : list pydict)
    (query_text : string) (results : search_results) (include_upsells : bool) :
  Forall typed_product (sr_results results) →
  Forall typed_product config_DATABASE →
  ∃ response,
    generate_response py_repr format_fixed str_take chat_create RESPONSE_SYSTEM_PROMPT
      config_DATABASE query_text results include_upsells = Returned response ∧
    match sr_results results with
    | [] =>
        match chat_create RESPONSE_SYSTEM_PROMPT (no_results_prompt query_text)
                (7 # 10)%Q 200%Z with
        | Returned completion => response = completion
        | Raised _ => response = PyStr NO_RESULTS_APOLOGY
        end
    | _ =>
        let top_products := take 3 (sr_results results) in
        ∃ products_text upsells upsells_text,
          format_products_for_gpt py_repr format_fixed str_take top_products false
            = Returned products_text ∧
          response_upsells py_repr format_fixed config_DATABASE top_products include_upsells
            = Returned (upsells, upsells_text) ∧
          length upsells ≤ 2 ∧
          match chat_create RESPONSE_SYSTEM_PROMPT
                  (response_prompt query_text products_text upsells_text)
                  (7 # 10)%Q 300%Z with
          | Returned completion => response = completion
          | Raised _ =>
              ∃ product_lines upsell_lines text,
                response = PyStr text ∧
                text = String.concat NL
                         (TEMPLATE_HEADER :: concat product_lines ++
                            match upsells with
                            | [] => []
                            | _ => UPSELL_HEADER :: upsell_lines
                            end) ∧
                text ≠ "" ∧ text ≠ NO_RESULTS_APOLOGY ∧
                length product_lines = Nat.min 3 (length (sr_results results)) ∧
                length upsell_lines = length upsells ∧
                (∀ i product, top_products !! i = Some product →
                   ∃ price,
                     py_number (dict_get_or product "sale_price" (PyInt 0)) = Some price ∧
                     product_lines !! i = Some
                       [ pretty (S i) +:+ ". **"
                           +:+ py_str py_repr (dict_get_or product "product_name" (PyStr "Unknown"))
                           +:+ "** (SKU: "
                           +:+ py_str py_repr (dict_get_or product "sku" (PyStr "N/A")) +:+ ")";
                         "   $" +:+ format_fixed 2 price +:+ " - " +:+
                           (if py_truthy (dict_get product "in_stock")
                            then "In Stock" else "Out of Stock") ]) ∧
                (∀ i upsell, upsells !! i = Some upsell →
                   ∃ price,
                     py_number (dict_get_or upsell "sale_price" (PyInt 0)) = Some price ∧
                     upsell_lines !! i = Some
                       ("- " +:+ py_str py_repr (dict_get_or upsell "product_name" (PyStr "Unknown"))
                          +:+ " ($" +:+ format_fixed 2 price +:+ ")"))
          end
    end.
Proof.
  intros Hproducts Hcatalog. unfold generate_response.
  destruct (sr_results results) as [|product products] eqn:Hresults.
  { unfold generate_no_results_response.
    destruct (chat_create _ _ _ _) as [completion|e]; cbn [try_except]; eauto. }
  set (top_products := slice_to 3 (product :: products)).
  assert (Forall typed_product top_products) as Htop by by apply Forall_take.
  destruct (format_products_for_gpt_returns py_repr format_fixed str_take _ Htop)
    as [products_text Hpt].
  destruct (response_upsells_returns py_repr format_fixed config_DATABASE Hcatalog
              top_products include_upsells)
    as (upsells & upsells_text & Hups & Hutyped & Hulen & Hsame).
  rewrite Hpt, Hups. cbn [bind]. rewrite Hsame.
  destruct (chat_create RESPONSE_SYSTEM_PROMPT
              (response_prompt query_text products_text upsells_text) _ _)
    as [completion|e] eqn:Hchat; cbn [try_except].
  { exists completion. split; [done |]. exists products_text, upsells, upsells_text.
    fold top_products. by rewrite Hchat. }
  destruct (fallback_lines_typed py_repr format_fixed top_products upsells Htop Hutyped)
    as (product_lines & upsell_lines & Hlines & HFp & HFu).
  assert (take 3 top_products = top_products) as Htake3.
  { unfold top_products, slice_to. by rewrite take_take. }
  assert (take 2 upsells = upsells) as Htake2 by (apply take_ge; lia).
  rewrite Htake3 in HFp. rewrite Htake2 in HFu.
  unfold generate_fallback_response.
  assert (∃ p ps, top_products = p :: ps) as (p & ps & Hcons) by by eexists _, _.
  rewrite Hcons, <- Hcons, Hlines. cbn [bind].
  eexists. split; [done |]. exists products_text, upsells, upsells_text.
  fold top_products. rewrite Hchat. split_and!; try done.
  exists product_lines, upsell_lines. eexists. split; [done |]. split; [done |].
  split; [apply template_not_empty |]. split; [apply template_not_empty |].
  split_and!.
  - rewrite <- (Forall2_length _ _ _ HFp), length_imap.
    unfold top_products, slice_to. by rewrite length_take.
  - by rewrite <- (Forall2_length _ _ _ HFu).
  - intros i q Hq.
    destruct (fallback_product_lines_typed py_repr format_fixed (S i) q)
      as (price & Hprice & Hline).
    { rewrite Forall_forall in Htop. apply Htop. by eapply list_elem_of_lookup_2. }
    exists price. split; [done |].
    destruct (Forall2_lookup_l _ _ _ i
                (fallback_product_lines py_repr format_fixed (S i) q) HFp)
      as (lines & -> & Hl).
    { rewrite list_lookup_imap. unfold top_products, slice_to. by rewrite Hq. }
    rewrite Hline in Hl. by injection Hl as <-.
  - intros i u Hu.
    destruct (fallback_upsell_line_typed py_repr format_fixed u) as (price & Hprice & Hline).
    { rewrite Forall_forall in Hutyped. apply Hutyped. by eapply list_elem_of_lookup_2. }
    exists price. split; [done |].
    destruct (Forall2_lookup_l _ _ _ i _ HFu Hu) as (line & -> & Hl).
    rewrite Hline in Hl. by injection Hl as <-.
Qed.

Lemma generate_response_composes_witness :
  Forall typed_product [xwfe_result] ∧
  Forall typed_product sample_catalog ∧
  ∃ response,
    generate_response sample_repr sample_fixed sample_take failing_chat "reply"
      sample_catalog "water filter"
      {| sr_query := "water filter"; sr_parsed_query := PyNone;
         sr_results := [xwfe_result] |} true = Returned response.
Proof.
  assert (Forall typed_product [xwfe_result]) as H1.
  { apply Forall_cons. split; [typed_row | apply Forall_nil_2]. }
  assert (Forall typed_product sample_catalog) as H2.
  { unfold sample_catalog. apply Forall_cons. split; [typed_row |].
    apply Forall_cons. split; [typed_row | apply Forall_nil_2]. }
  split; [exact H1 |]. split; [exact H2 |].
  destruct (generate_response_composes sample_repr sample_fixed sample_take failing_chat
              "reply" sample_catalog "water filter"
              {| sr_query := "water filter"; sr_parsed_query := PyNone;
                 sr_results := [xwfe_result] |} true H1 H2) as (response & Hret & _).
  exists response. exact Hret.
Defined.

(** The scenario of the specification: the model fails and the reply is
    the template (the search result carries no [in_stock] key, so the
    template reports the product as out of stock). *)
Example template_for_one_product :
  generate_response sample_repr sample_fixed sample_take failing_chat "reply"
    [] "water filter"
    {| sr_query := "water filter"; sr_parsed_query := PyNone;
       sr_results := [xwfe_result] |} true
  = Returned (PyStr ("I found these products for you:" +:+ NL +:+ NL +:+
                     "1. **GE Water Filter** (SKU: XWFE)" +:+ NL +:+
                     "   $0.00 - Out of Stock")).
Proof. reflexivity. Qed.

(** A NULL sale price is outside the typed inputs: formatting it raises
    [TypeError] in the template, after the model call has failed. *)
Example template_null_price_raises :
  generate_response sample_repr sample_fixed sample_take failing_chat "reply"
    [] "water filter"
    {| sr_query := "water filter"; sr_parsed_query := PyNone;
       sr_results := [<["sale_price" := PyNone]> xwfe_result] |} true
  = Raised TypeError.
Proof. reflexivity. Qed.

(** ** Product details *)

Lemma sql_eq_text (v : pyval) (s : string) :
  sql_true (sql_eq v (PyStr s)) = true ↔ v = PyStr s.
Proof.
  destruct v as [| b | z | q | x | x | l | d]; simpl; try (split; done).
  destruct (String.eqb_spec x s) as [-> | Hne]; split; (done || congruence).
Qed.

Lemma head_filter_first {A} (P : A → Prop) `{∀ x, Decision (P x)} (l : list A) :
  match head (filter P l) with
  | Some x => ∃ i, l !! i = Some x ∧ P x ∧ ∀ j y, j < i → l !! j = Some y → ¬ P y
  | None => ∀ x, x ∈ l → ¬ P x
  end.
Proof.
  induction l as [|a l IH]; simpl.
  - intros x Hx. by apply elem_of_nil in Hx.
  - rewrite filter_cons. destruct (decide (P a)) as [Ha | Ha]; simpl.
    + exists 0. split_and!; [done | done | lia].
    + destruct (head (filter P l)) as [x|].
      * destruct IH as (i & Hi & Hx & Hfirst). exists (S i). split_and!; [done | done |].
        intros [|j] y Hj; simpl; [by intros [= <-] | apply Hfirst; lia].
      * intros x [-> | Hx]%elem_of_cons; [done | by apply IH].
Qed.

Lemma head_sql_limit_1 {A} (l : list A) : head (sql_limit 1 l) = head l.
Proof. by destruct l. Qed.

(** C10.  [get_product_details] looks the upper-cased SKU up: it returns
    the first row of the catalog whose [sku] column is [sku.upper()], and
    [None], without raising, when there is no such row.  A row found
    therefore stores the upper-case form. *)
Theorem get_product_details_looks_up_upper (str_upper : string → string)
    (db : list pydict) (sku : string) :
  ∃ found,
    get_product_details str_upper db sku = Returned found ∧
    match found with
    | Some row =>
        ∃ i, db !! i = Some row ∧ dict_get row "sku" = PyStr (str_upper sku) ∧
          ∀ j earlier, j < i → db !! j = Some earlier →
            dict_get earlier "sku" ≠ PyStr (str_upper sku)
    | None => ∀ row, row ∈ db → dict_get row "sku" ≠ PyStr (str_upper sku)
    end.
Proof.
  eexists. split; [reflexivity |]. rewrite head_sql_limit_1.
  pose proof (head_filter_first
    (λ row, sql_true (sql_eq (dict_get row "sku") (PyStr (str_upper sku))) = true) db) as H.
  destruct (head _) as [row|].
  - destruct H as (i & Hi & Hrow & Hfirst). exists i. split_and!; [done | |].
    + by apply sql_eq_text.
    + intros j earlier Hj He Heq. apply (Hfirst j earlier Hj He). by apply sql_eq_text.
  - intros row Hrow Heq. apply (H row Hrow). by apply sql_eq_text.
Qed.

(** A lower-case SKU finds the product stored in upper case, and does not
    find a product stored in lower case. *)
Example lower_case_sku_found :
  get_product_details ascii_upper sample_catalog "xwfe"
    = Returned (head sample_catalog).
Proof. reflexivity. Qed.

Example lower_case_stored_sku_not_found :
  get_product_details ascii_upper
    [catalog_row "xwfe" "GE Water Filter" "GE" (PyFloat (5762 # 100)) 1 PyNone] "xwfe"
    = Returned None.
Proof. reflexivity. Qed.

(** ** The search as a whole *)

(** When the store is not empty and both the embedding service and the
    similarity computation answer, [search_products] is the ranking step
    applied to the loaded products. *)
Lemma search_products_ranks (argsort : list Q → list nat)
    (pickle_loads embed_search_query : string → result (list Q))
    (cosine_similarity : list Q → list (list Q) → result (list Q))
    (db : list pydict) (query_text : string) (top_k : Z)
    (products : list pydict) (embeddings : list (list Q))
    (query_embedding similarities : list Q) (results : list pydict) :
  load_product_embeddings pickle_loads db = Returned (products, embeddings) →
  products ≠ [] →
  embed_search_query query_text = Returned query_embedding →
  cosine_similarity query_embedding embeddings = Returned similarities →
  rank_results argsort products similarities top_k = Returned results →
  search_products argsort pickle_loads embed_search_query cosine_similarity
    db query_text top_k = Returned results.
Proof.
  intros Hload Hne Hembed Hcos Hrank. unfold search_products.
  rewrite Hload. cbn [bind]. destruct products as [|p ps]; [done |].
  cbn [length Nat.eqb]. rewrite Hembed. cbn [bind]. rewrite Hcos. cbn [bind].
  by rewrite Hrank.
Qed.

(** The load keeps products and vectors aligned. *)
Lemma load_rows_aligned (pickle_loads : string → result (list Q)) (rows : list pydict) :
  length (fst (load_rows pickle_loads rows)) = length (snd (load_rows pickle_loads rows)).
Proof.
  induction rows as [|row rows IH]; simpl; [done |].
  destruct (load_rows pickle_loads rows) as [products embeddings]. simpl in IH.
  destruct (py_truthy _); [| done].
  destruct (decode_embedding _ _); simpl; [by rewrite IH | done].
Qed.

(** The scenario of the specification, end to end: five results asked of
    a store of two embedded products gives two results and no error. *)
Example search_two_products :
  ∃ results,
    search_products argsort_stable sample_pickle sample_embedder sample_cosine
      sample_catalog "water filter" 5 = Returned results ∧
    length results = 2.
Proof. eexists. split; reflexivity. Qed.

(** The live query of [suggest_upsells] has no price condition: a part of
    the primary brand at twenty times the primary price is returned. *)
Example upsell_outside_price_band :
  ∃ upsell,
    suggest_upsells
      [catalog_row "GE-MOTOR" "GE Compressor" "GE" (PyFloat (115240 # 100)) 1 PyNone]
      [xwfe_result] 2 = Returned [upsell] ∧
    in_price_band (5762 # 100) upsell = false.
Proof. eexists. split; reflexivity. Qed.

(** * Further properties of the code *)

(** ** semantic_search.py *)

Lemma top_indices_best_witness :
  (sim_at [3 # 10; 9 # 10; 5 # 10]%Q 0 <= sim_at [3 # 10; 9 # 10; 5 # 10]%Q 1)%Q.
Proof.
  apply (top_indices_best argsort_stable [3 # 10; 9 # 10; 5 # 10]%Q
           (argsort_stable_spec _) 2 1 0).
  - lia.
  - vm_compute. apply list_elem_of_here.
  - simpl. lia.
  - vm_compute. intros H. apply elem_of_cons in H as [H | H]; [lia |].
    apply list_elem_of_singleton in H. lia.
Defined.

Lemma load_rows_sublist (pickle_loads : string → result (list Q)) (rows : list pydict) :
  fst (load_rows pickle_loads rows) `sublist_of` rows.
Proof.
  induction rows as [|row rows IH]; simpl; [constructor |].
  destruct (load_rows pickle_loads rows) as [products embeddings]. simpl in IH.
  destruct (py_truthy _); [| by apply sublist_cons].
  destruct (decode_embedding _ _); simpl; [by apply sublist_skip | by apply sublist_cons].
Qed.

Lemma load_rows_decoded (pickle_loads : string → result (list Q)) (rows : list pydict) :
  Forall2 (λ product embedding,
             py_truthy (dict_get product "embedding") = true ∧
             decode_embedding pickle_loads (dict_get product "embedding")
               = Returned embedding)
          (fst (load_rows pickle_loads rows)) (snd (load_rows pickle_loads rows)) ∧
  ∀ row embedding, row ∈ rows →
    py_truthy (dict_get row "embedding") = true →
    decode_embedding pickle_loads (dict_get row "embedding") = Returned embedding →
    row ∈ fst (load_rows pickle_loads rows).
Proof.
  induction rows as [|row rows IH]; simpl.
  - split; [constructor |]. intros row e Hrow. by apply elem_of_nil in Hrow.
  - destruct (load_rows pickle_loads rows) as [products embeddings].
    destruct IH as [HF Hall]. simpl in HF, Hall.
    destruct (py_truthy (dict_get row "embedding")) eqn:Ht.
    + destruct (decode_embedding pickle_loads (dict_get row "embedding")) as [e|x] eqn:Hd;
        simpl.
      * split; [by constructor |].
        intros r e' [-> | Hr]%elem_of_cons Ht' Hd'; [left | right; by eapply Hall].
      * split; [done |].
        intros r e' [-> | Hr]%elem_of_cons Ht' Hd'; [congruence | by eapply Hall].
    + simpl. split; [done |].
      intros r e' [-> | Hr]%elem_of_cons Ht' Hd'; [congruence | by eapply Hall].
Qed.

Lemma np_array_uniform (embeddings : list (list Q)) :
  (∀ e1 e2, e1 ∈ embeddings → e2 ∈ embeddings → length e1 = length e2) →
  np_array embeddings = Returned embeddings.
Proof.
  destruct embeddings as [|first rest]; [done |]. intros Hsame. cbn [np_array].
  rewrite (proj2 (forallb_forall _ _)); [done |].
  intros e He%list_elem_of_In. apply Nat.eqb_eq. apply Hsame; [by right | left].
Qed.

Lemma np_array_ragged (embeddings : list (list Q)) (e1 e2 : list Q) :
  e1 ∈ embeddings → e2 ∈ embeddings → length e1 ≠ length e2 →
  np_array embeddings = Raised ValueError.
Proof.
  destruct embeddings as [|first rest]; [by intros ?%elem_of_nil |].
  intros H1 H2 Hne. cbn [np_array].
  destruct (forallb _ rest) eqn:Hall; [| done]. exfalso.
  assert (∀ e, e ∈ first :: rest → length e = length first) as Hlen.
  { intros e [-> | He]%elem_of_cons; [done |].
    apply Nat.eqb_eq. apply (proj1 (forallb_forall _ _) Hall). by apply list_elem_of_In. }
  rewrite (Hlen e1 H1), (Hlen e2 H2) in Hne. done.
Qed.

(** The embedding store keeps its two lists aligned: the products loaded
    are rows of the SELECT in their order, each carries a truthy payload,
    the vector at the same position is what that payload decodes to, and
    no row with a truthy, decodable payload is left out.  The two lists are
    returned when the decoded vectors have one length; when two of them
    differ in length, building the matrix raises [ValueError]. *)
Theorem load_product_embeddings_aligned (pickle_loads : string → result (list Q))
    (db : list pydict) :
  ∃ products embeddings,
    products `sublist_of` rows_with_embedding db ∧
    Forall2 (λ product embedding,
               py_truthy (dict_get product "embedding") = true ∧
               decode_embedding pickle_loads (dict_get product "embedding")
                 = Returned embedding)
            products embeddings ∧
    (∀ row embedding, row ∈ rows_with_embedding db →
       py_truthy (dict_get row "embedding") = true →
       decode_embedding pickle_loads (dict_get row "embedding") = Returned embedding →
       row ∈ products) ∧
    ((∀ e1 e2, e1 ∈ embeddings → e2 ∈ embeddings → length e1 = length e2) →
     load_product_embeddings pickle_loads db = Returned (products, embeddings)) ∧
    (∀ e1 e2, e1 ∈ embeddings → e2 ∈ embeddings → length e1 ≠ length e2 →
     load_product_embeddings pickle_loads db = Raised ValueError).
Proof.
  unfold load_product_embeddings.
  pose proof (load_rows_sublist pickle_loads (rows_with_embedding db)) as Hsub.
  pose proof (load_rows_decoded pickle_loads (rows_with_embedding db)) as [HF Hall].
  destruct (load_rows pickle_loads (rows_with_embedding db)) as [products embeddings].
  simpl in Hsub, HF, Hall.
  exists products, embeddings. split_and!; try done.
  - intros Hsame. by rewrite (np_array_uniform _ Hsame).
  - intros e1 e2 H1 H2 Hne. by rewrite (np_array_ragged _ e1 e2 H1 H2 Hne).
Qed.

(** Two stored vectors of different lengths: the store cannot be loaded,
    and [search_products] answers with no result. *)
Example ragged_store_raises :
  load_product_embeddings ragged_pickle ragged_catalog = Raised ValueError.
Proof. vm_compute. reflexivity. Qed.

Example ragged_store_finds_nothing :
  search_products argsort_stable ragged_pickle sample_embedder sample_cosine
    ragged_catalog "water filter" 5 = Returned [].
Proof. vm_compute. reflexivity. Qed.

(** Every result of [search_products] is a six-column row of the catalog
    with a similarity added; the row has a non-NULL embedding. *)
Lemma search_products_shape (argsort : list Q → list nat)
    (pickle_loads embed_search_query : string → result (list Q))
    (cosine_similarity : list Q → list (list Q) → result (list Q))
    (db : list pydict) (query_text : string) (top_k : Z) :
  ∃ results,
    search_products argsort pickle_loads embed_search_query cosine_similarity
      db query_text top_k = Returned results ∧
    Forall (λ r, ∃ row s, row ∈ db ∧
              r = <["similarity" := PyFloat s]>
                    (select_columns
                       ["sku"; "product_name"; "brand"; "category"; "sale_price"; "embedding"]
                       row)) results.
Proof.
  unfold search_products, load_product_embeddings.
  pose proof (load_rows_sublist pickle_loads (rows_with_embedding db)) as Hsub.
  destruct (load_rows pickle_loads (rows_with_embedding db)) as [products embeddings'].
  simpl in Hsub.
  destruct (np_array embeddings') as [embeddings|]; cbn [bind try_except]; [| by exists []].
  destruct (length products =? 0); [by exists [] |].
  destruct (embed_search_query query_text) as [q|]; cbn [bind try_except]; [| by exists []].
  destruct (cosine_similarity q embeddings) as [sims|]; cbn [bind try_except]; [| by exists []].
  destruct (rank_results argsort products sims top_k) as [results|] eqn:Hrank;
    cbn [try_except]; [| by exists []].
  exists results. split; [done |].
  apply mapM_result_inv in Hrank. rewrite Forall_forall. intros r Hr.
  destruct (proj1 (list_elem_of_lookup _ _) Hr) as [n Hn].
  destruct (Forall2_lookup_r _ _ _ _ _ Hrank Hn) as (idx & _ & Hbuild).
  apply build_result_inv in Hbuild as (product & Hp & ->).
  apply list_elem_of_lookup_2 in Hp.
  pose proof (elem_of_sublist _ _ _ Hp Hsub) as Hin.
  unfold rows_with_embedding in Hin.
  apply list_elem_of_fmap in Hin as (row & -> & [_ Hrow]%list_elem_of_filter).
  by exists row, (sim_at sims idx).
Qed.

(** [search_products] never raises, whatever its collaborators do (an
    argsort that breaks its contract included), and never returns a product
    that is not in the catalog: each result carries the SKU, name, brand,
    category and price of a catalog row. *)
Theorem search_products_never_raises (argsort : list Q → list nat)
    (pickle_loads embed_search_query : string → result (list Q))
    (cosine_similarity : list Q → list (list Q) → result (list Q))
    (db : list pydict) (query_text : string) (top_k : Z) :
  ∃ results,
    search_products argsort pickle_loads embed_search_query cosine_similarity
      db query_text top_k = Returned results ∧
    Forall (λ r, ∃ row, row ∈ db ∧
              Forall (λ column, r !! column = Some (dict_get row column))
                ["sku"; "product_name"; "brand"; "category"; "sale_price"]) results.
Proof.
  destruct (search_products_shape argsort pickle_loads embed_search_query
              cosine_similarity db query_text top_k) as (results & Hret & Hshape).
  exists results. split; [done |].
  eapply Forall_impl; [exact Hshape |]. intros r (row & s & Hrow & ->).
  exists row. split; [done |].
  repeat (apply Forall_cons; split;
          [rewrite lookup_insert_ne by done; apply select_columns_lookup; set_solver |]).
  constructor.
Qed.

(** ** gpt_query_processor.py *)

Section ParserFacts.
Variable str_lower : string → string.
Variable str_split : string → list string.
Variable chat_create : string → string → Q → Z → result pyval.
Variable json_loads : string → option pyval.
Variable GPT_SYSTEM_PROMPT : string.
Variable OPENAI_API_KEY : option string.

(** The parse when the model's text decodes to [v]. *)
Lemma parse_of_json (query_text text : string) (v : pyval) :
  chat_create GPT_SYSTEM_PROMPT query_text (1 # 10)%Q 300%Z = Returned (PyStr text) →
  json_loads text = Some v →
  parse_query_with_gpt str_lower str_split chat_create json_loads GPT_SYSTEM_PROMPT
    OPENAI_API_KEY query_text (Some tt)
  = try_except (fill_fields v required_fields)
      (λ _, Returned (PyDict (create_fallback_parse str_lower str_split query_text))).
Proof.
  intros Hchat Hjson. unfold parse_query_with_gpt, call_gpt_api, loads. cbn [bind].
  rewrite Hchat. cbn [try_except bind]. by rewrite Hjson.
Qed.

Lemma fill_fields_mentions (v : pyval) (fields : list string) :
  (∃ l, v = PyList l) ∨ (∃ s, v = PyStr s) →
  fill_fields v fields
  = if forallb (mentions v) fields then Returned v else Raised TypeError.
Proof.
  intros Hv. induction fields as [|field fields IH]; [done |].
  cbn [fill_fields forallb]. unfold fill_field.
  assert (py_contains v field = Returned (mentions v field)) as ->
    by by destruct Hv as [[l ->] | [s ->]].
  cbn [bind]. destruct (mentions v field); cbn [andb bind]; [exact IH |].
  by destruct Hv as [[l ->] | [s ->]].
Qed.

(** Valid JSON that is a number, a boolean or null is not accepted as a
    parse: the key check raises and the parser returns the rule-based
    fallback. *)
Theorem parse_scalar_json_falls_back (query_text text : string) (v : pyval) :
  chat_create GPT_SYSTEM_PROMPT query_text (1 # 10)%Q 300%Z = Returned (PyStr text) →
  json_loads text = Some v →
  json_scalar v = true →
  parse_query_with_gpt str_lower str_split chat_create json_loads GPT_SYSTEM_PROMPT
    OPENAI_API_KEY query_text (Some tt)
  = Returned (PyDict (create_fallback_parse str_lower str_split query_text)).
Proof.
  intros Hchat Hjson Hv. rewrite (parse_of_json _ _ _ Hchat Hjson).
  by destruct v.
Qed.

(** Valid JSON that is an array or a string is returned as it is, not as
    a dict, when it mentions all five required field names (as elements of
    the array, as substrings of the string); otherwise the parser returns
    the rule-based fallback. *)
Theorem parse_returns_non_dict (query_text text : string) (v : pyval) :
  chat_create GPT_SYSTEM_PROMPT query_text (1 # 10)%Q 300%Z = Returned (PyStr text) →
  json_loads text = Some v →
  (∃ l, v = PyList l) ∨ (∃ s, v = PyStr s) →
  parse_query_with_gpt str_lower str_split chat_create json_loads GPT_SYSTEM_PROMPT
    OPENAI_API_KEY query_text (Some tt)
  = Returned (if forallb (mentions v) required_fields then v
              else PyDict (create_fallback_parse str_lower str_split query_text)).
Proof.
  intros Hchat Hjson Hv. rewrite (parse_of_json _ _ _ Hchat Hjson).
  rewrite (fill_fields_mentions _ _ Hv).
  by destruct (forallb (mentions v) required_fields).
Qed.
End ParserFacts.

Lemma parse_scalar_json_falls_back_witness :
  parse_query_with_gpt ascii_lower ascii_split braces_chat (λ _, Some (PyInt 42))
    "intent" None "water filter" (Some tt)
  = Returned (PyDict (create_fallback_parse ascii_lower ascii_split "water filter")).
Proof.
  apply (parse_scalar_json_falls_back ascii_lower ascii_split braces_chat
           (λ _, Some (PyInt 42)) "intent" None "water filter" "{}" (PyInt 42));
    reflexivity.
Defined.

Lemma parse_returns_non_dict_witness :
  parse_query_with_gpt ascii_lower ascii_split names_chat names_json
    "intent" None "water filter" (Some tt)
  = Returned (if forallb (mentions (PyList (PyStr <$> required_fields))) required_fields
              then PyList (PyStr <$> required_fields)
              else PyDict (create_fallback_parse ascii_lower ascii_split "water filter")).
Proof.
  apply (parse_returns_non_dict ascii_lower ascii_split names_chat names_json
           "intent" None "water filter" "names" (PyList (PyStr <$> required_fields)));
    [reflexivity | reflexivity |].
  left. by eexists.
Defined.

(** With the five names in the array, the parse is that array. *)
Example parse_returns_a_list :
  parse_query_with_gpt ascii_lower ascii_split names_chat names_json
    "intent" None "water filter" (Some tt)
  = Returned (PyList (PyStr <$> required_fields)).
Proof. reflexivity. Qed.

Lemma append_assoc (a b c : string) : (a +:+ b) +:+ c = a +:+ (b +:+ c).
Proof.
  induction a as [|x a IH]; [done |]. by rewrite !append_String, IH.
Qed.

Lemma str_contains_trans (a b c : string) :
  str_contains a b = true → str_contains b c = true → str_contains a c = true.
Proof.
  rewrite !str_contains_spec. intros (p1 & q1 & ->) (p2 & q2 & ->).
  exists (p2 +:+ p1), (q1 +:+ q2). by rewrite !append_assoc.
Qed.

(** A query whose lower-cased text contains "ge" gets the brand Whirlpool
    or Ge: "ge" is second in the brand list. *)
Lemma detect_brand_ge (str_lower : string → string) (query_text : string) :
  str_contains "ge" (str_lower query_text) = true →
  detect_brand str_lower query_text = Some "Whirlpool" ∨
  detect_brand str_lower query_text = Some "Ge".
Proof.
  intros Hge. unfold detect_brand, brands. cbn [List.find].
  destruct (str_contains "whirlpool" (str_lower query_text)); [by left |].
  rewrite Hge. by right.
Qed.

(** The fallback brand of a query that mentions a fridge or a
    refrigerator is Whirlpool or Ge, whatever brand the query names: both
    words contain "ge", which the brand list tests before Samsung, LG,
    Frigidaire, Bosch, KitchenAid and Maytag. *)
Theorem fallback_brand_of_fridge (str_lower : string → string) (query_text : string) :
  str_contains "fridge" (str_lower query_text) = true ∨
  str_contains "refrigerator" (str_lower query_text) = true →
  detect_brand str_lower query_text = Some "Whirlpool" ∨
  detect_brand str_lower query_text = Some "Ge".
Proof.
  intros H. apply detect_brand_ge.
  destruct H as [H | H]; (eapply str_contains_trans; [| exact H]); reflexivity.
Qed.

Lemma fallback_brand_of_fridge_witness :
  detect_brand ascii_lower "Samsung fridge door gasket" = Some "Whirlpool" ∨
  detect_brand ascii_lower "Samsung fridge door gasket" = Some "Ge".
Proof.
  apply (fallback_brand_of_fridge ascii_lower "Samsung fridge door gasket").
  left. reflexivity.
Defined.

Example samsung_fridge_is_ge :
  detect_brand ascii_lower "Samsung fridge door gasket" = Some "Ge".
Proof. reflexivity. Qed.

(** The fallback category of a query that mentions a dishwasher is never
    "washer" (nor "dryer"): the table tests the refrigerator words and
    "dishwasher" first. *)
Theorem fallback_category_of_dishwasher (str_lower : string → string)
    (query_text : string) :
  str_contains "dishwasher" (str_lower query_text) = true →
  detect_category str_lower query_text = Some "refrigerator" ∨
  detect_category str_lower query_text = Some "dishwasher".
Proof.
  intros H. unfold detect_category, categories. cbn [List.find snd existsb].
  destruct (_ || _); [by left |]. rewrite H. by right.
Qed.

Lemma fallback_category_of_dishwasher_witness :
  detect_category ascii_lower "Bosch dishwasher drain pump" = Some "refrigerator" ∨
  detect_category ascii_lower "Bosch dishwasher drain pump" = Some "dishwasher".
Proof.
  apply (fallback_category_of_dishwasher ascii_lower "Bosch dishwasher drain pump").
  reflexivity.
Defined.

(** ** gpt_response_generator.py *)

Lemma sql_eq_null_r (x : pyval) : sql_eq x PyNone = None.
Proof. by destruct x. Qed.

Lemma filter_none {A} (P : A → Prop) `{∀ x, Decision (P x)} (l : list A) :
  (∀ x, x ∈ l → ¬ P x) → filter P l = [].
Proof.
  induction l as [|a l IH]; intros Hl; [done |].
  rewrite filter_cons. destruct (decide (P a)) as [Ha | _].
  - destruct (Hl a); [left | done].
  - apply IH. intros x Hx. apply Hl. by right.
Qed.

(** A primary result whose brand is NULL gets no upsell at all: the
    query compares [brand = NULL], which no row satisfies. *)
Theorem upsells_of_null_brand (db : list pydict) (first : pydict) (rest : list pydict)
    (num_suggestions : Z) :
  first !! "brand" = Some PyNone →
  suggest_upsells db (first :: rest) num_suggestions = Returned [].
Proof.
  intros Hbrand.
  destruct (suggest_upsells_rows db (first :: rest) num_suggestions)
    as (upsells & Hret & [-> | (first' & rest' & bound_skus & bound_brand
                                 & [= <- <-] & _ & Hb & ->)]); [done |].
  rewrite Hret. f_equal.
  unfold dict_get_or in Hb. rewrite Hbrand in Hb. injection Hb as <-.
  assert (filter (λ row, upsell_where bound_skus PyNone row = true) db = []) as ->.
  { apply filter_none. intros row _. unfold upsell_where.
    rewrite sql_eq_null_r.
    generalize (sql_not (sql_in (dict_get row "sku") bound_skus)).
    generalize (sql_eq (dict_get row "in_stock") (PyInt 1)).
    by intros [[|]|] [[|]|]. }
  unfold sql_limit. destruct (num_suggestions <? 0)%Z; [done | apply take_nil].
Qed.

Lemma upsells_of_null_brand_witness :
  suggest_upsells sample_catalog [<["brand" := PyNone]> xwfe_result] 2 = Returned [].
Proof.
  apply (upsells_of_null_brand sample_catalog (<["brand" := PyNone]> xwfe_result) [] 2).
  reflexivity.
Defined.

Section TemplateFacts.
Variable py_repr : pyval → string.
Variable format_fixed : nat → Q → string.

(** The template looks at the first three products and the first two
    upsells only: cutting the lists there changes nothing, errors
    included. *)
Theorem generate_fallback_response_truncates (products upsells : list pydict) :
  generate_fallback_response py_repr format_fixed products upsells
  = generate_fallback_response py_repr format_fixed (take 3 products) (take 2 upsells).
Proof.
  destruct products as [|p products]; [done |].
  change (take 3 (p :: products)) with (p :: take 2 products).
  unfold generate_fallback_response, fallback_lines, slice_to.
  change (p :: take 2 products) with (take 3 (p :: products)).
  rewrite !take_take. change (3 `min` 3) with 3. change (2 `min` 2) with 2.
  by destruct upsells.
Qed.
End TemplateFacts.

Section ResponseFacts.
Variable py_repr : pyval → string.
Variable format_fixed : nat → Q → string.
Variable str_take : nat → string → string.
Variable chat_create : string → string → Q → Z → result pyval.
Variable RESPONSE_SYSTEM_PROMPT : string.
Variable config_DATABASE : list pydict.

(** An upsell whose sale price is NULL breaks the reply before the model
    is asked: formatting the price raises [TypeError] outside the [try]
    block, whatever the model would have answered. *)
Theorem null_priced_upsell_breaks_reply (query_text : string) (results : search_results)
    (upsell : pydict) (upsells : list pydict) :
  sr_results results ≠ [] →
  Forall typed_product (sr_results results) →
  suggest_upsells config_DATABASE (take 3 (sr_results results)) 2
    = Returned (upsell :: upsells) →
  upsell !! "sale_price" = Some PyNone →
  generate_response py_repr format_fixed str_take chat_create RESPONSE_SYSTEM_PROMPT
    config_DATABASE query_text results true = Raised TypeError.
Proof.
  intros Hne Htyped Hups Hprice. unfold generate_response.
  destruct (sr_results results) as [|p ps]; [done |].
  destruct (format_products_for_gpt_returns py_repr format_fixed str_take
              (slice_to 3 (p :: ps))) as [text ->]; [by apply Forall_take |].
  cbn [bind]. unfold response_upsells, slice_to. rewrite Hups. cbn [bind].
  unfold format_upsells_for_gpt. cbn [mapM_result]. unfold format_upsell at 1.
  unfold dict_get_or. by rewrite Hprice.
Qed.

(** With typed products and a typed catalog the composer returns. *)
Lemma generate_response_returns (query_text : string) (results : search_results)
    (include_upsells : bool) :
  Forall typed_product (sr_results results) →
  Forall typed_product config_DATABASE →
  ∃ response,
    generate_response py_repr format_fixed str_take chat_create RESPONSE_SYSTEM_PROMPT
      config_DATABASE query_text results include_upsells = Returned response.
Proof.
  intros Hproducts Hcatalog. unfold generate_response.
  destruct (sr_results results) as [|p ps] eqn:Hresults.
  { unfold generate_no_results_response.
    destruct (chat_create _ _ _ _); cbn [try_except]; eauto. }
  assert (Forall typed_product (slice_to 3 (p :: ps))) as Htop by by apply Forall_take.
  destruct (format_products_for_gpt_returns py_repr format_fixed str_take _ Htop)
    as [products_text ->].
  destruct (response_upsells_returns py_repr format_fixed config_DATABASE Hcatalog
              (slice_to 3 (p :: ps)) include_upsells)
    as (upsells & upsells_text & -> & Hutyped & _ & Hsame).
  cbn [bind]. rewrite Hsame.
  destruct (chat_create _ _ _ _); cbn [try_except]; [eauto |].
  destruct (fallback_lines_typed py_repr format_fixed _ _ Htop Hutyped)
    as (product_lines & upsell_lines & Hlines & _).
  unfold generate_fallback_response.
  change (slice_to 3 (p :: ps)) with (p :: take 2 ps) in *.
  rewrite Hlines. cbn [bind]. eauto.
Qed.
End ResponseFacts.

Lemma null_priced_upsell_breaks_reply_witness :
  generate_response sample_repr sample_fixed sample_take silent_chat "reply"
    [catalog_row "GE-MOTOR" "GE Compressor" "GE" PyNone 1 PyNone] "water filter"
    {| sr_query := "water filter"; sr_parsed_query := PyNone;
       sr_results := [xwfe_result] |} true
  = Raised TypeError.
Proof.
  apply (null_priced_upsell_breaks_reply sample_repr sample_fixed sample_take silent_chat
           "reply" [catalog_row "GE-MOTOR" "GE Compressor" "GE" PyNone 1 PyNone]
           "water filter"
           {| sr_query := "water filter"; sr_parsed_query := PyNone;
              sr_results := [xwfe_result] |}
           (catalog_row "GE-MOTOR" "GE Compressor" "GE" PyNone 1 PyNone) []).
  - done.
  - apply Forall_cons. split; [typed_row | apply Forall_nil_2].
  - reflexivity.
  - reflexivity.
Defined.

(** ** intelligent_search.py *)

Lemma select_columns_absent (columns : list string) (row : pydict) (c : string) :
  c ∉ columns → select_columns columns row !! c = None.
Proof.
  unfold select_columns. induction columns as [|c' columns IH]; intros Hc; [done |].
  rewrite fmap_cons. simpl. apply not_elem_of_cons in Hc as [Hne Hc].
  rewrite lookup_insert_ne by done. by apply IH.
Qed.

(** A search result whose catalog row has a numeric sale price has the
    types the reply formatting needs: the optional fields are absent. *)
Lemma search_result_typed (row : pydict) (s : Q) :
  is_number (dict_get row "sale_price") →
  typed_product
    (<["similarity" := PyFloat s]>
       (select_columns ["sku"; "product_name"; "brand"; "category"; "sale_price"; "embedding"]
          row)).
Proof.
  intros Hprice.
  assert (∀ c, c ∉ ["sku"; "product_name"; "brand"; "category"; "sale_price"; "embedding"] →
               c ≠ "similarity" →
               (<["similarity" := PyFloat s]>
                  (select_columns
                     ["sku"; "product_name"; "brand"; "category"; "sale_price"; "embedding"]
                     row)) !! c = None) as Habsent.
  { intros c Hc Hne. rewrite lookup_insert_ne by done. by apply select_columns_absent. }
  constructor.
  - unfold dict_get_or. rewrite lookup_insert_ne by done.
    rewrite select_columns_lookup; [done |]. do 4 right. left.
  - left. unfold dict_get. rewrite Habsent; [done | not_a_column | done].
  - unfold dict_get_or. rewrite Habsent; [by eexists | not_a_column | done].
  - left. unfold dict_get. rewrite Habsent; [done | not_a_column | done].
  - left. unfold dict_get. rewrite Habsent; [done | not_a_column | done].
Qed.

(** When every catalog row has a numeric sale price (and the upsell
    catalog has the schema's types), [search] returns for every query,
    whatever the parser, the embedding service and the chat model do; the
    products of the raw result are those of [search_products], which the
    intent parse never changes. *)
Theorem search_returns_for_priced_catalogs (argsort : list Q → list nat)
    (pickle_loads embed_search_query : string → result (list Q))
    (cosine_similarity : list Q → list (list Q) → result (list Q))
    (str_lower : string → string) (str_split : string → list string)
    (chat_create : string → string → Q → Z → result pyval)
    (json_loads : string → option pyval)
    (GPT_SYSTEM_PROMPT RESPONSE_SYSTEM_PROMPT : string)
    (py_repr : pyval → string) (format_fixed : nat → Q → string)
    (str_take : nat → string → string) (config_DATABASE db : list pydict)
    (query_text : string) (top_k : Z) (include_upsells return_raw : bool) :
  Forall (λ row, is_number (dict_get row "sale_price")) db →
  Forall typed_product config_DATABASE →
  ∃ found out,
    search_products argsort pickle_loads embed_search_query cosine_similarity
      db query_text top_k = Returned found ∧
    search argsort pickle_loads embed_search_query cosine_similarity
      str_lower str_split chat_create json_loads GPT_SYSTEM_PROMPT RESPONSE_SYSTEM_PROMPT
      py_repr format_fixed str_take config_DATABASE
      db query_text top_k include_upsells return_raw = Returned out ∧
    output_products out = if return_raw then Some found else None.
Proof.
  intros Hdb Hcatalog.
  destruct (search_products_shape argsort pickle_loads embed_search_query
              cosine_similarity db query_text top_k) as (found & Hfound & Hshape).
  assert (Forall typed_product found) as Htyped.
  { eapply Forall_impl; [exact Hshape |]. intros r (row & s & Hrow & ->).
    apply search_result_typed. rewrite Forall_forall in Hdb. by apply Hdb. }
  destruct (parse_query_with_gpt_returns str_lower str_split chat_create json_loads
              GPT_SYSTEM_PROMPT None query_text) as [parsed_query Hparse].
  destruct (generate_response_returns py_repr format_fixed str_take chat_create
              RESPONSE_SYSTEM_PROMPT config_DATABASE query_text
              {| sr_query := query_text; sr_parsed_query := parsed_query;
                 sr_results := found |} include_upsells Htyped Hcatalog)
    as [response Hresponse].
  exists found.
  assert (search argsort pickle_loads embed_search_query cosine_similarity
            str_lower str_split chat_create json_loads GPT_SYSTEM_PROMPT
            RESPONSE_SYSTEM_PROMPT py_repr format_fixed str_take config_DATABASE
            db query_text top_k include_upsells return_raw
          = Returned (if return_raw
                      then Raw {| raw_query := query_text; raw_parsed_query := parsed_query;
                                  raw_products := found; raw_response := response |}
                      else Text response)) as ->.
  { unfold search, extract_query_intent, hybrid_search.
    rewrite Hparse, Hfound. cbn [bind]. rewrite Hresponse. cbn [bind].
    by destruct return_raw. }
  eexists. split; [done |]. split; [done |]. by destruct return_raw.
Qed.

Lemma search_returns_for_priced_catalogs_witness :
  ∃ found out,
    search_products argsort_stable sample_pickle sample_embedder sample_cosine
      sample_catalog "water filter" 3 = Returned found ∧
    search argsort_stable sample_pickle sample_embedder sample_cosine
      ascii_lower ascii_split failing_chat sample_json "intent" "reply"
      sample_repr sample_fixed sample_take sample_catalog
      sample_catalog "water filter" 3 true true = Returned out ∧
    output_products out = Some found.
Proof.
  apply (search_returns_for_priced_catalogs argsort_stable sample_pickle sample_embedder
           sample_cosine ascii_lower ascii_split failing_chat sample_json "intent" "reply"
           sample_repr sample_fixed sample_take sample_catalog sample_catalog
           "water filter" 3 true true).
  - unfold sample_catalog. apply Forall_cons. split; [vm_compute; eauto |].
    apply Forall_cons. split; [vm_compute; eauto | apply Forall_nil_2].
  - unfold sample_catalog. apply Forall_cons. split; [typed_row |].
    apply Forall_cons. split; [typed_row | apply Forall_nil_2].
Defined.

Section CompareFacts.
Variable str_upper : string → string.
Variable py_repr : pyval → string.
Variable format_fixed : nat → Q → string.
Variable chat_create : string → string → Q → Z → result pyval.
Variable exn_message : exn → string.

Lemma get_product_details_row (db : list pydict) (sku : string) :
  ∃ found, get_product_details str_upper db sku = Returned found ∧
    match found with
    | Some row => row ∈ db ∧ dict_get row "sku" = PyStr (str_upper sku)
    | None => ∀ row, row ∈ db → dict_get row "sku" ≠ PyStr (str_upper sku)
    end.
Proof.
  eexists. split; [reflexivity |]. rewrite head_sql_limit_1.
  pose proof (head_filter_first
    (λ row, sql_true (sql_eq (dict_get row "sku") (PyStr (str_upper sku))) = true) db) as H.
  destruct (head _) as [row|].
  - destruct H as (i & Hi & Hrow & _). split; [by eapply list_elem_of_lookup_2 |].
    by apply sql_eq_text.
  - intros row Hrow Heq. apply (H row Hrow). by apply sql_eq_text.
Qed.

Lemma found_products_rows (db : list pydict) (sku_list : list string) :
  ∃ products, found_products str_upper db sku_list = Returned products ∧
    Forall (λ row, row ∈ db ∧ ∃ sku, sku ∈ sku_list ∧
                   dict_get row "sku" = PyStr (str_upper sku)) products.
Proof.
  induction sku_list as [|sku sku_list IH]; [by exists [] |].
  destruct IH as (products & Hfound & Hall).
  assert (Forall (λ row, row ∈ db ∧ ∃ sku', sku' ∈ sku :: sku_list ∧
                   dict_get row "sku" = PyStr (str_upper sku')) products) as Hall'.
  { eapply Forall_impl; [exact Hall |]. intros row (Hrow & sku' & Hin & Heq).
    split; [done |]. exists sku'. split; [by right | done]. }
  destruct (get_product_details_row db sku) as (found & Hget & Hrow).
  cbn [found_products]. rewrite Hget, Hfound. cbn [bind].
  destruct found as [row|]; [| by exists products].
  destruct (py_truthy (PyDict row)); [| by exists products].
  exists (row :: products). split; [done |]. constructor; [| done].
  destruct Hrow as [Hdb Hsku]. split; [done |]. exists sku. split; [left | done].
Qed.

(** When no SKU of the list is in the catalog in its upper-case form,
    [compare_products] answers with the fixed message; the model is not
    consulted, so the answer does not depend on it. *)
Theorem compare_products_nothing_found (db : list pydict) (sku_list : list string) :
  (∀ sku row, sku ∈ sku_list → row ∈ db → dict_get row "sku" ≠ PyStr (str_upper sku)) →
  compare_products str_upper py_repr format_fixed chat_create exn_message db sku_list
    = Returned (PyStr NO_COMPARISON).
Proof.
  intros Hnone. unfold compare_products.
  destruct (found_products_rows db sku_list) as (products & -> & Hall). cbn [bind].
  destruct products as [|row products]; [done |].
  apply Forall_cons in Hall as [(Hdb & sku & Hin & Heq) _].
  by destruct (Hnone sku row).
Qed.

(** When every catalog row has a name and a numeric (or absent) sale
    price, [compare_products] never raises: the products compared are
    catalog rows whose SKU is an upper-cased SKU of the list; without any
    it answers with the fixed message, otherwise with the model's
    completion, and when the model call fails with a text that reports the
    error. *)
Theorem compare_products_reports_model_failure (db : list pydict)
    (sku_list : list string) :
  Forall (λ row, is_Some (row !! "product_name") ∧
                 is_number (dict_get_or row "sale_price" (PyInt 0))) db →
  ∃ products,
    found_products str_upper db sku_list = Returned products ∧
    Forall (λ row, row ∈ db ∧ ∃ sku, sku ∈ sku_list ∧
                   dict_get row "sku" = PyStr (str_upper sku)) products ∧
    match products with
    | [] =>
        compare_products str_upper py_repr format_fixed chat_create exn_message db sku_list
          = Returned (PyStr NO_COMPARISON)
    | _ =>
        ∃ entries,
          mapM_result (comparison_entry py_repr format_fixed) products = Returned entries ∧
          compare_products str_upper py_repr format_fixed chat_create exn_message db sku_list
          = match chat_create COMPARISON_SYSTEM_PROMPT
                    (comparison_header (length products) +:+ String.concat "" entries)
                    (7 # 10)%Q 400%Z with
            | Returned completion => Returned completion
            | Raised e => Returned (PyStr ("Error generating comparison: " +:+ exn_message e))
            end
    end.
Proof.
  intros Hdb.
  destruct (found_products_rows db sku_list) as (products & Hfound & Hall).
  exists products. split; [done |]. split; [done |].
  unfold compare_products. rewrite Hfound. cbn [bind].
  destruct products as [|row products]; [done |].
  destruct (mapM_result_Forall2 (comparison_entry py_repr format_fixed) (row :: products))
    as (entries & Hentries & _).
  { intros r Hr. rewrite Forall_forall in Hall, Hdb.
    destruct (Hall r Hr) as [Hin _]. destruct (Hdb r Hin) as [[name Hname] Hprice].
    unfold comparison_entry, dict_item. rewrite Hname. cbn [bind].
    destruct (py_format_f_returns format_fixed 2 _ Hprice) as [price ->].
    cbn [bind]. eauto. }
  exists entries. split; [done |]. rewrite Hentries. cbn [bind].
  by destruct (chat_create _ _ _ _).
Qed.
End CompareFacts.

Lemma compare_products_nothing_found_witness :
  compare_products ascii_upper sample_repr sample_fixed silent_chat sample_exn_message
    sample_catalog ["nosuch"; "part"] = Returned (PyStr NO_COMPARISON).
Proof.
  apply (compare_products_nothing_found ascii_upper sample_repr sample_fixed silent_chat
           sample_exn_message sample_catalog ["nosuch"; "part"]).
  intros sku row Hsku Hrow.
  apply elem_of_cons in Hsku as [-> | Hsku];
    [| apply list_elem_of_singleton in Hsku as ->];
    (apply elem_of_cons in Hrow as [-> | Hrow];
     [| apply list_elem_of_singleton in Hrow as ->]); vm_compute; discriminate.
Defined.

Lemma compare_products_reports_model_failure_witness :
  ∃ products,
    found_products ascii_upper sample_catalog ["xwfe"; "nosuch"] = Returned products ∧
    compare_products ascii_upper sample_repr sample_fixed failing_chat sample_exn_message
      sample_catalog ["xwfe"; "nosuch"]
    = Returned (PyStr "Error generating comparison: error").
Proof.
  destruct (compare_products_reports_model_failure ascii_upper sample_repr sample_fixed
              failing_chat sample_exn_message sample_catalog ["xwfe"; "nosuch"])
    as (products & Hfound & _ & _).
  - unfold sample_catalog. apply Forall_cons. split; [split; vm_compute; eauto |].
    apply Forall_cons. split; [split; vm_compute; eauto | apply Forall_nil_2].
  - exists products. split; [exact Hfound | reflexivity].
Defined.

(** ** api/routes/search.py *)

Lemma filter_with_inv (test : pydict → filtered bool) (l out : list pydict) :
  filter_with test l = Kept out →
  out `sublist_of` l ∧ Forall (λ p, test p = Kept true) out.
Proof.
  revert out. induction l as [|p l IH]; intros out; cbn [filter_with].
  - intros [= <-]. split; constructor.
  - destruct (test p) as [keep|] eqn:Hp; cbn [filtered_bind]; [| done].
    destruct (filter_with test l) as [kept|]; cbn [filtered_bind]; [| done].
    destruct (IH kept eq_refl) as [Hsub Hall]. intros [= <-].
    destruct keep; split;
      [by apply sublist_skip | by constructor | by apply sublist_cons | done].
Qed.

Lemma filter_with_all (test : pydict → filtered bool) (l : list pydict) :
  Forall (λ p, test p = Kept true) l → filter_with test l = Kept l.
Proof.
  induction 1 as [|p l Hp _ IH]; cbn [filter_with]; [done |].
  by rewrite Hp, IH.
Qed.

Lemma stage_inv {F} (f : option F) (test : F → pydict → filtered bool)
    (l out : list pydict) :
  stage f test l = Kept out →
  out `sublist_of` l ∧
  ∀ x, f = Some x → Forall (λ p, test x p = Kept true) out.
Proof.
  destruct f as [x|]; cbn [stage].
  - intros [Hsub Hall]%filter_with_inv. split; [done |]. by intros ? [= <-].
  - intros [= <-]. split; [done | done].
Qed.

Lemma stage_all {F} (f : option F) (test : F → pydict → filtered bool)
    (l : list pydict) :
  (∀ x, f = Some x → Forall (λ p, test x p = Kept true) l) →
  stage f test l = Kept l.
Proof.
  destruct f as [x|]; cbn [stage]; [| done].
  intros H. apply filter_with_all. by apply H.
Qed.

Lemma Forall_sublist {A} (P : A → Prop) (l k : list A) :
  l `sublist_of` k → Forall P k → Forall P l.
Proof.
  intros Hsub Hk. rewrite Forall_forall in Hk. rewrite Forall_forall.
  intros x Hx. apply Hk. by eapply elem_of_sublist.
Qed.

Section FilterFacts.
Variable str_lower : string → string.

(** What a successful run of [apply_filters] went through. *)
Lemma apply_filters_inv (results out : list pydict) (filters : SearchFilters) :
  apply_filters str_lower results filters = Kept out →
  out `sublist_of` results ∧
  (∀ b, text_filter (filter_brand filters) = Some b →
        Forall (λ p, brand_test str_lower b p = Kept true) out) ∧
  (∀ c, text_filter (filter_category filters) = Some c →
        Forall (λ p, category_test str_lower c p = Kept true) out) ∧
  (∀ m, filter_min_price filters = Some m →
        Forall (λ p, min_price_test m p = Kept true) out) ∧
  (∀ m, filter_max_price filters = Some m →
        Forall (λ p, max_price_test m p = Kept true) out) ∧
  (∀ b, filter_in_stock filters = Some b →
        Forall (λ p, in_stock_test b p = Kept true) out).
Proof.
  unfold apply_filters.
  destruct (stage (text_filter (filter_brand filters)) _ results) as [l1|] eqn:H1;
    cbn [filtered_bind]; [| done].
  destruct (stage (text_filter (filter_category filters)) _ l1) as [l2|] eqn:H2;
    cbn [filtered_bind]; [| done].
  destruct (stage (filter_min_price filters) _ l2) as [l3|] eqn:H3;
    cbn [filtered_bind]; [| done].
  destruct (stage (filter_max_price filters) _ l3) as [l4|] eqn:H4;
    cbn [filtered_bind]; [| done].
  intros H5.
  apply stage_inv in H1 as [S1 A1]. apply stage_inv in H2 as [S2 A2].
  apply stage_inv in H3 as [S3 A3]. apply stage_inv in H4 as [S4 A4].
  apply stage_inv in H5 as [S5 A5].
  assert (out `sublist_of` l3) as S53 by by etrans.
  assert (out `sublist_of` l2) as S52 by by etrans.
  assert (out `sublist_of` l1) as S51 by by etrans.
  split_and!.
  - by etrans.
  - intros b Hb. eapply Forall_sublist; [exact S51 | by apply A1].
  - intros c Hc. eapply Forall_sublist; [exact S52 | by apply A2].
  - intros m Hm. eapply Forall_sublist; [exact S53 | by apply A3].
  - intros m Hm. eapply Forall_sublist; [exact S5 | by apply A4].
  - done.
Qed.

(** [apply_filters] only removes results: when it returns, its output is
    the input with some products left out, in the same order. *)
Theorem apply_filters_sublist (results out : list pydict) (filters : SearchFilters) :
  apply_filters str_lower results filters = Kept out → out `sublist_of` results.
Proof. by intros [H _]%apply_filters_inv. Qed.

(** Filtering twice with the same filters changes nothing more. *)
Theorem apply_filters_idempotent (results out : list pydict) (filters : SearchFilters) :
  apply_filters str_lower results filters = Kept out →
  apply_filters str_lower out filters = Kept out.
Proof.
  intros (_ & A1 & A2 & A3 & A4 & A5)%apply_filters_inv. unfold apply_filters.
  rewrite (stage_all _ _ _ A1). cbn [filtered_bind].
  rewrite (stage_all _ _ _ A2). cbn [filtered_bind].
  rewrite (stage_all _ _ _ A3). cbn [filtered_bind].
  rewrite (stage_all _ _ _ A4). cbn [filtered_bind].
  by rewrite (stage_all _ _ _ A5).
Qed.

(** The rows of [search_products] carry no [in_stock] column, so asking
    the search route for in-stock products only leaves no result at all,
    whatever the catalog says about stock. *)
Theorem in_stock_filter_empties_search (argsort : list Q → list nat)
    (pickle_loads embed_search_query : string → result (list Q))
    (cosine_similarity : list Q → list (list Q) → result (list Q))
    (db : list pydict) (query_text : string) (top_k : Z)
    (found out : list pydict) (filters : SearchFilters) :
  search_products argsort pickle_loads embed_search_query cosine_similarity
    db query_text top_k = Returned found →
  filter_in_stock filters = Some true →
  apply_filters str_lower found filters = Kept out →
  out = [].
Proof.
  intros Hfound Hstock (Hsub & _ & _ & _ & _ & A5)%apply_filters_inv.
  destruct out as [|p out]; [done |]. exfalso.
  specialize (A5 true Hstock). apply Forall_cons in A5 as [Hp _].
  destruct (search_products_shape argsort pickle_loads embed_search_query
              cosine_similarity db query_text top_k) as (found' & Hfound' & Hshape).
  rewrite Hfound in Hfound'. injection Hfound' as <-.
  rewrite Forall_forall in Hshape.
  destruct (Hshape p) as (row & s & _ & ->).
  { eapply elem_of_sublist; [left | exact Hsub]. }
  unfold in_stock_test, dict_get_or in Hp.
  rewrite lookup_insert_ne in Hp by done.
  rewrite select_columns_absent in Hp by not_a_column. discriminate Hp.
Qed.

Lemma filter_with_raises (test : pydict → filtered bool) (l : list pydict) (e : filter_exn) :
  (∀ p e', test p = FilterRaised e' → e' = e) →
  (∃ p, p ∈ l ∧ test p = FilterRaised e) →
  filter_with test l = FilterRaised e.
Proof.
  intros Honly. induction l as [|p l IH]; intros (q & Hq & Hraise).
  - by apply elem_of_nil in Hq.
  - cbn [filter_with]. destruct (test p) as [keep|e'] eqn:Hp; cbn [filtered_bind].
    + rewrite IH; [done |]. exists q. split; [| done].
      apply elem_of_cons in Hq as [-> | Hq]; [congruence | done].
    + by rewrite (Honly p e' Hp).
Qed.

(** A brand filter raises [AttributeError] as soon as one result has a
    NULL brand: [None] has no [lower]. *)
Theorem brand_filter_raises_on_null_brand (results : list pydict)
    (filters : SearchFilters) (brand : string) (p : pydict) :
  filter_brand filters = Some brand → brand ≠ "" →
  p ∈ results → p !! "brand" = Some PyNone →
  apply_filters str_lower results filters = FilterRaised AttributeError.
Proof.
  intros Hbrand Hne Hp Hnull. unfold apply_filters, text_filter. rewrite Hbrand.
  destruct (String.eqb_spec brand "") as [-> | _]; [done |]. cbn [stage].
  rewrite (filter_with_raises _ _ AttributeError); [done | |].
  - intros q e'. unfold brand_test, lower_equals.
    by destruct (dict_get_or q "brand" (PyStr "")); intros [= <-].
  - exists p. split; [done |]. unfold brand_test, dict_get_or. by rewrite Hnull.
Qed.
End FilterFacts.

Lemma apply_filters_sublist_witness :
  [xwfe_result] `sublist_of` [xwfe_result].
Proof.
  apply (apply_filters_sublist ascii_lower [xwfe_result] [xwfe_result]
           {| filter_brand := Some "ge"; filter_category := None;
              filter_min_price := Some 10%Q; filter_max_price := Some 100%Q;
              filter_in_stock := None |}).
  reflexivity.
Defined.

Lemma apply_filters_idempotent_witness :
  apply_filters ascii_lower [xwfe_result]
    {| filter_brand := Some "ge"; filter_category := None;
       filter_min_price := Some 10%Q; filter_max_price := Some 100%Q;
       filter_in_stock := None |} = Kept [xwfe_result].
Proof.
  apply (apply_filters_idempotent ascii_lower
           [xwfe_result; sample_product "W10295370A" "Whirlpool Water Filter" "Whirlpool"
                           (4999 # 100)]
           [xwfe_result]
           {| filter_brand := Some "ge"; filter_category := None;
              filter_min_price := Some 10%Q; filter_max_price := Some 100%Q;
              filter_in_stock := None |}).
  vm_compute. reflexivity.
Defined.

Lemma in_stock_filter_empties_search_witness :
  ([] : list pydict) = [].
Proof.
  apply (in_stock_filter_empties_search ascii_lower argsort_stable sample_pickle
           sample_embedder sample_cosine sample_catalog "water filter" 5
           [ <["similarity" := PyFloat (1 # 2)]>
               (select_columns
                  ["sku"; "product_name"; "brand"; "category"; "sale_price"; "embedding"]
                  (catalog_row "W10295370A" "Whirlpool Water Filter" "Whirlpool"
                     (PyFloat (4999 # 100)) 1 (PyBytes "e")));
             <["similarity" := PyFloat (1 # 2)]>
               (select_columns
                  ["sku"; "product_name"; "brand"; "category"; "sale_price"; "embedding"]
                  (catalog_row "XWFE" "GE Water Filter" "GE" (PyFloat (5762 # 100)) 1
                     (PyBytes "e"))) ]
           [] (only_in_stock true)).
  - vm_compute. reflexivity.
  - reflexivity.
  - vm_compute. reflexivity.
Defined.

(** Every product of the sample catalog is in stock, and the filter still
    leaves none. *)
Example in_stock_filter_on_sample_search :
  ∃ found,
    search_products argsort_stable sample_pickle sample_embedder sample_cosine
      sample_catalog "water filter" 5 = Returned found ∧
    length found = 2 ∧
    apply_filters ascii_lower found (only_in_stock true) = Kept [].
Proof. eexists. split_and!; vm_compute; reflexivity. Qed.

Lemma brand_filter_raises_on_null_brand_witness :
  apply_filters ascii_lower [xwfe_result; <["brand" := PyNone]> xwfe_result]
    {| filter_brand := Some "GE"; filter_category := None; filter_min_price := None;
       filter_max_price := None; filter_in_stock := None |}
  = FilterRaised AttributeError.
Proof.
  apply (brand_filter_raises_on_null_brand ascii_lower
           [xwfe_result; <["brand" := PyNone]> xwfe_result]
           {| filter_brand := Some "GE"; filter_category := None; filter_min_price := None;
              filter_max_price := None; filter_in_stock := None |}
           "GE" (<["brand" := PyNone]> xwfe_result)).
  - reflexivity.
  - discriminate.
  - right. left.
  - reflexivity.
Defined.

(** ** semantic_search.py: rankings of different lengths *)

Lemma mapM_result_take {A B} (f : A → result B) (l : list A) (ys : list B) (n : nat) :
  mapM_result f l = Returned ys →
  mapM_result f (take n l) = Returned (take n ys).
Proof.
  revert ys n. induction l as [|x l IH]; intros ys n; simpl.
  - intros [= <-]. by destruct n.
  - destruct (f x) as [y|] eqn:Hy; simpl; [| done].
    destruct (mapM_result f l) as [ys'|] eqn:Hys; simpl; [| done].
    intros [= <-]. destruct n as [|n]; [done |]. simpl.
    by rewrite Hy, (IH ys' n eq_refl).
Qed.

Lemma top_indices_take (argsort : list Q → list nat) (similarities : list Q) (top_k : Z) :
  (1 ≤ top_k)%Z →
  top_indices argsort similarities top_k
  = take (Z.to_nat top_k) (reverse (argsort similarities)).
Proof.
  intros Hk. unfold top_indices, slice_rev, slice_from.
  rewrite slice_start_last by done. rewrite reverse_drop.
  destruct (decide (Z.to_nat top_k ≤ length (argsort similarities))) as [Hle | Hgt].
  - f_equal. lia.
  - rewrite !take_ge; [done | rewrite length_reverse; lia | rewrite length_reverse; lia].
Qed.

(** Asking for fewer results gives the beginning of the longer ranking:
    for [1 <= k <= k'], the results for [k] are the first [k] results for
    [k'], whatever argsort is used. *)
Theorem rank_results_prefix (argsort : list Q → list nat) (products : list pydict)
    (similarities : list Q) (k k' : Z) (longer : list pydict) :
  (1 ≤ k)%Z → (k ≤ k')%Z →
  rank_results argsort products similarities k' = Returned longer →
  rank_results argsort products similarities k = Returned (take (Z.to_nat k) longer).
Proof.
  intros Hk Hk'. unfold rank_results.
  rewrite !top_indices_take by lia. intros Hlonger.
  replace (take (Z.to_nat k) (reverse (argsort similarities)))
    with (take (Z.to_nat k) (take (Z.to_nat k') (reverse (argsort similarities)))).
  - by apply mapM_result_take.
  - rewrite take_take. f_equal. lia.
Qed.

Lemma rank_results_prefix_witness :
  ∃ longer,
    rank_results argsort_stable sample_products [3 # 10; 9 # 10]%Q 2 = Returned longer ∧
    rank_results argsort_stable sample_products [3 # 10; 9 # 10]%Q 1
      = Returned (take (Z.to_nat 1) longer).
Proof.
  destruct (mapM_result_Forall2
              (build_result sample_products [3 # 10; 9 # 10]%Q)
              (top_indices argsort_stable [3 # 10; 9 # 10]%Q 2)) as (longer & Hlonger & _).
  { intros idx Hidx. apply build_result_returns; vm_compute in Hidx;
      apply elem_of_cons in Hidx as [-> | Hidx];
      [| apply list_elem_of_singleton in Hidx as -> | | apply list_elem_of_singleton in Hidx as ->];
      simpl; lia. }
  exists longer. split; [exact Hlonger |].
  apply (rank_results_prefix argsort_stable sample_products [3 # 10; 9 # 10]%Q 1 2 longer);
    [lia | lia | exact Hlonger].
Defined.

(** ** gpt_response_generator.py: a primary product without a price *)

Lemma mapM_result_raises {A B} (f : A → result B) (l : list A) (e : exn) :
  (∀ x e', x ∈ l → f x = Raised e' → e' = e) →
  (∃ x, x ∈ l ∧ f x = Raised e) →
  mapM_result f l = Raised e.
Proof.
  induction l as [|x l IH]; intros Honly (y & Hy & Hraise).
  - by apply elem_of_nil in Hy.
  - cbn [mapM_result]. destruct (f x) as [b|e'] eqn:Hx; cbn [bind].
    + rewrite IH; [done | |].
      * intros z e' Hz. apply Honly. by right.
      * exists y. split; [| done]. apply elem_of_cons in Hy as [-> | Hy]; [congruence | done].
    + rewrite (Honly x e'); [done | left | done].
Qed.

Section NullPriceFacts.
Variable py_repr : pyval → string.
Variable format_fixed : nat → Q → string.
Variable str_take : nat → string → string.
Variable chat_create : string → string → Q → Z → result pyval.
Variable RESPONSE_SYSTEM_PROMPT : string.
Variable config_DATABASE : list pydict.

Lemma search_result_fields (r : pydict) :
  is_search_result r →
  number_or_none (dict_get r "sale_price") ∧
  dict_get_or r "sale_price" (PyInt 0) = dict_get r "sale_price" ∧
  dict_get r "regular_price" = PyNone ∧
  dict_get r "compatible_models" = PyNone ∧
  dict_get r "similarity_score" = PyNone.
Proof.
  intros (row & s & Hprice & ->).
  assert (∀ c, c ∉ ["sku"; "product_name"; "brand"; "category"; "sale_price"; "embedding"] →
               c ≠ "similarity" →
               dict_get (<["similarity" := PyFloat s]>
                  (select_columns
                     ["sku"; "product_name"; "brand"; "category"; "sale_price"; "embedding"]
                     row)) c = PyNone) as Habsent.
  { intros c Hc Hne. unfold dict_get. rewrite lookup_insert_ne by done.
    by rewrite select_columns_absent. }
  assert ((<["similarity" := PyFloat s]>
             (select_columns
                ["sku"; "product_name"; "brand"; "category"; "sale_price"; "embedding"]
                row)) !! "sale_price" = Some (dict_get row "sale_price")) as Hlookup.
  { rewrite lookup_insert_ne by done. apply select_columns_lookup. do 4 right. left. }
  split_and!.
  - unfold dict_get at 1. by rewrite Hlookup.
  - unfold dict_get_or, dict_get at 1. by rewrite Hlookup.
  - apply Habsent; [not_a_column | done].
  - apply Habsent; [not_a_column | done].
  - apply Habsent; [not_a_column | done].
Qed.

(** The prompt formatting guards the price with [if sale_price:], so a
    NULL price does not make it raise. *)
Lemma format_search_result_returns (i : nat) (r : pydict) :
  is_search_result r →
  ∃ text, format_product py_repr format_fixed str_take i r false = Returned text.
Proof.
  intros (Hprice & _ & Hregular & Hmodels & Hscore)%search_result_fields.
  unfold format_product. cbv zeta.
  apply bind_returns.
  { destruct (py_truthy (dict_get r "brand")) eqn:Hb; [| eauto].
    rewrite dict_item_truthy by done. cbn [bind]. eauto. }
  intros parts1. apply bind_returns.
  { destruct (py_truthy (dict_get r "sale_price")) eqn:Hs; [| eauto].
    pose proof (truthy_number _ Hs Hprice) as Hnum.
    destruct (py_format_f_returns format_fixed 2 _ Hnum) as [s Hfs].
    rewrite Hregular. cbn [py_truthy bind]. rewrite Hfs. cbn [bind]. eauto. }
  intros parts2. rewrite Hmodels, Hscore. cbn [py_truthy py_is_none negb andb bind]. eauto.
Qed.

Lemma fallback_product_lines_of_search_result (i : nat) (r : pydict) :
  is_search_result r →
  match r !! "sale_price" with
  | Some PyNone => fallback_product_lines py_repr format_fixed i r = Raised TypeError
  | _ => ∃ lines, fallback_product_lines py_repr format_fixed i r = Returned lines
  end.
Proof.
  intros Hr. pose proof (search_result_fields r Hr) as (Hprice & Hsame & _).
  unfold fallback_product_lines. cbv zeta. rewrite Hsame.
  unfold dict_get in *. destruct (r !! "sale_price") as [v|] eqn:Hv; simpl in *.
  - assert (v = PyNone ∨ is_number v) as [-> | Hnum] by done; [done |].
    destruct (py_format_f_returns format_fixed 2 _ Hnum) as [s Hs].
    destruct v; try (rewrite Hs; cbn [bind]; eauto).
    by destruct Hnum.
  - destruct Hr as (row & s & _ & ->). rewrite lookup_insert_ne in Hv by done.
    rewrite select_columns_lookup in Hv; [done |]. do 4 right. left.
Qed.

(** A search result whose catalog price is NULL is answered as long as
    the model is: the prompt is built and the completion returned.  When
    the model call fails, the template raises [TypeError] on the price of
    that product, so the reply depends on the model being available. *)
Theorem null_priced_result_needs_the_model (query_text : string)
    (results : search_results) (p : pydict) :
  Forall is_search_result (sr_results results) →
  p ∈ take 3 (sr_results results) →
  p !! "sale_price" = Some PyNone →
  ∃ products_text,
    format_products_for_gpt py_repr format_fixed str_take (take 3 (sr_results results)) false
      = Returned products_text ∧
    generate_response py_repr format_fixed str_take chat_create RESPONSE_SYSTEM_PROMPT
      config_DATABASE query_text results false
    = match chat_create RESPONSE_SYSTEM_PROMPT (response_prompt query_text products_text "")
              (7 # 10)%Q 300%Z with
      | Returned completion => Returned completion
      | Raised _ => Raised TypeError
      end.
Proof.
  intros Hshape Hp Hnull. unfold generate_response.
  destruct (sr_results results) as [|q qs] eqn:Hresults; [by apply elem_of_nil in Hp |].
  assert (Forall is_search_result (slice_to 3 (q :: qs))) as Htop by by apply Forall_take.
  assert (∃ products_text,
            format_products_for_gpt py_repr format_fixed str_take (slice_to 3 (q :: qs)) false
            = Returned products_text) as [products_text Hpt].
  { unfold format_products_for_gpt.
    change (slice_to 3 (q :: qs)) with (q :: take 2 qs) in *.
    destruct (mapM_result_id_returns
      (imap (λ i p, format_product py_repr format_fixed str_take (S i) p false)
            (q :: take 2 qs))) as (texts & -> & _); [| cbn [bind]; eauto].
    intros r (i & x & -> & Hx)%elem_of_lookup_imap.
    apply format_search_result_returns. rewrite Forall_forall in Htop.
    apply Htop. by eapply list_elem_of_lookup_2. }
  exists products_text. split; [exact Hpt |].
  rewrite Hpt. cbn [bind response_upsells].
  destruct (chat_create _ _ _ _) as [completion|e]; cbn [try_except]; [done |].
  unfold generate_fallback_response.
  change (slice_to 3 (q :: qs)) with (q :: take 2 qs) in *.
  unfold fallback_lines. cbv zeta. unfold slice_to.
  change (take 3 (q :: take 2 qs)) with (q :: take 2 (take 2 qs)).
  rewrite take_take. change (2 `min` 2) with 2.
  rewrite (mapM_result_raises (λ r : result (list string), r) _ TypeError); [done | |].
  - intros r e' (i & x & -> & Hx)%elem_of_lookup_imap Hraise.
    assert (is_search_result x) as Hx'.
    { rewrite Forall_forall in Htop. apply Htop. by eapply list_elem_of_lookup_2. }
    pose proof (fallback_product_lines_of_search_result (S i) x Hx') as Hlines.
    destruct (x !! "sale_price") as [v|]; [destruct v |];
      first [ congruence | destruct Hlines as [lines Hl]; congruence ].
  - destruct (proj1 (list_elem_of_lookup _ _) Hp) as [i Hi].
    exists (fallback_product_lines py_repr format_fixed (S i) p). split.
    + apply elem_of_lookup_imap. by exists i, p.
    + pose proof (fallback_product_lines_of_search_result (S i) p) as Hlines.
      rewrite Hnull in Hlines. apply Hlines.
      rewrite Forall_forall in Htop. apply Htop. by eapply list_elem_of_lookup_2.
Qed.
End NullPriceFacts.

Lemma null_priced_result_needs_the_model_witness :
  ∃ products_text,
    format_products_for_gpt sample_repr sample_fixed sample_take (take 3 [unpriced_result]) false
      = Returned products_text ∧
    generate_response sample_repr sample_fixed sample_take failing_chat "reply"
      sample_catalog "water filter"
      {| sr_query := "water filter"; sr_parsed_query := PyNone;
         sr_results := [unpriced_result] |} false
    = Raised TypeError.
Proof.
  apply (null_priced_result_needs_the_model sample_repr sample_fixed sample_take
           failing_chat "reply" sample_catalog "water filter"
           {| sr_query := "water filter"; sr_parsed_query := PyNone;
              sr_results := [unpriced_result] |} unpriced_result).
  - apply Forall_cons. split; [| apply Forall_nil_2].
    exists (catalog_row "XWFE" "GE Water Filter" "GE" PyNone 1 (PyBytes "e")), (89 # 100)%Q.
    split; [left; reflexivity | reflexivity].
  - left.
  - reflexivity.
Defined.

(** The same product is answered when the model is. *)
Example unpriced_result_with_model :
  generate_response sample_repr sample_fixed sample_take braces_chat "reply"
    sample_catalog "water filter"
    {| sr_query := "water filter"; sr_parsed_query := PyNone;
       sr_results := [unpriced_result] |} false
  = Returned (PyStr "{}").
Proof. reflexivity. Qed.
